(** * Mouse locomotion: a shallow embedding of the Python sources

    The models come first, one module per source file:
    - [Py]: the fragment of Python the sources rely on (exceptions, float
      division, [math.pow], [math.log], [+] on strings and numbers, loops
      over lists and over dictionary views, the logger);
    - [Geometry]: points and world transforms of the host;
    - [FiberModel]: [muscles/fiber.py];
    - [BrownModel]: the parameter resolution of [muscles/brown.py];
    - [HostModel]: [simulators/updaters/blenderUtils.py];
    - [MuscleInterface], [LegModel], [BodyModel]: [body.py];
    - [OptimizationModel]: [optimization/optimization.py];
    - [Connection], [ClientModel]: the health check of
      [simulations/clients/client.py];
    - [Examples]: concrete parts for the examples.
    The modules [PyFacts], [FiberTheory], [BrownTheory], [LegTheory],
    [BodyTheory], [OptimizationTheory] and [ClientTheory] hold the results.

    Python floats are idealised as real numbers: rounding, overflow and
    NaN are outside the model.  Everything else that can go wrong in the
    sources (a division by zero, a [None] dereference, [str + int]) is an
    explicit [Raise]. *)

From Stdlib Require Import Reals Lra ZArith.
From stdpp Require Import gmap strings list fin_maps pretty sorting.

(* ===================================================================== *)
(** * The Python fragment *)
(* ===================================================================== *)

Module Py.

Inductive exn : Set :=
| ZeroDivisionError
| ValueError
| TypeError
| AttributeError
| KeyError
| IndexError
| RuntimeError
| SystemError.

Inductive result (A : Type) : Type :=
| Ok (a : A)
| Raise (e : exn).
Arguments Ok {A} a.
Arguments Raise {A} e.

(** A method of an object whose state has type [S].  The state is
    returned in both outcomes: what a method assigned before it raised
    stays assigned. *)
Definition M (S A : Type) : Type := S -> S * result A.

Definition ret {S A} (a : A) : M S A := fun s => (s, Ok a).

Definition raise {S A} (e : exn) : M S A := fun s => (s, Raise e).

Definition bind {S A B} (c : M S A) (k : A -> M S B) : M S B :=
  fun s => match c s with
           | (s', Ok a) => k a s'
           | (s', Raise e) => (s', Raise e)
           end.

Definition get {S} : M S S := fun s => (s, Ok s).

Definition modify {S} (g : S -> S) : M S unit := fun s => (g s, Ok tt).

Definition lift {S A} (r : result A) : M S A := fun s => (s, r).

Declare Scope py_scope.
Delimit Scope py_scope with py.
Notation "x <- c ;; k" := (bind c (fun x => k))
  (at level 100, c at next level, right associativity) : py_scope.
Notation "c ;; k" := (bind c (fun _ => k))
  (at level 100, right associativity) : py_scope.

(** Sequencing of plain fallible expressions. *)
Definition rbind {A B} (r : result A) (k : A -> result B) : result B :=
  match r with
  | Ok a => k a
  | Raise e => Raise e
  end.

(** [for x in l: body(x)] *)
Fixpoint for_each {S A} (l : list A) (body : A -> M S unit) : M S unit :=
  match l with
  | [] => ret tt
  | x :: l' => bind (body x) (fun _ => for_each l' body)
  end.

(** [for x in view: body(x)] over a live view of a dictionary, as
    Python 3 runs it: [l] is the content of the dictionary when the loop
    starts, [n0] its size then; every step of the iterator, the last one
    included, raises once the size has changed. *)
Fixpoint for_each_live {S A} (size_of : S -> nat) (n0 : nat) (l : list A)
    (body : A -> M S unit) : M S unit :=
  fun s =>
    if bool_decide (size_of s = n0)
    then match l with
         | [] => (s, Ok tt)
         | x :: l' => bind (body x) (fun _ => for_each_live size_of n0 l' body) s
         end
    else (s, Raise RuntimeError).

Local Open Scope R_scope.

(** The values that travel through dynamically typed positions of the
    sources: keyword bundles, log messages, operands of [+]. *)
#[warnings="-register-all"]
Inductive pyval : Type :=
| VNone
| VBool (b : bool)
| VInt (z : Z)
| VFloat (r : R)
| VStr (s : string)
| VList (l : list pyval)
| VDict (d : list (string * pyval)).

(** The numeric value of an operand of arithmetic; [bool] is a subclass
    of [int]. *)
Definition as_int (v : pyval) : option Z :=
  match v with
  | VBool b => Some (if b then 1%Z else 0%Z)
  | VInt z => Some z
  | _ => None
  end.

Definition as_float (v : pyval) : option R :=
  match v with
  | VFloat r => Some r
  | _ => IZR <$> as_int v
  end.

(** [a + b]: concatenation of two strings or of two lists, addition of
    numbers, [TypeError] for every other pair of operands, a string and
    an integer among them. *)
Definition py_add (a b : pyval) : result pyval :=
  match a, b with
  | VStr s, VStr t => Ok (VStr (s +:+ t))
  | VList l, VList k => Ok (VList (l ++ k))
  | _, _ =>
      match as_int a, as_int b with
      | Some x, Some y => Ok (VInt (x + y))
      | _, _ =>
          match as_float a, as_float b with
          | Some x, Some y => Ok (VFloat (x + y))
          | _, _ => Raise TypeError
          end
      end
  end.

(** The [logging] module, as the list of records emitted so far. *)
Inductive level : Set := DEBUG | INFO | WARNING | ERROR.
Definition Log : Type := list (level * pyval).
Definition emit (lv : level) (msg : pyval) (log : Log) : Log := log ++ [(lv, msg)].

(** [a / b] on floats. *)
Definition fdiv (a b : R) : result R :=
  if Req_dec_T b 0 then Raise ZeroDivisionError else Ok (a / b).

(** [math.pow(x, y)]: a negative base wants an integral exponent, a zero
    base a non-negative one. *)
Definition math_pow (x y : R) : result R :=
  if Rlt_dec 0 x then Ok (Rpower x y)
  else if Req_dec_T x 0 then
    if Rlt_dec y 0 then Raise ValueError
    else if Req_dec_T y 0 then Ok 1 else Ok 0
  else if Req_dec_T (IZR (Int_part y)) y then Ok (powerRZ x (Int_part y))
  else Raise ValueError.

(** [math.log(x)]. *)
Definition math_log (x : R) : result R :=
  if Rlt_dec 0 x then Ok (ln x) else Raise ValueError.

End Py.

Import Py.

(** Case analysis on every comparison of reals that the goal branches on;
    the impossible branches are closed by linear arithmetic. *)
Ltac r_cases :=
  repeat match goal with
         | |- context [Rlt_dec ?a ?b] => destruct (Rlt_dec a b); try lra
         | |- context [Rle_dec ?a ?b] => destruct (Rle_dec a b); try lra
         | |- context [Req_dec_T ?a ?b] => destruct (Req_dec_T a b); try lra
         end.


(* ===================================================================== *)
(** * Points and transforms of the host world *)
(* ===================================================================== *)

Module Geometry.

Local Open Scope R_scope.

(** A point of the host world. *)
Record vec : Type := mkVec { vx : R; vy : R; vz : R }.

Definition vec_sub (a b : vec) : vec :=
  mkVec (vx a - vx b) (vy a - vy b) (vz a - vz b).

(** [np.linalg.norm] of a point, also [Vector.length]. *)
Definition norm (a : vec) : R :=
  sqrt (vx a * vx a + vy a * vy a + vz a * vz a).

(** A world transform: the rows of its linear part and its translation.
    Applied to a point it is the product of the 4x4 matrix with the point
    extended by 1. *)
Record Matrix : Type := mkMatrix {
  row_x : vec;
  row_y : vec;
  row_z : vec;
  translation : vec
}.

Definition dot (a b : vec) : R := vx a * vx b + vy a * vy b + vz a * vz b.

Definition apply (m : Matrix) (p : vec) : vec :=
  mkVec (dot (row_x m) p + vx (translation m))
        (dot (row_y m) p + vy (translation m))
        (dot (row_z m) p + vz (translation m)).

End Geometry.
(* ===================================================================== *)
(** * muscles/fiber.py *)
(* ===================================================================== *)

Module FiberModel.

Local Open Scope R_scope.
Local Open Scope py_scope.

(** The three classes of the file. *)
Inductive fiber_class : Set := Fiber_ | SlowTwitchFiber | FastTwitchFiber.

(** The attributes of a fiber object.  [h], [f_pcsa], [f_05], [length]
    and [velocity] are the constructor's arguments; the other fields are
    the attributes the methods assign.  [yielding] exists on slow
    fibres and [sag] on fast ones only; the methods of the other classes
    never read them.  The coefficients that [__init__] sets once and no
    method assigns again are functions of the class below. *)
Record Fiber : Type := mkFiber {
  cls : fiber_class;
  h : R;
  f_pcsa : R;
  f_05 : R;
  length : R;
  velocity : R;
  f_env : R;
  tf : R;
  f_int : R;
  f_eff : R;
  nf : R;
  activation_frequency : R;
  yielding : R;
  sag : R
}.

Definition set_f_env (v : R) (f : Fiber) : Fiber :=
  mkFiber (cls f) (h f) (f_pcsa f) (f_05 f) (length f) (velocity f)
          v (tf f) (f_int f) (f_eff f) (nf f) (activation_frequency f)
          (yielding f) (sag f).
Definition set_tf (v : R) (f : Fiber) : Fiber :=
  mkFiber (cls f) (h f) (f_pcsa f) (f_05 f) (length f) (velocity f)
          (f_env f) v (f_int f) (f_eff f) (nf f) (activation_frequency f)
          (yielding f) (sag f).
Definition set_f_int (v : R) (f : Fiber) : Fiber :=
  mkFiber (cls f) (h f) (f_pcsa f) (f_05 f) (length f) (velocity f)
          (f_env f) (tf f) v (f_eff f) (nf f) (activation_frequency f)
          (yielding f) (sag f).
Definition set_f_eff (v : R) (f : Fiber) : Fiber :=
  mkFiber (cls f) (h f) (f_pcsa f) (f_05 f) (length f) (velocity f)
          (f_env f) (tf f) (f_int f) v (nf f) (activation_frequency f)
          (yielding f) (sag f).
Definition set_nf (v : R) (f : Fiber) : Fiber :=
  mkFiber (cls f) (h f) (f_pcsa f) (f_05 f) (length f) (velocity f)
          (f_env f) (tf f) (f_int f) (f_eff f) v (activation_frequency f)
          (yielding f) (sag f).
Definition set_activation_frequency (v : R) (f : Fiber) : Fiber :=
  mkFiber (cls f) (h f) (f_pcsa f) (f_05 f) (length f) (velocity f)
          (f_env f) (tf f) (f_int f) (f_eff f) (nf f) v
          (yielding f) (sag f).
Definition set_yielding (v : R) (f : Fiber) : Fiber :=
  mkFiber (cls f) (h f) (f_pcsa f) (f_05 f) (length f) (velocity f)
          (f_env f) (tf f) (f_int f) (f_eff f) (nf f) (activation_frequency f)
          v (sag f).
Definition set_sag (v : R) (f : Fiber) : Fiber :=
  mkFiber (cls f) (h f) (f_pcsa f) (f_05 f) (length f) (velocity f)
          (f_env f) (tf f) (f_int f) (f_eff f) (nf f) (activation_frequency f)
          (yielding f) v.

(** ** Coefficients, by class *)

Definition by_class (f : Fiber) (base fast : R) : R :=
  match cls f with FastTwitchFiber => fast | _ => base end.

Definition max_length (f : Fiber) : R := 0.
Definition f_min (f : Fiber) : R := 0.5 * f_05 f.
Definition f_max (f : Fiber) : R := 2.0 * f_05 f.
Definition u_r (f : Fiber) : R := 0.8.
Definition u_th (f : Fiber) : R := by_class f 0.001 (f_pcsa f * u_r f).

Definition t_f1 (f : Fiber) : R := by_class f 34.3 20.6.
Definition t_f2 (f : Fiber) : R := by_class f 22.7 13.6.
Definition t_f3 (f : Fiber) : R := by_class f 47.0 28.2.
Definition t_f4 (f : Fiber) : R := by_class f 25.2 15.1.

Definition af (f : Fiber) : R := 0.56.
Definition n_f0 (f : Fiber) : R := 2.1.
Definition n_f1 (f : Fiber) : R := by_class f 5 3.3.

Definition beta (f : Fiber) : R := by_class f 2.30 1.55.
Definition omega (f : Fiber) : R := by_class f 1.12 0.75.
Definition rho (f : Fiber) : R := by_class f 1.62 2.12.

Definition max_velocity (f : Fiber) : R := by_class f (-7.88) (-9.15).
Definition c_v0 (f : Fiber) : R := by_class f 5.88 (-5.70).
Definition c_v1 (f : Fiber) : R := by_class f 0 9.18.
Definition a_v0 (f : Fiber) : R := by_class f (-4.70) (-1.53).
Definition a_v1 (f : Fiber) : R := by_class f 8.41 0.
Definition a_v2 (f : Fiber) : R := by_class f (-5.34) 0.
Definition b_v (f : Fiber) : R := by_class f 0.35 0.69.

Definition c1 (f : Fiber) : R := 23.
Definition k1 (f : Fiber) : R := 0.046.
Definition l_r1 (f : Fiber) : R := 1.17.
Definition eta (f : Fiber) : R := 0.01.

Definition c2 (f : Fiber) : R := -0.02.
Definition k2 (f : Fiber) : R := -21.0.
Definition l_r2 (f : Fiber) : R := 0.70.

(** Yielding (slow fibres) and sag (fast fibres). *)
Definition c_gamma (f : Fiber) : R := 0.35.
Definition v_gamma (f : Fiber) : R := 0.1.
Definition t_gamma (f : Fiber) : R := 200.
Definition as1 (f : Fiber) : R := 1.76.
Definition as2 (f : Fiber) : R := 0.96.
Definition ts (f : Fiber) : R := 43.

(** ** Constructors *)

Definition new (c : fiber_class) (h_ f_pcsa_ length_ velocity_ f_05_ : R) : Fiber :=
  mkFiber c h_ f_pcsa_ f_05_ length_ velocity_ 0 0 0 0 0 0 0 0.

Definition Fiber_init := new Fiber_.
Definition SlowTwitchFiber_init := new SlowTwitchFiber.
Definition FastTwitchFiber_init := new FastTwitchFiber.

(** ** Methods of [Fiber] *)

(** [__process_recruitment]: the conditional expression spans the whole
    right-hand side, the quotient is evaluated only above the
    threshold. *)
Definition process_recruitment (spike_frequency : R) : M Fiber R :=
  f <- get ;;
  v <- (if Rlt_dec (u_th f) spike_frequency
        then q <- lift (fdiv (f_max f - f_min f) (1 - u_th f)) ;;
             ret (f_min f + q * spike_frequency)
        else ret (f_min f)) ;;
  modify (set_f_env v) ;;
  ret v.

(** [__process_tf]; [math.pow(self.length, 2)] is the square. *)
Definition process_tf (d_f_eff : R) : M Fiber R :=
  f <- get ;;
  v <- (if Rle_dec 0 d_f_eff
        then p <- lift (math_pow (length f) 2) ;;
             ret (t_f1 f * p + t_f2 f * f_env f)
        else lift (fdiv (t_f3 f + t_f4 f * activation_frequency f) (length f))) ;;
  modify (set_tf v) ;;
  ret v.

Definition intermediate_firing_frequency : M Fiber R :=
  f <- get ;;
  d_f_int <- lift (fdiv (f_env f - f_int f) (tf f)) ;;
  modify (set_f_int (f_int f + h f * d_f_int)) ;;
  ret (f_int f + h f * d_f_int).

Definition effective_firing_frequency : M Fiber R :=
  f <- get ;;
  d_f_eff <- lift (fdiv (f_int f - f_eff f) (tf f)) ;;
  modify (set_f_eff (f_eff f + h f * d_f_eff)) ;;
  ret (f_eff f + h f * d_f_eff).

(** [Fiber.__specific_function]. *)
Definition Fiber__specific_function : M Fiber R := ret 1.

Definition process_nf : M Fiber R :=
  f <- get ;;
  q <- lift (fdiv 1 (length f)) ;;
  modify (set_nf (n_f0 f + n_f1 f * (q - 1))) ;;
  ret (n_f0 f + n_f1 f * (q - 1)).

(** [Fiber.__activation_frequency].  Inside the body of class [Fiber]
    the name [self.__specific_function] is the private name
    [self._Fiber__specific_function]: the method of [Fiber] itself, for
    objects of the subclasses too. *)
Definition Fiber__activation_frequency : M Fiber R :=
  sf <- Fiber__specific_function ;;
  f <- get ;;
  q <- lift (fdiv (sf * f_eff f) (af f * nf f)) ;;
  p <- lift (math_pow q (nf f)) ;;
  modify (set_activation_frequency (1 - exp (- p))) ;;
  ret (1 - exp (- p)).

Definition force_length : M Fiber R :=
  f <- get ;;
  p <- lift (math_pow (length f) (beta f)) ;;
  q <- lift (fdiv (p - 1) (omega f)) ;;
  p' <- lift (math_pow (Rabs q) (rho f)) ;;
  ret (exp (- p')).

Definition force_velocity : M Fiber R :=
  f <- get ;;
  if Rle_dec (velocity f) 0
  then lift (fdiv (max_velocity f - velocity f)
                  (max_velocity f + velocity f * (c_v0 f + c_v1 f * length f)))
  else p <- lift (math_pow (length f) 2) ;;
       lift (fdiv (b_v f - velocity f * (a_v0 f + a_v1 f * length f + a_v2 f * p))
                  (b_v f + velocity f)).

Definition parallel_elastic : M Fiber R :=
  f <- get ;;
  q <- lift (fdiv (length f) (max_length f)) ;;
  q' <- lift (fdiv (q - l_r1 f) (k1 f)) ;;
  l <- lift (math_log (exp q' + 1)) ;;
  ret (c1 f * k1 f * l + eta f * velocity f).

Definition thick_filament_compression : M Fiber R :=
  f <- get ;;
  ret (c2 f * (exp (k2 f * (length f - l_r2 f)) - 1)).

Definition passive_force : M Fiber R :=
  pe <- parallel_elastic ;;
  f <- get ;;
  tfc <- thick_filament_compression ;;
  ret (pe + activation_frequency f * tfc).

Definition active_force : M Fiber R :=
  fl <- force_length ;;
  fv <- force_velocity ;;
  f <- get ;;
  ret (fl * fv * activation_frequency f).

(** The argument of [__process_tf] in [update_force]:
    [(self.f_int - self.f_eff) / self.tf if self.tf != 0 else 0.] *)
Definition tf_argument : M Fiber R :=
  f <- get ;;
  if Req_dec_T (tf f) 0 then ret 0
  else lift (fdiv (f_int f - f_eff f) (tf f)).

Definition update_force (spike_frequency : R) : M Fiber R :=
  process_recruitment spike_frequency ;;
  d <- tf_argument ;;
  process_tf d ;;
  intermediate_firing_frequency ;;
  effective_firing_frequency ;;
  process_nf ;;
  Fiber__activation_frequency ;;
  p <- passive_force ;;
  a <- active_force ;;
  ret (p + a).

(** ** Methods of the subclasses *)

(** [SlowTwitchFiber.__specific_function], private name
    [_SlowTwitchFiber__specific_function]. *)
Definition SlowTwitchFiber__specific_function : M Fiber R :=
  f <- get ;;
  q <- lift (fdiv (- velocity f) (v_gamma f)) ;;
  d_yielding <- lift (fdiv (1 - c_gamma f * (1 - exp q) - yielding f) (t_gamma f)) ;;
  modify (set_yielding (yielding f + d_yielding * h f)) ;;
  ret (yielding f + d_yielding * h f).

(** [FastTwitchFiber.__specific_function], private name
    [_FastTwitchFiber__specific_function]. *)
Definition FastTwitchFiber__specific_function : M Fiber R :=
  f <- get ;;
  let sag_as := if Rlt_dec (f_eff f) 0.1 then as1 f else as2 f in
  d_sag <- lift (fdiv (sag_as - sag f) (ts f)) ;;
  modify (set_sag (sag_as + d_sag * h f)) ;;
  ret (sag_as + d_sag * h f).

(** The first four calls of [update_force]: recruitment and the firing
    frequencies. *)
Definition firing_frequency_steps (spike_frequency : R) : M Fiber R :=
  process_recruitment spike_frequency ;;
  d <- tf_argument ;;
  process_tf d ;;
  intermediate_firing_frequency ;;
  effective_firing_frequency.

(** ** Closed forms used in the statements *)

(** The recruitment above the threshold. *)
Definition recruited (f : Fiber) (s : R) : R :=
  f_min f + (f_max f - f_min f) / (1 - u_th f) * s.

(** The value [__process_tf] stores. *)
Definition tf_value (d : R) (f : Fiber) : R :=
  if Rle_dec 0 d
  then t_f1 f * (length f * length f) + t_f2 f * f_env f
  else (t_f3 f + t_f4 f * activation_frequency f) / length f.

(** The target of the sag. *)
Definition sag_target (f : Fiber) : R :=
  if Rlt_dec (f_eff f) 0.1 then as1 f else as2 f.

(** A method leaves [yielding] and [sag] as they were. *)
Definition keeps_specific {A : Type} (c : M Fiber A) : Prop :=
  forall f : Fiber,
    yielding (fst (c f)) = yielding f /\ sag (fst (c f)) = sag f.

End FiberModel.


(* ===================================================================== *)
(** * muscles/fiber.py: the energy methods *)
(* ===================================================================== *)

Module FiberEnergy.

Import FiberModel.
Local Open Scope R_scope.
Local Open Scope py_scope.

(** ** Coefficients, by class *)

Definition length_0 (f : Fiber) : R := 0.
Definition e1 (f : Fiber) : R := by_class f (-76.6) 145.
Definition e2 (f : Fiber) : R := by_class f (-792) (-3322).
Definition e3 (f : Fiber) : R := by_class f 124 1530.
Definition e4 (f : Fiber) : R := by_class f 0.72 1.45.
Definition m (f : Fiber) : R := 0.25.
Definition r (f : Fiber) : R := by_class f 1.5 1.
Definition a (f : Fiber) : R := 0.33.

(** ** Methods *)

Definition effective_activation (force length_ : R) : M Fiber R :=
  f <- get ;;
  ret (activation_frequency f).

Definition initial_tetanic_energy (velocity_ : R) : M Fiber R :=
  f <- get ;;
  p <- lift (math_pow velocity_ 2) ;;
  lift (fdiv (e1 f * p + e2 f * velocity_ + e3 f) (e4 f - velocity_)).

Definition tetanic_activation_energy : M Fiber R :=
  f <- get ;;
  x <- initial_tetanic_energy 0 ;;
  ret (a f * x).

(** [__tetanic_cross_bridge_energy] calls itself; [depth] is the number
    of frames the interpreter still grants when the method is entered,
    and a call beyond them raises the [RuntimeError] of the recursion
    limit.  Above zero the method multiplies by the attribute
    [self.velocity], not by its argument. *)
Fixpoint tetanic_cross_bridge_energy (depth : nat) (velocity_ : R) : M Fiber R :=
  match depth with
  | O => raise RuntimeError
  | S depth' =>
      if Rle_dec velocity_ 0
      then
        x <- initial_tetanic_energy velocity_ ;;
        y <- tetanic_activation_energy ;;
        ret (x - y)
      else
        f_tet_xb_0 <- tetanic_cross_bridge_energy depth' 0 ;;
        f <- get ;;
        back <- tetanic_cross_bridge_energy depth' (- h f) ;;
        q <- lift (fdiv (velocity f * (f_tet_xb_0 - back)) (h f)) ;;
        ret (f_tet_xb_0 + q)
  end.

Definition cross_bridge_energy (depth : nat) (force length_ velocity_ : R)
    : M Fiber R :=
  ea <- effective_activation force length_ ;;
  fl <- force_length ;;
  t <- tetanic_cross_bridge_energy depth velocity_ ;;
  ret (ea * fl * t).

Definition activation_energy (depth : nat) (force : R) : M Fiber R :=
  f <- get ;;
  q <- lift (fdiv (a f) (1 - a f)) ;;
  cb <- cross_bridge_energy depth force (length_0 f) 0 ;;
  ret (q * cb).

Definition initial_energy (depth : nat) (force length_ velocity_ : R) : M Fiber R :=
  cb <- cross_bridge_energy depth force length_ velocity_ ;;
  ae <- activation_energy depth force ;;
  ret (cb + ae).

Definition recovery_energy (depth : nat) (force length_ velocity_ : R) : M Fiber R :=
  ie <- initial_energy depth force length_ velocity_ ;;
  f <- get ;;
  ret (ie * r f).

(** [update_energy(force, length, energy)]: the third argument is passed
    on as the velocity. *)
Definition update_energy (depth : nat) (force length_ energy : R) : M Fiber R :=
  ie <- initial_energy depth force length_ energy ;;
  re <- recovery_energy depth force length_ energy ;;
  f <- get ;;
  ret ((ie + re) * m f).

(** ** Closed forms used in the statements *)

(** The initial tetanic energy and the tetanic cross-bridge energy at or
    below zero. *)
Definition tetanic (f : Fiber) (v : R) : R :=
  (e1 f * (v * v) + e2 f * v + e3 f) / (e4 f - v).

Definition tetanic_xb (f : Fiber) (v : R) : R :=
  tetanic f v - a f * tetanic f 0.

(** The target of the yielding of a slow fibre. *)
Definition yielding_target (f : Fiber) : R :=
  1 - c_gamma f * (1 - exp (- velocity f / v_gamma f)).

(** The energy methods read the fibre and leave it as it is. *)
Definition reads_only {A : Type} (c : M Fiber A) : Prop :=
  forall f : Fiber, fst (c f) = f.

End FiberEnergy.

(* ===================================================================== *)
(** * muscles/brown.py *)
(* ===================================================================== *)

Module BrownModel.

Import Geometry.
Local Open Scope R_scope.

(** The attributes [BrownMuscle.__init__] assigns before it builds the
    fibres. *)
Record BrownMuscle : Type := mkBrownMuscle {
  h : R;
  percent_slow_fiber : R;
  f_05 : R;
  pcsa : R;
  l_ce : R;
  l_0 : R;
  l_se : R;
  l_max : R;
  angle : R;
  v_ce : R
}.

(** [d if key not in params else params[key]] *)
Definition param (params : gmap string R) (key : string) (d : R) : R :=
  match params !! key with
  | None => d
  | Some v => v
  end.

(** [BrownMuscle.__init__], lines 36 to 53.  [params] and the two
    attachment points are what [Muscle.__init__] has stored on the object
    ([self.params], [self.app_point_1], [self.app_point_2]). *)
Definition BrownMuscle_init (params : gmap string R)
    (app_point_1 app_point_2 : vec) : BrownMuscle :=
  let h_ := param params "h" 0.01 in
  let percent_slow_fiber_ := param params "percent_slow_fiber" 3.5 in
  let f_05_ := 0.36 in
  let pcsa_ := param params "pcsa" 0 in
  let l_ce_ := norm (vec_sub app_point_1 app_point_2) in
  let l_0_ := param params "l_0" l_ce_ in
  let l_se_ := param params "l_se" 0 in
  let l_max_ := param params "max_length" (1.5 * l_ce_) in
  let angle_ := param params "angle" 0 in
  let v_ce_ := 0 in
  mkBrownMuscle h_ percent_slow_fiber_ f_05_ pcsa_ l_ce_ l_0_ l_se_ l_max_
                angle_ v_ce_.

End BrownModel.

(* ===================================================================== *)
(** * simulators/updaters/blenderUtils.py *)
(* ===================================================================== *)

Module HostModel.

Import Geometry.

(** An object of the host scene. *)
Record GameObject : Type := mkGameObject { worldTransform : Matrix }.

(** What the body parts share: the logger of the configuration and the
    scene behind the simulator adapter.  A handle on a scene object is its
    key in [scene.objects]; the host moves the objects between two calls. *)
Record Host : Type := mkHost {
  log : Log;
  objects : gmap string GameObject
}.

Definition logger_emit (lv : level) (msg : pyval) (w : Host) : Host :=
  mkHost (emit lv msg (log w)) (objects w).

(** [BlenderUtils.exists_Object] and [BlenderUtils.get_object] *)
Definition exists_Object (w : Host) (name : string) : bool :=
  bool_decide (is_Some (objects w !! name)).

Definition get_object (w : Host) (name : string) : option string :=
  if exists_Object w name then Some name else None.

(** [handle.worldTransform]; the handle may be [None], and an object the
    host has freed cannot be read any more. *)
Definition get_worldTransform (w : Host) (handle : option string) : result Matrix :=
  match handle with
  | None => Raise AttributeError
  | Some key =>
      match objects w !! key with
      | Some obj => Ok (worldTransform obj)
      | None => Raise SystemError
      end
  end.

End HostModel.

(* ===================================================================== *)
(** * The muscle classes, as [body.py] uses them *)
(* ===================================================================== *)

Module MuscleInterface.

Import HostModel.

(** [body.py] builds its muscles by evaluating
    [muscle_type + "(muscle_config, self.simulator)"] and then calls
    [name], [update] and [get_power] on them.  [C] is the type of a muscle
    configuration, [T] the type of a muscle object. *)
Class Muscle (C T : Type) : Type := {
  muscle_new : string -> C -> Host -> result T;
  muscle_name : T -> string;
  muscle_update : option R -> M T unit;
  muscle_get_power : M T R
}.

End MuscleInterface.

(* ===================================================================== *)
(** * body.py: Part and Leg *)
(* ===================================================================== *)

Module LegModel.

Import Geometry HostModel MuscleInterface.
Local Open Scope py_scope.

Section Leg.

Context {C T : Type} `{Muscle C T}.

(** [str] of a float. *)
Variable float_str : R -> string.

(** The attributes of a [Leg]: those of [Part.__init__] and the two of
    [Leg.__init__].  The logger and the simulator are in [Host]. *)
Record Leg : Type := mkLeg {
  n_iter : Z;
  muscles : list T;
  muscle_type : string;
  name : string;
  orien : string;
  connection_matrix : gmap string (list R)
}.

Definition set_muscles (ms : list T) (l : Leg) : Leg :=
  mkLeg (n_iter l) ms (muscle_type l) (name l) (orien l) (connection_matrix l).

Definition set_n_iter (n : Z) (l : Leg) : Leg :=
  mkLeg n (muscles l) (muscle_type l) (name l) (orien l) (connection_matrix l).

(** [for muscle_config in configs: self.muscles.append(eval(self.muscle_type))] *)
Fixpoint build_muscles (muscle_type_ : string) (w : Host) (configs : list C)
    : result (list T) :=
  match configs with
  | [] => Ok []
  | c :: configs' =>
      rbind (muscle_new muscle_type_ c w) (fun m =>
      rbind (build_muscles muscle_type_ w configs') (fun ms =>
      Ok (m :: ms)))
  end.

(** [Leg.__init__] over [Part.__init__]; [muscle_type_], [matrix] and
    [configs] are the entries ["muscle_type"], ["connection_matrix"] and
    ["muscles"] of the dictionary the subclasses pass. *)
Definition Leg_init (muscle_type_ : string) (matrix : gmap string (list R))
    (configs : list C) (orien_ : string) (w : Host) (name_ : string)
    : result Leg :=
  let muscle_type' := muscle_type_ +:+ "(muscle_config, self.simulator)" in
  rbind (build_muscles muscle_type' w configs) (fun ms =>
  Ok (mkLeg 0 ms muscle_type' name_ orien_ matrix)).

(** Run a method of the muscle at index [i]; the muscle keeps what the
    method assigned, also when it raised. *)
Definition on_muscle {A : Type} (i : nat) (c : M T A) : M Leg A :=
  fun l =>
    match muscles l !! i with
    | None => (l, Raise IndexError)
    | Some m => let (m', r) := c m in (set_muscles (<[i := m']> (muscles l)) l, r)
    end.

(** [Leg.get_power] *)
Fixpoint sum_power (idx : list nat) (power : R) : M Leg R :=
  match idx with
  | [] => ret power
  | i :: idx' =>
      p <- on_muscle i muscle_get_power ;;
      sum_power idx' (power + p)%R
  end.

Definition get_power : M Leg R :=
  l <- get ;;
  sum_power (seq 0 (length (muscles l))) 0%R.

(** [d[key]] and [l[i]] *)
Definition getitem {V : Type} (d : gmap string V) (key : string) : result V :=
  match d !! key with
  | Some v => Ok v
  | None => Raise KeyError
  end.

Definition index {V : Type} (l : list V) (i : nat) : result V :=
  match l !! i with
  | Some v => Ok v
  | None => Raise IndexError
  end.

(** The message of the length check in [Leg.update]:
    ["The brain outputs number (" + len(brain_output) + ") should match
    the number in the connection matrix (" + len(row) + "). Please verify
    config!"], evaluated from the left. *)
Definition mismatch_message (n_outputs n_row : nat) : result pyval :=
  rbind (py_add (VStr "The brain outputs number (") (VInt (Z.of_nat n_outputs)))
    (fun s1 =>
  rbind (py_add s1 (VStr ") should match the number in the connection matrix ("))
    (fun s2 =>
  rbind (py_add s2 (VInt (Z.of_nat n_row)))
    (fun s3 =>
  py_add s3 (VStr "). Please verify config!")))).

(** The inner loop of [Leg.update]: [ctrl_sig += row[j] * output]. *)
Fixpoint control_signal (row : list R) (outputs : list R) (j : nat) (ctrl_sig : R)
    : result R :=
  match outputs with
  | [] => Ok ctrl_sig
  | output :: outputs' =>
      rbind (index row j) (fun w =>
      control_signal row outputs' (S j) (ctrl_sig + w * output)%R)
  end.

Definition on_leg {A : Type} (c : M Leg A) : M (Host * Leg) A :=
  fun st => let (l', r) := c st.2 in ((st.1, l'), r).

Definition on_host (g : Host -> Host) : M (Host * Leg) unit :=
  modify (fun st => (g st.1, st.2)).

(** One round of the loop of [Leg.update], for the muscle at index [i]. *)
Definition update_muscle (brain_output : list R) (i : nat) : M (Host * Leg) unit :=
  st <- get ;;
  m <- lift (index (muscles st.2) i) ;;
  row <- lift (getitem (connection_matrix st.2) (muscle_name m)) ;;
  if bool_decide (length row ≠ length brain_output)
  then
    msg <- lift (mismatch_message (length brain_output) (length row)) ;;
    on_host (logger_emit ERROR msg)
  else
    ctrl_sig <- lift (control_signal row brain_output 0 0%R) ;;
    on_leg (on_muscle i (muscle_update (Some ctrl_sig))) ;;
    on_leg (modify (fun l => set_n_iter (n_iter l + 1) l)) ;;
    st' <- get ;;
    on_host (logger_emit DEBUG
      (VStr (name st'.2 +:+ " " +:+ orien st'.2 +:+ " iteration " +:+
             pretty (n_iter st'.2) +:+ ": Control signal = " +:+
             float_str ctrl_sig))).

(** [Leg.update] *)
Definition update (brain_output : list R) : M (Host * Leg) unit :=
  st <- get ;;
  for_each (seq 0 (length (muscles st.2))) (update_muscle brain_output).

End Leg.

Arguments Leg T : clear implicits.

End LegModel.

(* ===================================================================== *)
(** * body.py: Body *)
(* ===================================================================== *)

Module BodyModel.

Import Geometry HostModel MuscleInterface.
Local Open Scope R_scope.
Local Open Scope py_scope.

Section Body.

(** [Brain] is the brain class of [brain.py]. *)
Context {C T : Type} `{Muscle C T} {Brain : Type}.

(** The configuration object: the attributes [body.py] reads.  The three
    entries of the dictionary [config.body] are [body_name], [body_obj]
    and [body_muscles]. *)
Record Config : Type := mkConfig {
  muscle_type : string;
  connection_matrix : gmap string (list R);
  back_leg_L_muscles : list C;
  back_leg_R_muscles : list C;
  front_leg_L_muscles : list C;
  front_leg_R_muscles : list C;
  body_name : string;
  body_obj_name : string;
  body_muscles : list C;
  dist_ref : R;
  power_ref : R
}.

Variable Brain_init : Config -> result Brain.

(** The attributes of a [Body].  [active] is assigned on the failure path
    of [__init__] only. *)
Record Body : Type := mkBody {
  n_iter : Z;
  muscles : list T;
  part_muscle_type : string;
  name : string;
  config : Config;
  body_obj : option string;
  active : option bool;
  origin : vec;
  position : vec;
  dist : R;
  powers : list R;
  av_power : R;
  loss_fct : R;
  l_fo_leg : LegModel.Leg T;
  r_fo_leg : LegModel.Leg T;
  l_ba_leg : LegModel.Leg T;
  r_ba_leg : LegModel.Leg T;
  brain : Brain
}.

Definition set_position (p : vec) (d : R) (b : Body) : Body :=
  mkBody (n_iter b) (muscles b) (part_muscle_type b) (name b) (config b)
         (body_obj b) (active b) (origin b) p d (powers b) (av_power b)
         (loss_fct b) (l_fo_leg b) (r_fo_leg b) (l_ba_leg b) (r_ba_leg b)
         (brain b).

Definition set_av_power (v : R) (b : Body) : Body :=
  mkBody (n_iter b) (muscles b) (part_muscle_type b) (name b) (config b)
         (body_obj b) (active b) (origin b) (position b) (dist b) (powers b) v
         (loss_fct b) (l_fo_leg b) (r_fo_leg b) (l_ba_leg b) (r_ba_leg b)
         (brain b).

Definition set_loss_fct (v : R) (b : Body) : Body :=
  mkBody (n_iter b) (muscles b) (part_muscle_type b) (name b) (config b)
         (body_obj b) (active b) (origin b) (position b) (dist b) (powers b)
         (av_power b) v (l_fo_leg b) (r_fo_leg b) (l_ba_leg b) (r_ba_leg b)
         (brain b).

(** [Foreleg.__init__] and [Backleg.__init__] *)
Definition Foreleg_init (config_ : Config) (orien_ : string) (w : Host)
    : result (LegModel.Leg T) :=
  LegModel.Leg_init (muscle_type config_) (connection_matrix config_)
    (if String.eqb orien_ "L" then front_leg_L_muscles config_
     else front_leg_R_muscles config_)
    orien_ w "Foreleg".

Definition Backleg_init (config_ : Config) (orien_ : string) (w : Host)
    : result (LegModel.Leg T) :=
  LegModel.Leg_init (muscle_type config_) (connection_matrix config_)
    (if String.eqb orien_ "L" then back_leg_L_muscles config_
     else back_leg_R_muscles config_)
    orien_ w "Backleg".

(** [self.body_obj.worldTransform * vec((0, 0, 0))] *)
Definition trunk_position (w : Host) (handle : option string) : result vec :=
  rbind (get_worldTransform w handle) (fun t => Ok (apply t (mkVec 0 0 0))).

(** [Body.__init__]; the state is the host, whose log it may extend. *)
Definition Body_init (config_ : Config) : M Host Body :=
  let name_ := body_name config_ in
  let muscle_type_ := muscle_type config_ +:+ "(muscle_config, self.simulator)" in
  w <- get ;;
  let body_obj_ := get_object w (body_obj_name config_) in
  active_ <- match body_obj_ with
             | None =>
                 modify (logger_emit ERROR
                   (VStr ("Body " +:+ name_ +:+
                          " doesn't exit. Check your configuration file!"))) ;;
                 ret (Some false)
             | Some _ => ret None
             end ;;
  w <- get ;;
  origin_ <- lift (trunk_position w body_obj_) ;;
  let position_ := origin_ in
  let dist_ := norm (vec_sub position_ origin_) in
  l_fo <- lift (Foreleg_init config_ "L" w) ;;
  r_fo <- lift (Foreleg_init config_ "R" w) ;;
  l_ba <- lift (Backleg_init config_ "L" w) ;;
  r_ba <- lift (Backleg_init config_ "R" w) ;;
  brain_ <- lift (Brain_init config_) ;;
  ms <- lift (LegModel.build_muscles muscle_type_ w (body_muscles config_)) ;;
  ret (mkBody 0 ms muscle_type_ name_ config_ body_obj_ active_ origin_
              position_ dist_ [] 0 0 l_fo r_fo l_ba r_ba brain_).

(** [Body.compute_traveled_dist] *)
Definition compute_traveled_dist : M (Host * Body) unit :=
  st <- get ;;
  p <- lift (trunk_position st.1 (body_obj st.2)) ;;
  modify (fun st => (st.1, set_position p (norm (vec_sub p (origin st.2))) st.2)).

(** [sum(self.powers)] *)
Definition sum (l : list R) : R := fold_left Rplus l 0.

(** [Body.get_loss_fct] *)
Definition get_loss_fct : M (Host * Body) R :=
  compute_traveled_dist ;;
  st <- get ;;
  av <- lift (fdiv (sum (powers st.2)) (INR (length (powers st.2)))) ;;
  modify (fun st => (st.1, set_av_power av st.2)) ;;
  st <- get ;;
  a <- lift (fdiv (dist st.2) (dist_ref (config st.2))) ;;
  b <- lift (fdiv (power_ref (config st.2)) (av_power st.2)) ;;
  modify (fun st => (st.1, set_loss_fct (tanh a * tanh b) st.2)) ;;
  ret (tanh a * tanh b).

End Body.

Arguments Config : clear implicits.
Arguments Body : clear implicits.

End BodyModel.
(* ===================================================================== *)
(** * body.py: Body.compute_power *)
(* ===================================================================== *)

Module BodyPowerModel.

Import Geometry HostModel MuscleInterface BodyModel.
Local Open Scope R_scope.
Local Open Scope py_scope.

Section Power.

Context {C T : Type} `{Muscle C T} {Brain : Type}.

Definition set_muscles (ms : list T) (b : Body C T Brain)
    : Body C T Brain :=
  mkBody (n_iter b) ms (part_muscle_type b) (name b) (config b)
         (body_obj b) (active b) (origin b) (position b) (dist b) (powers b)
         (av_power b) (loss_fct b) (l_fo_leg b) (r_fo_leg b) (l_ba_leg b)
         (r_ba_leg b) (brain b).

Definition set_powers (ps : list R) (b : Body C T Brain)
    : Body C T Brain :=
  mkBody (n_iter b) (muscles b) (part_muscle_type b) (name b) (config b)
         (body_obj b) (active b) (origin b) (position b) (dist b) ps
         (av_power b) (loss_fct b) (l_fo_leg b) (r_fo_leg b) (l_ba_leg b)
         (r_ba_leg b) (brain b).

Definition set_l_fo_leg (l : LegModel.Leg T) (b : Body C T Brain)
    : Body C T Brain :=
  mkBody (n_iter b) (muscles b) (part_muscle_type b) (name b) (config b)
         (body_obj b) (active b) (origin b) (position b) (dist b) (powers b)
         (av_power b) (loss_fct b) l (r_fo_leg b) (l_ba_leg b) (r_ba_leg b)
         (brain b).

Definition set_r_fo_leg (l : LegModel.Leg T) (b : Body C T Brain)
    : Body C T Brain :=
  mkBody (n_iter b) (muscles b) (part_muscle_type b) (name b) (config b)
         (body_obj b) (active b) (origin b) (position b) (dist b) (powers b)
         (av_power b) (loss_fct b) (l_fo_leg b) l (l_ba_leg b) (r_ba_leg b)
         (brain b).

Definition set_l_ba_leg (l : LegModel.Leg T) (b : Body C T Brain)
    : Body C T Brain :=
  mkBody (n_iter b) (muscles b) (part_muscle_type b) (name b) (config b)
         (body_obj b) (active b) (origin b) (position b) (dist b) (powers b)
         (av_power b) (loss_fct b) (l_fo_leg b) (r_fo_leg b) l (r_ba_leg b)
         (brain b).

Definition set_r_ba_leg (l : LegModel.Leg T) (b : Body C T Brain)
    : Body C T Brain :=
  mkBody (n_iter b) (muscles b) (part_muscle_type b) (name b) (config b)
         (body_obj b) (active b) (origin b) (position b) (dist b) (powers b)
         (av_power b) (loss_fct b) (l_fo_leg b) (r_fo_leg b) (l_ba_leg b) l
         (brain b).

(** Run a method of one of the body's parts; the part keeps what the
    method assigned, also when it raised. *)
Definition on_part {P A : Type} (read : Body C T Brain -> P)
    (write : P -> Body C T Brain -> Body C T Brain)
    (c : M P A) : M (Body C T Brain) A :=
  fun b => let (p', r) := c (read b) in (write p' b, r).

Definition on_muscle {A : Type} (i : nat) (c : M T A)
    : M (Body C T Brain) A :=
  fun b =>
    match muscles b !! i with
    | None => (b, Raise IndexError)
    | Some m => let (m', r) := c m in (set_muscles (<[i := m']> (muscles b)) b, r)
    end.

(** [for m in self.muscles: power += m.get_power()] *)
Fixpoint sum_power (idx : list nat) (power : R) : M (Body C T Brain) R :=
  match idx with
  | [] => ret power
  | i :: idx' =>
      p <- on_muscle i muscle_get_power ;;
      sum_power idx' (power + p)
  end.

(** [Body.compute_power] *)
Definition compute_power : M (Body C T Brain) unit :=
  let power := 0 in
  p <- on_part l_ba_leg set_l_ba_leg LegModel.get_power ;;
  let power := power + p in
  p <- on_part r_ba_leg set_r_ba_leg LegModel.get_power ;;
  let power := power + p in
  p <- on_part l_fo_leg set_l_fo_leg LegModel.get_power ;;
  let power := power + p in
  p <- on_part r_fo_leg set_r_fo_leg LegModel.get_power ;;
  let power := power + p in
  b <- get ;;
  power <- sum_power (seq 0 (length (muscles b))) power ;;
  modify (fun b => set_powers (powers b ++ [power]) b).

(** What [compute_power] leaves alone before it appends. *)
Definition same_frame (b b' : Body C T Brain) : Prop :=
  powers b' = powers b /\ config b' = config b /\ body_obj b' = body_obj b /\
  origin b' = origin b /\ position b' = position b /\ dist b' = dist b /\
  n_iter b' = n_iter b /\ length (muscles b') = length (muscles b).

End Power.

End BodyPowerModel.

(* ===================================================================== *)
(** * body.py: notions for the statements about Leg and Body *)
(* ===================================================================== *)

Module PartNotions.

Local Open Scope R_scope.

(** The linear combination [Leg.update] sends to a muscle. *)
Definition weighted_sum (row brain_output : list R) : R :=
  fold_left Rplus (zip_with Rmult row brain_output) 0.

(** Records of debug level only. *)
Definition all_debug (records : Log) : Prop :=
  Forall (fun record => record.1 = DEBUG) records.

(** The leg after the rounds of its first [i] muscles: these hold their
    updated state, the others the state they had, and the iteration
    counter has advanced by [i]. *)
Definition after_rounds {T : Type} (l : LegModel.Leg T) (ms' : list T) (i : nat)
  : LegModel.Leg T :=
  LegModel.set_n_iter (LegModel.n_iter l + Z.of_nat i)%Z
    (LegModel.set_muscles (take i ms' ++ drop i (LegModel.muscles l)) l).

(** Each muscle of [ms] reports the power at its place in [ps] and is
    left as it was by the call. *)
Definition reports {C T : Type} `{MuscleInterface.Muscle C T}
    (ms : list T) (ps : list R) : Prop :=
  Forall2 (fun m p => MuscleInterface.muscle_get_power m = (m, Ok p)) ms ps.

End PartNotions.

(* ===================================================================== *)
(** * optimization/optimization.py *)
(* ===================================================================== *)

Module OptimizationModel.

(** The attributes of an [Optimization] that [update], [eval_fct] and
    [conv_fct] read or assign. *)
Record Optimization : Type := mkOptimization {
  interruption : bool;
  res_list : list pyval;
  best_solutions_list : list pyval;
  population_size : Z;
  max_iteration : Z
}.

Definition set_interruption (b : bool) (o : Optimization) : Optimization :=
  mkOptimization b (res_list o) (best_solutions_list o)
                 (population_size o) (max_iteration o).

Definition append_res (v : pyval) (o : Optimization) : Optimization :=
  mkOptimization (interruption o) (res_list o ++ [v]) (best_solutions_list o)
                 (population_size o) (max_iteration o).

(** [type(v) == dict] and [type(v) == bool] *)
Definition is_dict (v : pyval) : bool :=
  match v with VDict _ => true | _ => false end.

Definition is_bool (v : pyval) : bool :=
  match v with VBool _ => true | _ => false end.

(** The truth value of an object. *)
Definition truthy (v : pyval) : bool :=
  match v with
  | VNone => false
  | VBool b => b
  | VInt z => negb (z =? 0)%Z
  | VFloat r => if Req_dec_T r 0 then false else true
  | VStr s => negb (String.eqb s "")
  | VList l => match l with [] => false | _ => true end
  | VDict d => match d with [] => false | _ => true end
  end.

(** [dict.copy()]: a new dictionary with the same items. *)
Definition dict_copy (v : pyval) : pyval :=
  match v with
  | VDict d => VDict d
  | _ => v
  end.

(** [Optimization.update], on the keyword bundle [kwargs] *)
Definition update (kwargs : gmap string pyval) (o : Optimization) : Optimization :=
  match kwargs !! "res" with
  | Some res =>
      if is_dict res then append_res (dict_copy res) o
      else append_res res o
  | None =>
      match kwargs !! "interruption" with
      | Some i =>
          if is_bool i && truthy i then set_interruption true o else o
      | None => o
      end
  end.

(** [Optimization.eval_fct] and [Optimization.conv_fct]; a method that
    falls off its end returns [None]. *)
Definition eval_fct (population : pyval) : M Optimization pyval :=
  fun o =>
    let o' := mkOptimization (interruption o) [] (best_solutions_list o)
                             (population_size o) (max_iteration o) in
    (o', Ok (if interruption o' then VFloat 0 else VNone)).

Definition conv_fct (algorithm : pyval) : M Optimization pyval :=
  fun o => (o, Ok (if interruption o then VBool true else VNone)).

(** The bundle [Optimization.notify] hands to [notify_observers]: the
    default notification, over which the entries of [notification] are
    written when there is one. *)
Definition notify_kwargs (notification : option (gmap string pyval))
    (o : Optimization) : gmap string pyval :=
  let kwargs : gmap string pyval :=
    <[ "interruption" := VBool (interruption o) ]>
      (<[ "res" := VList (res_list o) ]> ∅) in
  match notification with
  | None => kwargs
  | Some n => n ∪ kwargs
  end.

(** A run of notifications received one after the other. *)
Definition updates (bundles : list (gmap string pyval)) (o : Optimization)
    : Optimization :=
  fold_left (fun o kwargs => update kwargs o) bundles o.

End OptimizationModel.

(* ===================================================================== *)
(** * simulations/clients/connection.py *)
(* ===================================================================== *)

Module Connection.

(** The handle of an asynchronous call, as [check_sim] polls it. *)
Record AsyncResult : Type := mkAsyncResult {
  expired : bool;
  error : bool
}.

(** Modelled from the spec: [connection.py] is not among the sources.  A
    [ServerInfo] is an (address, port) pair with the bookkeeping [status]
    and [nb_threads]. *)
Record ServerInfo : Type := mkServerInfo {
  address : string;
  port : Z;
  status : bool;
  nb_threads : Z
}.

Definition set_status (b : bool) (s : ServerInfo) : ServerInfo :=
  mkServerInfo (address s) (port s) b (nb_threads s).

(** Modelled from the spec: a [SimulationRequest] is the parameter
    payload, an index into the response list and, once dispatched, the
    handle of the asynchronous call. *)
Record SimulationRequest : Type := mkSimulationRequest {
  rqt : pyval;
  index : nat;
  callback : option AsyncResult
}.

Definition set_callback (cb : option AsyncResult) (s : SimulationRequest)
    : SimulationRequest :=
  mkSimulationRequest (rqt s) (index s) cb.

(** Modelled from the spec: [SimulationRequest.copy] gives a new request
    with the same three fields. *)
Definition copy (s : SimulationRequest) : SimulationRequest :=
  mkSimulationRequest (rqt s) (index s) (callback s).

(** Modelled from the spec: a [Connexion] is the triple of a server id, a
    live connection and its servicing thread; of the connection the model
    keeps whether it has been closed. *)
Record Connexion : Type := mkConnexion {
  server_id : Z;
  closed : bool
}.

Definition close (c : Connexion) : Connexion := mkConnexion (server_id c) true.

End Connection.

(* ===================================================================== *)
(** * simulations/clients/client.py *)
(* ===================================================================== *)

Module ClientModel.

Import Connection.
Local Open Scope py_scope.

(** The attributes of a [Client] that the health check reads or assigns;
    [logging] is the list of records the module-level logger has taken.
    The locks are not modelled: one thread runs the check. *)
Record Client : Type := mkClient {
  rqt : list SimulationRequest;
  rqt_n : Z;
  cloud_state : gmap Z ServerInfo;
  conn_list : list Connexion;
  results : gmap Z (list SimulationRequest);
  logging : Log
}.

Definition set_queue (q : list SimulationRequest) (n : Z) (c : Client) : Client :=
  mkClient q n (cloud_state c) (conn_list c) (results c) (logging c).

Definition set_cloud_state (cs : gmap Z ServerInfo) (c : Client) : Client :=
  mkClient (rqt c) (rqt_n c) cs (conn_list c) (results c) (logging c).

Definition set_conn_list (l : list Connexion) (c : Client) : Client :=
  mkClient (rqt c) (rqt_n c) (cloud_state c) l (results c) (logging c).

Definition set_results (r : gmap Z (list SimulationRequest)) (c : Client) : Client :=
  mkClient (rqt c) (rqt_n c) (cloud_state c) (conn_list c) r (logging c).

Definition log_error (msg : string) (c : Client) : Client :=
  mkClient (rqt c) (rqt_n c) (cloud_state c) (conn_list c) (results c)
           (emit ERROR (VStr msg) (logging c)).

(** The first loop over the simulations of a server: the reason of the
    first one that has expired or returned an error, if any.  A request
    without a handle has no [expired]. *)
Fixpoint first_failure (simulations : list SimulationRequest)
    : result (option string) :=
  match simulations with
  | [] => Ok None
  | simulation :: simulations' =>
      match callback simulation with
      | None => Raise AttributeError
      | Some result_ =>
          if expired result_ || error result_
          then Ok (Some (if expired result_ then "Timeout" else "Error"))
          else first_failure simulations'
      end
  end.

(** The second loop: each simulation loses its handle, and a copy of it
    is appended to the request list. *)
Fixpoint requeue (simulations : list SimulationRequest) (c : Client) : Client :=
  match simulations with
  | [] => c
  | simulation :: simulations' =>
      requeue simulations'
        (set_queue (rqt c ++ [copy (set_callback None simulation)])
                   (rqt_n c + 1) c)
  end.

(** The handles are cleared on the objects of the in-flight list itself. *)
Definition clear_in_flight (server_hash : Z) (simulations : list SimulationRequest)
    (c : Client) : Client :=
  set_results (<[server_hash := set_callback None <$> simulations]> (results c)) c.

(** The loop over [conn_list]: the first connection to the server is
    closed; [del connection] unbinds the loop variable and leaves the
    list as it is. *)
Fixpoint close_first (server_hash : Z) (conns : list Connexion) : list Connexion :=
  match conns with
  | [] => []
  | connection :: conns' =>
      if bool_decide (server_id connection = server_hash)
      then close connection :: conns'
      else connection :: close_first server_hash conns'
  end.

(** [del self.results[server_hash]] *)
Definition del_results (server_hash : Z) : M Client unit :=
  c <- get ;;
  match results c !! server_hash with
  | None => raise KeyError
  | Some _ => modify (set_results (delete server_hash (results c)))
  end.

(** The body of the loop of [check_sim], for one server. *)
Definition check_server (server_hash : Z) (simulations : list SimulationRequest)
    : M Client unit :=
  failure <- lift (first_failure simulations) ;;
  match failure with
  | None => ret tt
  | Some reason =>
      modify (requeue simulations) ;;
      modify (clear_in_flight server_hash simulations) ;;
      c <- get ;;
      match cloud_state c !! server_hash with
      | Some info =>
          modify (log_error (reason +:+ " from server: " +:+ address info +:+
                             ":" +:+ pretty (port info))) ;;
          modify (set_cloud_state
                    (<[server_hash := set_status false info]> (cloud_state c))) ;;
          modify (fun c => set_conn_list (close_first server_hash (conn_list c)) c)
      | None => ret tt
      end ;;
      del_results server_hash
  end.

(** [Client.check_sim].  The loop runs over [self.results.items()].  The
    module is written for Python 2: it calls [rpyc.async], a name that is
    a syntax error from Python 3.7 on, and it deletes entries of the
    dictionary inside the loop.  There [items()] is a list of its own,
    built when the loop starts, and a deletion leaves it alone. *)
Definition check_sim : M Client unit :=
  c <- get ;;
  for_each (map_to_list (results c)) (fun item => check_server item.1 item.2).

(** The same method on a Python 3 interpreter, where [items()] is a view
    of the dictionary: the step of the iterator that follows a deletion
    raises [RuntimeError]. *)
Definition check_sim_live : M Client unit :=
  c <- get ;;
  for_each_live (fun c => size (results c)) (size (results c))
    (map_to_list (results c)) (fun item => check_server item.1 item.2).

(** ** Candidate selection *)

(** [sorted(cloud_list, key=lambda x: x[1].nb_threads)]: the sort is
    stable, items with the same count keep their order. *)
Fixpoint insert_by_threads (x : Z * ServerInfo) (l : list (Z * ServerInfo))
    : list (Z * ServerInfo) :=
  match l with
  | [] => [x]
  | y :: l' =>
      if (nb_threads x.2 <=? nb_threads y.2)%Z
      then x :: y :: l'
      else y :: insert_by_threads x l'
  end.

Definition sorted_by_threads (l : list (Z * ServerInfo)) : list (Z * ServerInfo) :=
  foldr insert_by_threads [] l.

(** The loop of [__select_candidate]: the key of the first item whose
    server is available, 0 when there is none. *)
Fixpoint first_available (cs : gmap Z ServerInfo) (cloud_list : list (Z * ServerInfo))
    : result Z :=
  match cloud_list with
  | [] => Ok 0%Z
  | item :: cloud_list' =>
      match cs !! item.1 with
      | None => Raise KeyError
      | Some info =>
          if status info then Ok item.1 else first_available cs cloud_list'
      end
  end.

(** [__select_candidate], from the call of [check_sim] on; the refresh of
    the cloud state that precedes it is [refresh_cloud_state] below. *)
Definition select_candidate : M Client Z :=
  check_sim ;;
  c <- get ;;
  let cloud_list := map_to_list (cloud_state c) in
  let cloud_list :=
    if (2 <=? size (cloud_state c))%nat then sorted_by_threads cloud_list
    else cloud_list in
  lift (first_available (cloud_state c) cloud_list).

(** [__refresh_cloud_state], from "Transform server list into a dict"
    on: [server_list] is [self.server_list] as the discovery has left it,
    [hash] the hash of an (address, port) pair.  In [dict(zip(...))] a
    later pair with the same hash replaces an earlier one.  The two loops
    run over sets of keys that do not meet, so they are one union and one
    filter of the mapping.  Modelled from the spec: [ServerInfo(address,
    port)] keeps the pair; its [status] and [nb_threads] are assigned
    when the entry is added. *)
Definition serv_dict (hash : string * Z -> Z) (server_list : list (string * Z))
    : gmap Z ServerInfo :=
  list_to_map (reverse ((fun x => (hash x, mkServerInfo x.1 x.2 true 0)) <$> server_list)).

Definition refresh_cloud_state (hash : string * Z -> Z)
    (server_list : list (string * Z)) (c : Client) : Client :=
  let sd := serv_dict hash server_list in
  let added :=
    match rqt c with
    | [] => cloud_state c
    | _ :: _ =>
        cloud_state c ∪
        ((fun info => mkServerInfo (address info) (port info) true 0) <$> sd)
    end in
  set_cloud_state (filter (fun kv => is_Some (sd !! kv.1)) added) c.

(** ** The notions the statements about [check_sim] use *)

(** All the requests the client holds: those waiting and those in
    flight, the latter in the order of the mapping. *)
Definition in_flight (c : Client) : list SimulationRequest :=
  map_to_list (results c) ≫= snd.

Definition held (c : Client) : list SimulationRequest := rqt c ++ in_flight c.


(** A simulation whose call has expired or returned an error. *)
Definition failed (simulation : SimulationRequest) : bool :=
  match callback simulation with
  | Some result_ => expired result_ || error result_
  | None => false
  end.

(** A server is broken when one of its simulations has failed. *)
Definition broken (simulations : list SimulationRequest) : bool :=
  existsb failed simulations.

(** Every in-flight simulation has the handle that [request_server] gave
    it before it put the request on the in-flight list. *)
Definition dispatched (simulations : list SimulationRequest) : Prop :=
  Forall (fun simulation => is_Some (callback simulation)) simulations.

Definition in_flight_ok (c : Client) : Prop :=
  forall (k : Z) (v : list SimulationRequest),
    results c !! k = Some v -> dispatched v.

(** A request as it goes back to the queue: its handle cleared. *)
Definition requeued (simulation : SimulationRequest) : SimulationRequest :=
  mkSimulationRequest (Connection.rqt simulation) (index simulation) None.

(** What a pass over [items] appends to the queue. *)
Definition requeues (items : list (Z * list SimulationRequest))
    : list SimulationRequest :=
  concat (map (fun item => if broken item.2 then map requeued item.2 else []) items).

(** The state after the eviction of server [k]. *)
Definition evicted (k : Z) (sims : list SimulationRequest) (c c' : Client) : Prop :=
  rqt c' = rqt c ++ map requeued sims /\
  rqt_n c' = (rqt_n c + Z.of_nat (length sims))%Z /\
  results c' = delete k (results c) /\
  cloud_state c' = alter (set_status false) k (cloud_state c).

(** The order [sorted(serv_list, key=lambda x: x[1]["nb_threads"])] sorts by. *)
Definition le_threads (a b : Z * ServerInfo) : Prop :=
  (nb_threads a.2 <= nb_threads b.2)%Z.

End ClientModel.

(* ===================================================================== *)
(** * Concrete parts for the examples *)
(* ===================================================================== *)

Module Examples.

Import Geometry HostModel MuscleInterface.
Local Open Scope R_scope.

(** A muscle class for the examples: it is configured by its name, keeps
    the control signals it is sent and reports a fixed power. *)
Record Probe : Type := mkProbe {
  probe_name : string;
  probe_signals : list (option R);
  probe_power : R
}.

#[global] Instance probe_muscle : Muscle (string * R) Probe := {|
  muscle_new := fun _ cfg _ => Ok (mkProbe cfg.1 [] cfg.2);
  muscle_name := probe_name;
  muscle_update := fun sig =>
    modify (fun m => mkProbe (probe_name m) (probe_signals m ++ [sig]) (probe_power m));
  muscle_get_power := fun m => (m, Ok (probe_power m))
|}.

(** A leg with the single muscle ["m"], whose row has one weight. *)
Definition one_muscle_leg : LegModel.Leg Probe :=
  LegModel.mkLeg 0 [mkProbe "m" [] 0] "Probe(muscle_config, self.simulator)"
                 "Foreleg" "L" {[ "m" := [1] ]}.

Definition empty_host : Host := mkHost [] ∅.

(** A scene whose only object, ["trunk"], sits at [(x, 0, 0)]. *)
Definition identity_at (x : R) : Matrix :=
  mkMatrix (mkVec 1 0 0) (mkVec 0 1 0) (mkVec 0 0 1) (mkVec x 0 0).

Definition trunk_host (x : R) : Host :=
  mkHost [] {[ "trunk" := mkGameObject (identity_at x) ]}.

Definition probe_config (obj : string) (dist_ref_ power_ref_ : R)
    : BodyModel.Config (string * R) :=
  BodyModel.mkConfig "Probe" ∅ [] [] [] [] "mouse" obj [] dist_ref_ power_ref_.

Definition no_leg (name_ orien_ : string) : LegModel.Leg Probe :=
  LegModel.mkLeg 0 [] "Probe(muscle_config, self.simulator)" name_ orien_ ∅.

(** A body built at the origin, with the given power history. *)
Definition probe_body (dist_ref_ power_ref_ : R) (powers_ : list R)
    : BodyModel.Body (string * R) Probe unit :=
  BodyModel.mkBody 0 [] "Probe(muscle_config, self.simulator)" "mouse"
    (probe_config "trunk" dist_ref_ power_ref_) (Some "trunk") None
    (mkVec 0 0 0) (mkVec 0 0 0) 0 powers_ 0 0
    (no_leg "Foreleg" "L") (no_leg "Foreleg" "R")
    (no_leg "Backleg" "L") (no_leg "Backleg" "R") tt.

(** A back leg of two probes, each wired to one brain output. *)
Definition two_probe_leg : LegModel.Leg Probe :=
  LegModel.mkLeg 3 [mkProbe "a" [] 2; mkProbe "b" [] 5]
        "Probe(muscle_config, self.simulator)" "Backleg" "R"
        (<[ "a" := [1%R; 0%R] ]> {[ "b" := [0%R; 1%R] ]}).

(** A body with fresh history, the two probes in its right back leg and
    one muscle of its own. *)
Definition walking_body : BodyModel.Body (string * R) Probe unit :=
  BodyPowerModel.set_muscles [mkProbe "spine" [] 1]
    (BodyPowerModel.set_r_ba_leg two_probe_leg (probe_body 1 10 [])).

(** A client with one request waiting and one server, 7, whose single
    in-flight simulation has expired. *)
Definition waiting_request : Connection.SimulationRequest :=
  Connection.mkSimulationRequest (VInt 10) 0 None.

Definition expired_request : Connection.SimulationRequest :=
  Connection.mkSimulationRequest (VInt 11) 1
    (Some (Connection.mkAsyncResult true false)).

Definition one_server_client : ClientModel.Client :=
  ClientModel.mkClient [waiting_request] 1
    {[ 7%Z := Connection.mkServerInfo "10.0.0.7" 18861 true 1 ]}
    [Connection.mkConnexion 7 false]
    {[ 7%Z := [expired_request] ]}
    [].

End Examples.
(* ===================================================================== *)
(** * Facts about the Python fragment *)
(* ===================================================================== *)

Module PyFacts.

Local Open Scope R_scope.

Lemma fdiv_ok (a b : R) : b <> 0 -> fdiv a b = Ok (a / b).
Proof.
  intros Hb. unfold fdiv.
  destruct (Req_dec_T b 0); [contradiction | reflexivity].
Qed.

Lemma fdiv_zero (a : R) : fdiv a 0 = Raise ZeroDivisionError.
Proof. unfold fdiv. destruct (Req_dec_T 0 0); [reflexivity | lra]. Qed.

Lemma Int_part_2 : Int_part 2 = 2%Z.
Proof.
  unfold Int_part.
  assert (H : 3%Z = up 2) by (apply tech_up; simpl; lra).
  rewrite <- H. reflexivity.
Qed.

(** Squaring through [math.pow] never raises. *)
Lemma math_pow_2 (x : R) : math_pow x 2 = Ok (x * x).
Proof.
  unfold math_pow.
  destruct (Rlt_dec 0 x) as [Hpos | Hnpos].
  - f_equal. replace 2 with (INR 2) by (simpl; lra).
    rewrite Rpower_pow by assumption. simpl. lra.
  - destruct (Req_dec_T x 0) as [-> | Hne].
    + r_cases. f_equal. lra.
    + rewrite Int_part_2.
      destruct (Req_dec_T (IZR 2) 2) as [_ | Hbad]; [| lra].
      f_equal. simpl. lra.
Qed.

End PyFacts.

(* ===================================================================== *)
(** * muscles/fiber.py: recruitment, firing frequencies, activation *)
(* ===================================================================== *)

Module FiberTheory.

Import FiberModel PyFacts.
Local Open Scope R_scope.
Local Open Scope py_scope.

Lemma by_class_pos (f : Fiber) (a b : R) : 0 < a -> 0 < b -> 0 < by_class f a b.
Proof. intros Ha Hb. unfold by_class. destruct (cls f); assumption. Qed.

Lemma t_f1_pos (f : Fiber) : 0 < t_f1 f.
Proof. apply by_class_pos; lra. Qed.
Lemma t_f2_pos (f : Fiber) : 0 < t_f2 f.
Proof. apply by_class_pos; lra. Qed.
Lemma t_f3_pos (f : Fiber) : 0 < t_f3 f.
Proof. apply by_class_pos; lra. Qed.
Lemma t_f4_pos (f : Fiber) : 0 < t_f4 f.
Proof. apply by_class_pos; lra. Qed.

(** The threshold of the base and of the slow fibre is the constant of
    [Fiber.__init__]. *)
Lemma u_th_not_fast (f : Fiber) : cls f <> FastTwitchFiber -> u_th f = 0.001.
Proof. intros Hc. unfold u_th, by_class. destruct (cls f); congruence. Qed.

(** ** Recruitment *)

Lemma recruitment_above (f : Fiber) (s : R) :
  u_th f <> 1 -> u_th f < s ->
  process_recruitment s f = (set_f_env (recruited f s) f, Ok (recruited f s)).
Proof.
  intros Hne Hs. unfold process_recruitment, bind, get, modify, ret, lift.
  destruct (Rlt_dec (u_th f) s); [| contradiction].
  rewrite fdiv_ok by lra. reflexivity.
Qed.

Lemma recruitment_below (f : Fiber) (s : R) :
  s <= u_th f ->
  process_recruitment s f = (set_f_env (f_min f) f, Ok (f_min f)).
Proof.
  intros Hs. unfold process_recruitment, bind, get, modify, ret, lift.
  destruct (Rlt_dec (u_th f) s); [lra | reflexivity].
Qed.

Lemma recruitment_slope_pos (f : Fiber) :
  0 < f_05 f -> u_th f < 1 -> 0 < (f_max f - f_min f) / (1 - u_th f).
Proof.
  intros H05 Hth. apply Rdiv_lt_0_compat; unfold f_max, f_min; lra.
Qed.

Lemma recruited_pos (f : Fiber) (s : R) :
  0 < f_05 f -> u_th f < 1 -> 0 <= s -> 0 < recruited f s.
Proof.
  intros H05 Hth Hs. unfold recruited.
  pose proof (recruitment_slope_pos f H05 Hth) as Hk.
  assert (0 < f_min f) by (unfold f_min; lra).
  nra.
Qed.

(** C9.  With [f_05 > 0] and a threshold below 1, recruitment is strictly
    increasing in the spike frequency above the threshold, and at or
    below the threshold it yields [f_min = 0.5 * f_05]; in both cases the
    value is stored in [f_env] and returned. *)
Theorem recruitment_monotonic (f : Fiber) :
  0 < f_05 f -> u_th f < 1 ->
  (forall s1 s2 : R, u_th f < s1 -> s1 < s2 ->
     exists v1 v2 : R,
       process_recruitment s1 f = (set_f_env v1 f, Ok v1) /\
       process_recruitment s2 f = (set_f_env v2 f, Ok v2) /\
       f_env (set_f_env v1 f) < f_env (set_f_env v2 f)) /\
  (forall s : R, s <= u_th f ->
     process_recruitment s f = (set_f_env (f_min f) f, Ok (f_min f)) /\
     f_env (set_f_env (f_min f) f) = 0.5 * f_05 f).
Proof.
  intros H05 Hth. split.
  - intros s1 s2 H1 H12.
    exists (recruited f s1), (recruited f s2).
    rewrite !recruitment_above by lra.
    repeat split. simpl. unfold recruited.
    pose proof (recruitment_slope_pos f H05 Hth) as Hk. nra.
  - intros s Hs. rewrite recruitment_below by assumption.
    split; reflexivity.
Qed.

Lemma recruitment_monotonic_witness :
  let f := SlowTwitchFiber_init 0.01 1 1 0 0.36 in
  0 < f_05 f /\ u_th f < 1 /\
  (forall s1 s2 : R, u_th f < s1 -> s1 < s2 ->
     exists v1 v2 : R,
       process_recruitment s1 f = (set_f_env v1 f, Ok v1) /\
       process_recruitment s2 f = (set_f_env v2 f, Ok v2) /\
       f_env (set_f_env v1 f) < f_env (set_f_env v2 f)) /\
  (forall s : R, s <= u_th f ->
     process_recruitment s f = (set_f_env (f_min f) f, Ok (f_min f)) /\
     f_env (set_f_env (f_min f) f) = 0.5 * f_05 f).
Proof.
  intros f.
  assert (H1 : 0 < f_05 f) by (simpl; lra).
  assert (H2 : u_th f < 1) by (unfold u_th, by_class; simpl; lra).
  split; [exact H1 |]. split; [exact H2 |].
  exact (recruitment_monotonic f H1 H2).
Defined.

(** ** The time constant *)

Lemma tf_argument_ok (f : Fiber) :
  exists d : R, tf_argument f = (f, Ok d) /\ (tf f = 0 -> d = 0).
Proof.
  unfold tf_argument, bind, get, ret, lift.
  destruct (Req_dec_T (tf f) 0) as [Hz | Hnz].
  - exists 0. split; [reflexivity | trivial].
  - rewrite fdiv_ok by assumption.
    eexists. split; [reflexivity | intros; contradiction].
Qed.

Lemma process_tf_ok (d : R) (f : Fiber) :
  length f <> 0 ->
  process_tf d f = (set_tf (tf_value d f) f, Ok (tf_value d f)).
Proof.
  intros Hl. unfold process_tf, tf_value, bind, get, modify, ret, lift.
  destruct (Rle_dec 0 d).
  - rewrite math_pow_2. reflexivity.
  - rewrite fdiv_ok by assumption. reflexivity.
Qed.

Lemma tf_value_pos (d : R) (f : Fiber) :
  0 < length f -> 0 < f_env f -> 0 <= activation_frequency f ->
  0 < tf_value d f.
Proof.
  intros Hl He Ha. unfold tf_value.
  pose proof (t_f1_pos f). pose proof (t_f2_pos f).
  pose proof (t_f3_pos f). pose proof (t_f4_pos f).
  destruct (Rle_dec 0 d).
  - assert (0 < length f * length f) by nra. nra.
  - apply Rdiv_lt_0_compat; nra.
Qed.

Lemma intermediate_ok (f : Fiber) :
  tf f <> 0 ->
  intermediate_firing_frequency f =
  (set_f_int (f_int f + h f * ((f_env f - f_int f) / tf f)) f,
   Ok (f_int f + h f * ((f_env f - f_int f) / tf f))).
Proof.
  intros Ht. unfold intermediate_firing_frequency, bind, get, modify, ret, lift.
  rewrite fdiv_ok by assumption. reflexivity.
Qed.

Lemma effective_ok (f : Fiber) :
  tf f <> 0 ->
  effective_firing_frequency f =
  (set_f_eff (f_eff f + h f * ((f_int f - f_eff f) / tf f)) f,
   Ok (f_eff f + h f * ((f_int f - f_eff f) / tf f))).
Proof.
  intros Ht. unfold effective_firing_frequency, bind, get, modify, ret, lift.
  rewrite fdiv_ok by assumption. reflexivity.
Qed.

Lemma intermediate_zero_tf (f : Fiber) :
  tf f = 0 -> intermediate_firing_frequency f = (f, Raise ZeroDivisionError).
Proof.
  intros Ht. unfold intermediate_firing_frequency, bind, get, lift.
  rewrite Ht, fdiv_zero. reflexivity.
Qed.

(** [update_force] starts with the firing-frequency steps. *)
Lemma update_force_prefix (s : R) (f : Fiber) :
  update_force s f =
  (firing_frequency_steps s ;;
   process_nf ;;
   Fiber__activation_frequency ;;
   p <- passive_force ;;
   a <- active_force ;;
   ret (p + a)) f.
Proof.
  unfold update_force, firing_frequency_steps, bind.
  destruct (process_recruitment s f) as [f1 [v1 | e1]]; [| reflexivity].
  destruct (tf_argument f1) as [f2 [d | e2]]; [| reflexivity].
  destruct (process_tf d f2) as [f3 [t | e3]]; [| reflexivity].
  destruct (intermediate_firing_frequency f3) as [f4 [a | e4]]; [| reflexivity].
  destruct (effective_firing_frequency f4) as [f5 [b | e5]]; reflexivity.
Qed.

(** C10, as the code has it.  On a fibre whose threshold is below 1
    (always so for the base and the slow fibre, whose threshold is 0.001),
    with [length > 0], [spike_frequency >= 0], [f_05 > 0] and a
    non-negative stored activation frequency: the argument of
    [__process_tf] is 0 when [tf] is still 0, the [tf] that
    [__process_tf] stores is strictly positive, and the two Euler steps
    that divide by it return. *)
Theorem firing_frequency_tf_positive (f : Fiber) (s : R) :
  u_th f < 1 ->
  0 < length f -> 0 <= s -> 0 < f_05 f -> 0 <= activation_frequency f ->
  exists (f1 f2 f3 f4 : Fiber) (v d t a b : R),
    process_recruitment s f = (f1, Ok v) /\
    tf_argument f1 = (f1, Ok d) /\
    (tf f = 0 -> d = 0) /\
    process_tf d f1 = (f2, Ok t) /\
    tf f2 = t /\ 0 < t /\
    intermediate_firing_frequency f2 = (f3, Ok a) /\
    effective_firing_frequency f3 = (f4, Ok b) /\
    firing_frequency_steps s f = (f4, Ok b).
Proof.
  intros Hth Hl Hs H05 Ha.
  assert (Hrec : exists v, process_recruitment s f = (set_f_env v f, Ok v) /\ 0 < v).
  { destruct (Rlt_dec (u_th f) s) as [Habove | Hbelow].
    - exists (recruited f s). split.
      + apply recruitment_above; lra.
      + apply recruited_pos; assumption.
    - exists (f_min f). split.
      + apply recruitment_below; lra.
      + unfold f_min; lra. }
  destruct Hrec as (v & Hrec & Hv).
  set (f1 := set_f_env v f).
  destruct (tf_argument_ok f1) as (d & Harg & Hd).
  assert (Htf : 0 < tf_value d f1) by (apply tf_value_pos; simpl; assumption).
  set (f2 := set_tf (tf_value d f1) f1).
  assert (Hne2 : tf f2 <> 0) by (simpl; lra).
  pose proof (intermediate_ok f2 Hne2) as Hint.
  set (a := f_int f2 + h f2 * ((f_env f2 - f_int f2) / tf f2)) in Hint.
  set (f3 := set_f_int a f2) in Hint.
  assert (Hne3 : tf f3 <> 0) by (simpl; lra).
  pose proof (effective_ok f3 Hne3) as Heff.
  set (b := f_eff f3 + h f3 * ((f_int f3 - f_eff f3) / tf f3)) in Heff.
  exists f1, f2, f3, (set_f_eff b f3), v, d, (tf_value d f1), a, b.
  assert (Hptf : process_tf d f1 = (f2, Ok (tf_value d f1)))
    by (apply process_tf_ok; simpl; lra).
  repeat split; try assumption.
  unfold firing_frequency_steps, bind.
  rewrite Hrec. fold f1. rewrite Harg, Hptf, Hint. exact Heff.
Qed.

Lemma firing_frequency_tf_positive_witness :
  let f := SlowTwitchFiber_init 0.01 1 1 0 0.36 in
  u_th f < 1 /\ 0 < length f /\ 0 <= 1 /\ 0 < f_05 f /\
  0 <= activation_frequency f /\
  exists (f1 f2 f3 f4 : Fiber) (v d t a b : R),
    process_recruitment 1 f = (f1, Ok v) /\
    tf_argument f1 = (f1, Ok d) /\
    (tf f = 0 -> d = 0) /\
    process_tf d f1 = (f2, Ok t) /\
    tf f2 = t /\ 0 < t /\
    intermediate_firing_frequency f2 = (f3, Ok a) /\
    effective_firing_frequency f3 = (f4, Ok b) /\
    firing_frequency_steps 1 f = (f4, Ok b).
Proof.
  intros f.
  assert (H1 : u_th f < 1) by (unfold u_th, by_class; simpl; lra).
  assert (H2 : 0 < length f) by (simpl; lra).
  assert (H3 : 0 <= 1) by lra.
  assert (H4 : 0 < f_05 f) by (simpl; lra).
  assert (H5 : 0 <= activation_frequency f) by (simpl; lra).
  repeat (split; [assumption |]).
  exact (firing_frequency_tf_positive f 1 H1 H2 H3 H4 H5).
Defined.

(** Without the bound on the threshold the positivity is lost.  A fast fibre
    built with [pcsa = 2] has the threshold 1.6; at spike frequency 2 the
    recruitment slope is negative, [f_env] is -1.62 and the [tf] stored
    on the first call is -1.432. *)
Lemma fast_fiber_tf_negative :
  let f := FastTwitchFiber_init 0.01 2 1 0 0.36 in
  0 < length f /\ 0 <= 2 /\ 0 < f_05 f /\ 0 <= activation_frequency f /\
  tf f = 0 /\
  exists (f1 f2 : Fiber) (v t : R),
    process_recruitment 2 f = (f1, Ok v) /\
    tf_argument f1 = (f1, Ok 0) /\
    process_tf 0 f1 = (f2, Ok t) /\
    tf f2 = t /\ t = -1.432 /\ ~ 0 < t.
Proof.
  intros f.
  assert (Hu : u_th f = 1.6) by (unfold u_th, by_class, u_r; simpl; lra).
  assert (Hrec : recruited f 2 = -1.62).
  { unfold recruited. rewrite Hu. unfold f_max, f_min. simpl. lra. }
  repeat (split; [simpl; lra |]).
  exists (set_f_env (recruited f 2) f),
         (set_tf (tf_value 0 (set_f_env (recruited f 2) f))
                 (set_f_env (recruited f 2) f)),
         (recruited f 2), (tf_value 0 (set_f_env (recruited f 2) f)).
  assert (Ht : tf_value 0 (set_f_env (recruited f 2) f) = -1.432).
  { unfold tf_value. destruct (Rle_dec 0 0) as [_ | Hbad]; [| lra].
    simpl. rewrite Hrec. unfold t_f1, t_f2, by_class. simpl. lra. }
  split; [apply recruitment_above; rewrite Hu; lra |].
  split.
  { unfold tf_argument, bind, get, ret. simpl.
    destruct (Req_dec_T 0 0); [reflexivity | lra]. }
  split; [apply process_tf_ok; simpl; lra |].
  split; [reflexivity |].
  split; [exact Ht | rewrite Ht; lra].
Qed.

(** ** The type-specific functions *)

(** What [FastTwitchFiber.__specific_function] assigns: the step is
    added to the target, not to the previous sag. *)
Lemma fast_specific_function_value (f : Fiber) :
  FastTwitchFiber__specific_function f =
  (set_sag (sag_target f + (sag_target f - sag f) / ts f * h f) f,
   Ok (sag_target f + (sag_target f - sag f) / ts f * h f)).
Proof.
  unfold FastTwitchFiber__specific_function, bind, get, modify, ret, lift.
  fold (sag_target f).
  rewrite fdiv_ok by (unfold ts; lra). reflexivity.
Qed.

(** C6 at a freshly built fast fibre ([sag = 0], [f_eff = 0], [h = 0.01]):
    the code stores [1.76 + 0.01 * 1.76 / 43], an Euler step from the
    previous sag would store [0 + 0.01 * (1.76 - 0) / 43]. *)
Theorem fast_sag_step_on_fresh_fiber :
  let f := FastTwitchFiber_init 0.01 1 1 0 0.36 in
  exists v : R,
    FastTwitchFiber__specific_function f = (set_sag v f, Ok v) /\
    v = 1.76 + 0.01 * 1.76 / 43 /\
    v <> sag f + h f * (sag_target f - sag f) / ts f.
Proof.
  intros f. eexists. split; [apply fast_specific_function_value |].
  assert (Ht : sag_target f = 1.76).
  { unfold sag_target. simpl. destruct (Rlt_dec 0 0.1); [reflexivity | lra]. }
  rewrite Ht. unfold ts. simpl. split; lra.
Qed.

(** What [SlowTwitchFiber.__specific_function] would assign. *)
Lemma slow_specific_function_value (f : Fiber) :
  SlowTwitchFiber__specific_function f =
  (set_yielding
     (yielding f +
      (1 - c_gamma f * (1 - exp (- velocity f / v_gamma f)) - yielding f)
      / t_gamma f * h f) f,
   Ok (yielding f +
       (1 - c_gamma f * (1 - exp (- velocity f / v_gamma f)) - yielding f)
       / t_gamma f * h f)).
Proof.
  unfold SlowTwitchFiber__specific_function, bind, get, modify, ret, lift.
  rewrite fdiv_ok by (unfold v_gamma; lra).
  rewrite fdiv_ok by (unfold t_gamma; lra). reflexivity.
Qed.

Lemma keeps_ret {A : Type} (a : A) : keeps_specific (ret a).
Proof. intros f. split; reflexivity. Qed.

Lemma keeps_lift {A : Type} (r : result A) : keeps_specific (lift r).
Proof. intros f. split; reflexivity. Qed.

Lemma keeps_get : keeps_specific (@get Fiber).
Proof. intros f. split; reflexivity. Qed.

Lemma keeps_modify (g : Fiber -> Fiber) :
  (forall f, yielding (g f) = yielding f /\ sag (g f) = sag f) ->
  keeps_specific (modify g).
Proof. intros Hg f. apply Hg. Qed.

Lemma keeps_bind {A B : Type} (c : M Fiber A) (k : A -> M Fiber B) :
  keeps_specific c -> (forall a, keeps_specific (k a)) ->
  keeps_specific (bind c k).
Proof.
  intros Hc Hk f. unfold bind.
  destruct (Hc f) as [Hcy Hcs]. destruct (c f) as [f' [a | e]]; simpl in *.
  - destruct (Hk a f') as [Hy Hs]. split; congruence.
  - split; assumption.
Qed.

Lemma keeps_if {A : Type} (b : bool) (c1 c2 : M Fiber A) :
  keeps_specific c1 -> keeps_specific c2 ->
  keeps_specific (if b then c1 else c2).
Proof. destruct b; trivial. Qed.

Ltac keeps :=
  repeat first
    [ apply keeps_ret | apply keeps_lift | apply keeps_get
    | apply keeps_modify; intros; split; reflexivity
    | apply keeps_bind; [| intros ?]
    | match goal with
      | |- keeps_specific (if ?c then _ else _) => destruct c
      end ].

Lemma update_force_keeps_specific (s : R) : keeps_specific (update_force s).
Proof.
  unfold update_force, process_recruitment, tf_argument, process_tf,
    intermediate_firing_frequency, effective_firing_frequency, process_nf,
    Fiber__activation_frequency, Fiber__specific_function, passive_force,
    active_force, parallel_elastic, thick_filament_compression,
    force_length, force_velocity.
  keeps.
Qed.

(** The specific function [__activation_frequency] multiplies by is the
    constant 1 of [Fiber.__specific_function], whatever the class. *)
Lemma activation_frequency_value (f : Fiber) (q p : R) :
  fdiv (1 * f_eff f) (af f * nf f) = Ok q ->
  math_pow q (nf f) = Ok p ->
  Fiber__activation_frequency f =
  (set_activation_frequency (1 - exp (- p)) f, Ok (1 - exp (- p))).
Proof.
  intros Hq Hp.
  unfold Fiber__activation_frequency, Fiber__specific_function,
    bind, get, modify, ret, lift.
  rewrite Hq, Hp. reflexivity.
Qed.

(** C2 on the code: a call of [update_force] never runs the yielding
    step.  Whatever the call returns or raises, [yielding] (and [sag])
    are what they were before it. *)
Theorem update_force_never_integrates_yielding (s : R) (f : Fiber) :
  yielding (fst (update_force s f)) = yielding f /\
  sag (fst (update_force s f)) = sag f.
Proof. apply update_force_keeps_specific. Qed.

(** At a freshly built slow fibre the Euler step of the yielding would
    store 0.00005; after [update_force] the yielding is still 0. *)
Lemma slow_fiber_yielding_untouched :
  let f := SlowTwitchFiber_init 0.01 1 1 0 0.36 in
  yielding (fst (update_force 1 f)) = 0 /\
  exists v : R,
    SlowTwitchFiber__specific_function f = (set_yielding v f, Ok v) /\
    v = 0.00005 /\ v <> yielding (fst (update_force 1 f)).
Proof.
  intros f.
  destruct (update_force_keeps_specific 1 f) as [Hy _].
  split; [rewrite Hy; reflexivity |].
  eexists. split; [apply slow_specific_function_value |].
  rewrite Hy. unfold c_gamma, v_gamma, t_gamma. simpl.
  replace (- 0 / 0.1) with 0 by lra. rewrite exp_0. split; lra.
Qed.

(** [max_length] is 0 from [__init__] on, so the passive force cannot be
    computed: [length / max_length] raises. *)
Lemma parallel_elastic_raises (f : Fiber) :
  parallel_elastic f = (f, Raise ZeroDivisionError).
Proof.
  unfold parallel_elastic, bind, get, lift, max_length.
  rewrite fdiv_zero. reflexivity.
Qed.

End FiberTheory.

(* ===================================================================== *)
(** * muscles/fiber.py: forces, activation and energy *)
(* ===================================================================== *)

Module FiberForces.

Import FiberModel FiberEnergy PyFacts.
Local Open Scope R_scope.
Local Open Scope py_scope.

Lemma math_pow_nonneg (x y p : R) :
  0 <= x -> math_pow x y = Ok p -> 0 <= p.
Proof.
  intros Hx. unfold math_pow.
  destruct (Rlt_dec 0 x) as [Hpos | Hnpos].
  - intros [= <-]. unfold Rpower. left. apply exp_pos.
  - destruct (Req_dec_T x 0) as [_ | Hne]; [| lra].
    destruct (Rlt_dec y 0); [discriminate |].
    destruct (Req_dec_T y 0); intros [= <-]; lra.
Qed.

Lemma math_pow_one (y : R) : math_pow 1 y = Ok 1.
Proof.
  unfold math_pow. destruct (Rlt_dec 0 1) as [_ | Hbad]; [| lra].
  f_equal. unfold Rpower. rewrite ln_1, Rmult_0_r. apply exp_0.
Qed.

Lemma math_pow_zero_pos (y : R) : 0 < y -> math_pow 0 y = Ok 0.
Proof. intros Hy. unfold math_pow. r_cases. reflexivity. Qed.

Lemma exp_neg_le_1 (p : R) : 0 <= p -> exp (- p) <= 1.
Proof.
  intros Hp. rewrite <- exp_0.
  destruct (Req_dec_T p 0) as [-> | Hne].
  - rewrite Ropp_0. lra.
  - left. apply exp_increasing. lra.
Qed.

Lemma rho_pos (f : Fiber) : 0 < rho f.
Proof. unfold rho, by_class. destruct (cls f); lra. Qed.

Lemma omega_nonzero (f : Fiber) : omega f <> 0.
Proof. unfold omega, by_class. destruct (cls f); lra. Qed.

Lemma max_velocity_nonzero (f : Fiber) : max_velocity f <> 0.
Proof. unfold max_velocity, by_class. destruct (cls f); lra. Qed.

(** Whenever [__force_length] returns, its value lies in (0, 1] and the
    fibre is as it was. *)
Theorem force_length_range (f f' : Fiber) (v : R) :
  force_length f = (f', Ok v) -> f' = f /\ 0 < v <= 1.
Proof.
  unfold force_length, bind, get, lift.
  destruct (math_pow (length f) (beta f)) as [p | e]; [| discriminate].
  rewrite (fdiv_ok _ _ (omega_nonzero f)).
  destruct (math_pow (Rabs ((p - 1) / omega f)) (rho f)) as [p' | e] eqn:Hp';
    [| discriminate].
  unfold ret. intros [= <- <-]. split; [reflexivity |].
  split; [apply exp_pos |].
  apply exp_neg_le_1. apply (math_pow_nonneg _ _ _ (Rabs_pos _) Hp').
Qed.

Lemma force_length_range_witness :
  let f := SlowTwitchFiber_init 0.01 1 1 0 0.36 in
  force_length f = (f, Ok (exp (- 0))) /\ f = f /\ 0 < exp (- 0) <= 1.
Proof.
  intros f.
  assert (H : force_length f = (f, Ok (exp (- 0)))).
  { unfold force_length, bind, get, lift, ret. simpl length.
    rewrite math_pow_one, (fdiv_ok _ _ (omega_nonzero f)).
    replace ((1 - 1) / omega f) with 0 by (unfold Rdiv; ring).
    rewrite Rabs_R0, (math_pow_zero_pos _ (rho_pos f)). reflexivity. }
  split; [exact H |].
  exact (force_length_range f f (exp (- 0)) H).
Defined.

Lemma force_length_one (f : Fiber) : length f = 1 -> force_length f = (f, Ok 1).
Proof.
  intros Hl. unfold force_length, bind, get, lift, ret. rewrite Hl.
  rewrite math_pow_one, (fdiv_ok _ _ (omega_nonzero f)).
  replace ((1 - 1) / omega f) with 0 by (unfold Rdiv; ring).
  rewrite Rabs_R0, (math_pow_zero_pos _ (rho_pos f)).
  rewrite Ropp_0, exp_0. reflexivity.
Qed.

Lemma force_velocity_rest (f : Fiber) : velocity f = 0 -> force_velocity f = (f, Ok 1).
Proof.
  intros Hv. unfold force_velocity, bind, get, lift. rewrite Hv.
  destruct (Rle_dec 0 0) as [_ | Hbad]; [| lra].
  pose proof (max_velocity_nonzero f) as Hmv.
  rewrite fdiv_ok by (rewrite Rmult_0_l, Rplus_0_r; exact Hmv).
  do 2 f_equal. field. exact Hmv.
Qed.

(** At the optimal length and at rest the active force is the stored
    activation frequency: both the force-length and the force-velocity
    factor are 1. *)
Theorem active_force_at_rest (f : Fiber) :
  length f = 1 -> velocity f = 0 ->
  force_length f = (f, Ok 1) /\
  force_velocity f = (f, Ok 1) /\
  active_force f = (f, Ok (activation_frequency f)).
Proof.
  intros Hl Hv.
  pose proof (force_length_one f Hl) as Hfl.
  pose proof (force_velocity_rest f Hv) as Hfv.
  split; [exact Hfl |]. split; [exact Hfv |].
  unfold active_force, bind. rewrite Hfl, Hfv. unfold get, ret.
  do 2 f_equal. ring.
Qed.

Lemma active_force_at_rest_witness :
  let f := FastTwitchFiber_init 0.01 1 1 0 0.36 in
  length f = 1 /\ velocity f = 0 /\
  force_length f = (f, Ok 1) /\
  force_velocity f = (f, Ok 1) /\
  active_force f = (f, Ok (activation_frequency f)).
Proof.
  intros f.
  assert (H1 : length f = 1) by reflexivity.
  assert (H2 : velocity f = 0) by reflexivity.
  split; [exact H1 |]. split; [exact H2 |].
  exact (active_force_at_rest f H1 H2).
Defined.

(** Whenever [__activation_frequency] returns, the value it stores is
    below 1; it is not negative when the effective firing frequency is
    not negative and [nf] is positive. *)
Theorem activation_frequency_range (f f' : Fiber) (v : R) :
  Fiber__activation_frequency f = (f', Ok v) ->
  activation_frequency f' = v /\ v < 1 /\
  (0 <= f_eff f -> 0 < nf f -> 0 <= v).
Proof.
  unfold Fiber__activation_frequency, Fiber__specific_function,
    bind, get, modify, ret, lift.
  unfold fdiv. destruct (Req_dec_T (af f * nf f) 0) as [Hz | Hnz]; [discriminate |].
  destruct (math_pow (1 * f_eff f / (af f * nf f)) (nf f)) as [p | e] eqn:Hp;
    [| discriminate].
  intros [= <- <-]. split; [reflexivity |]. split.
  - pose proof (exp_pos (- p)). lra.
  - intros Heff Hnf.
    assert (Hq : 0 <= 1 * f_eff f / (af f * nf f)).
    { apply Rmult_le_pos; [lra |]. left. apply Rinv_0_lt_compat.
      unfold af. nra. }
    pose proof (exp_neg_le_1 p (math_pow_nonneg _ _ _ Hq Hp)). lra.
Qed.

Lemma activation_frequency_range_witness :
  let f := set_nf 2.1 (SlowTwitchFiber_init 0.01 1 1 0 0.36) in
  Fiber__activation_frequency f =
    (set_activation_frequency (1 - exp (- 0)) f, Ok (1 - exp (- 0))) /\
  activation_frequency (set_activation_frequency (1 - exp (- 0)) f) = 1 - exp (- 0) /\
  1 - exp (- 0) < 1 /\
  (0 <= f_eff f -> 0 < nf f -> 0 <= 1 - exp (- 0)).
Proof.
  intros f.
  assert (H : Fiber__activation_frequency f =
              (set_activation_frequency (1 - exp (- 0)) f, Ok (1 - exp (- 0)))).
  { unfold Fiber__activation_frequency, Fiber__specific_function,
      bind, get, modify, ret, lift. simpl.
    rewrite fdiv_ok by (unfold af; lra).
    replace (1 * 0 / (af f * 2.1)) with 0 by (unfold Rdiv; ring).
    rewrite math_pow_zero_pos by lra. reflexivity. }
  split; [exact H |].
  exact (activation_frequency_range f _ _ H).
Defined.

(** [update_force] never returns a force.  The passive force divides the
    length by [max_length], which [__init__] sets to 0 and no method
    assigns: a call that gets that far raises [ZeroDivisionError], and a
    call that does not has raised before. *)
Theorem update_force_never_returns (s : R) (f : Fiber) :
  exists e : exn, snd (update_force s f) = Raise e.
Proof.
  unfold update_force.
  unfold bind at 1. destruct (process_recruitment s f) as [f1 [v1 | e1]];
    [| eexists; reflexivity].
  unfold bind at 1. destruct (tf_argument f1) as [f2 [d | e2]];
    [| eexists; reflexivity].
  unfold bind at 1. destruct (process_tf d f2) as [f3 [t | e3]];
    [| eexists; reflexivity].
  unfold bind at 1. destruct (intermediate_firing_frequency f3) as [f4 [x4 | e4]];
    [| eexists; reflexivity].
  unfold bind at 1. destruct (effective_firing_frequency f4) as [f5 [x5 | e5]];
    [| eexists; reflexivity].
  unfold bind at 1. destruct (process_nf f5) as [f6 [x6 | e6]];
    [| eexists; reflexivity].
  unfold bind at 1. destruct (Fiber__activation_frequency f6) as [f7 [x7 | e7]];
    [| eexists; reflexivity].
  exists ZeroDivisionError.
  unfold bind at 1. unfold passive_force. unfold bind at 1.
  unfold parallel_elastic, bind, get, lift, max_length.
  rewrite fdiv_zero. reflexivity.
Qed.

(** One step of the yielding of a slow fibre: the distance to the target
    is multiplied by [1 - h / 200], so for a step [h] between 0 and 200
    the yielding moves towards the target and does not pass it. *)
Theorem yielding_step_contracts (f : Fiber) :
  0 <= h f <= 200 ->
  exists y : R,
    SlowTwitchFiber__specific_function f = (set_yielding y f, Ok y) /\
    y - yielding_target f = (1 - h f / 200) * (yielding f - yielding_target f) /\
    Rabs (y - yielding_target f) <= Rabs (yielding f - yielding_target f).
Proof.
  intros Hh. eexists. split.
  - unfold SlowTwitchFiber__specific_function, bind, get, modify, ret, lift.
    rewrite fdiv_ok by (unfold v_gamma; lra).
    rewrite fdiv_ok by (unfold t_gamma; lra). reflexivity.
  - fold (yielding_target f). unfold t_gamma.
    assert (Heq : yielding f + (yielding_target f - yielding f) / 200 * h f
                  - yielding_target f
                  = (1 - h f / 200) * (yielding f - yielding_target f)) by field.
    split; [exact Heq |].
    rewrite Heq, Rabs_mult.
    rewrite (Rabs_pos_eq (1 - h f / 200)) by lra.
    pose proof (Rabs_pos (yielding f - yielding_target f)). nra.
Qed.

Lemma yielding_step_contracts_witness :
  let f := SlowTwitchFiber_init 0.01 1 1 0 0.36 in
  0 <= h f <= 200 /\
  exists y : R,
    SlowTwitchFiber__specific_function f = (set_yielding y f, Ok y) /\
    y - yielding_target f = (1 - h f / 200) * (yielding f - yielding_target f) /\
    Rabs (y - yielding_target f) <= Rabs (yielding f - yielding_target f).
Proof.
  intros f.
  assert (H : 0 <= h f <= 200) by (simpl; lra).
  split; [exact H |].
  exact (yielding_step_contracts f H).
Defined.

(** The Euler step of the intermediate firing frequency: with a positive
    time constant and a step [h] between 0 and [tf], the new [f_int]
    lies between the old one and [f_env]. *)
Theorem intermediate_step_between (f : Fiber) :
  0 < tf f -> 0 <= h f <= tf f ->
  exists v : R,
    intermediate_firing_frequency f = (set_f_int v f, Ok v) /\
    Rmin (f_int f) (f_env f) <= v <= Rmax (f_int f) (f_env f).
Proof.
  intros Htf Hh. eexists. split.
  - apply FiberTheory.intermediate_ok. lra.
  - set (k := h f / tf f).
    assert (Hk : 0 <= k <= 1).
    { unfold k. split.
      - apply Rmult_le_pos; [lra |]. left. apply Rinv_0_lt_compat. exact Htf.
      - apply (Rmult_le_reg_r (tf f)); [exact Htf |].
        unfold Rdiv. rewrite Rmult_assoc, Rinv_l by lra. lra. }
    replace (f_int f + h f * ((f_env f - f_int f) / tf f))
      with (f_int f + k * (f_env f - f_int f)) by (unfold k; field; lra).
    unfold Rmin, Rmax. destruct (Rle_dec (f_int f) (f_env f)); nra.
Qed.

Lemma intermediate_step_between_witness :
  let f := set_tf 1 (set_f_env 0.18 (SlowTwitchFiber_init 0.01 1 1 0 0.36)) in
  0 < tf f /\ 0 <= h f <= tf f /\
  exists v : R,
    intermediate_firing_frequency f = (set_f_int v f, Ok v) /\
    Rmin (f_int f) (f_env f) <= v <= Rmax (f_int f) (f_env f).
Proof.
  intros f.
  assert (H1 : 0 < tf f) by (simpl; lra).
  assert (H2 : 0 <= h f <= tf f) by (simpl; lra).
  split; [exact H1 |]. split; [exact H2 |].
  exact (intermediate_step_between f H1 H2).
Defined.

(** ** Energy *)

Lemma e4_pos (f : Fiber) : 0 < e4 f.
Proof. unfold e4, by_class. destruct (cls f); lra. Qed.

Lemma initial_tetanic_energy_ok (f : Fiber) (v : R) :
  v <> e4 f -> initial_tetanic_energy v f = (f, Ok (tetanic f v)).
Proof.
  intros Hv. unfold initial_tetanic_energy, bind, get, lift.
  rewrite math_pow_2, fdiv_ok by lra. reflexivity.
Qed.

Lemma tetanic_base (n : nat) (f : Fiber) (v : R) :
  v <= 0 -> tetanic_cross_bridge_energy (S n) v f = (f, Ok (tetanic_xb f v)).
Proof.
  intros Hv. simpl. destruct (Rle_dec v 0) as [_ | Hbad]; [| contradiction].
  pose proof (e4_pos f) as He4.
  unfold bind at 1. rewrite initial_tetanic_energy_ok by lra.
  unfold tetanic_activation_energy, bind, get, ret.
  rewrite initial_tetanic_energy_ok by lra. reflexivity.
Qed.

(** At or below zero [__tetanic_cross_bridge_energy] returns without
    calling itself; above zero what it does is decided by the Euler step
    [h] alone.  With [h > 0] it returns the baseline plus a difference
    quotient scaled by [self.velocity], the same for every positive
    argument; with [h = 0] it raises [ZeroDivisionError]; with [h < 0] it
    calls itself with [-h > 0] for ever, until the recursion limit. *)
Theorem tetanic_cross_bridge_energy_cases (f : Fiber) (v : R) :
  (v <= 0 ->
   forall n : nat,
     tetanic_cross_bridge_energy (S n) v f = (f, Ok (tetanic_xb f v))) /\
  (0 < v -> 0 < h f ->
   forall n : nat,
     tetanic_cross_bridge_energy (S (S n)) v f =
     (f, Ok (tetanic_xb f 0 +
             velocity f * (tetanic_xb f 0 - tetanic_xb f (- h f)) / h f))) /\
  (0 < v -> h f = 0 ->
   forall n : nat,
     tetanic_cross_bridge_energy (S (S n)) v f = (f, Raise ZeroDivisionError)) /\
  (0 < v -> h f < 0 ->
   forall depth : nat,
     tetanic_cross_bridge_energy depth v f = (f, Raise RuntimeError)).
Proof.
  split; [intros Hv n; apply tetanic_base, Hv |].
  split; [| split].
  - intros Hv Hh n.
    change (tetanic_cross_bridge_energy (S (S n)) v f) with
      ((if Rle_dec v 0
        then x <- initial_tetanic_energy v ;;
             y <- tetanic_activation_energy ;; ret (x - y)
        else f_tet_xb_0 <- tetanic_cross_bridge_energy (S n) 0 ;;
             f0 <- get ;;
             back <- tetanic_cross_bridge_energy (S n) (- h f0) ;;
             q <- lift (fdiv (velocity f0 * (f_tet_xb_0 - back)) (h f0)) ;;
             ret (f_tet_xb_0 + q)) f).
    destruct (Rle_dec v 0) as [Hbad | _]; [lra |].
    unfold bind at 1. rewrite tetanic_base by lra.
    unfold get. unfold bind at 1. unfold bind at 1.
    rewrite tetanic_base by lra.
    unfold bind, lift, ret. rewrite fdiv_ok by lra. reflexivity.
  - intros Hv Hh n.
    change (tetanic_cross_bridge_energy (S (S n)) v f) with
      ((if Rle_dec v 0
        then x <- initial_tetanic_energy v ;;
             y <- tetanic_activation_energy ;; ret (x - y)
        else f_tet_xb_0 <- tetanic_cross_bridge_energy (S n) 0 ;;
             f0 <- get ;;
             back <- tetanic_cross_bridge_energy (S n) (- h f0) ;;
             q <- lift (fdiv (velocity f0 * (f_tet_xb_0 - back)) (h f0)) ;;
             ret (f_tet_xb_0 + q)) f).
    destruct (Rle_dec v 0) as [Hbad | _]; [lra |].
    unfold bind at 1. rewrite tetanic_base by lra.
    unfold get. unfold bind at 1. unfold bind at 1.
    rewrite tetanic_base by lra.
    unfold bind, lift. rewrite Hh, fdiv_zero. reflexivity.
  - intros Hv Hh depth. revert v Hv.
    induction depth as [| depth IH]; intros v Hv; [reflexivity |].
    simpl. destruct (Rle_dec v 0) as [Hbad | _]; [lra |].
    unfold bind at 1.
    destruct depth as [| depth']; [reflexivity |].
    rewrite tetanic_base by lra.
    unfold get. unfold bind at 1. unfold bind at 1.
    rewrite IH by lra. reflexivity.
Qed.

Lemma reads_ret {A : Type} (x : A) : reads_only (ret x).
Proof. intros f. reflexivity. Qed.

Lemma reads_raise {A : Type} (e : exn) : reads_only (raise (A := A) e).
Proof. intros f. reflexivity. Qed.

Lemma reads_lift {A : Type} (x : result A) : reads_only (lift x).
Proof. intros f. reflexivity. Qed.

Lemma reads_get : reads_only (@get Fiber).
Proof. intros f. reflexivity. Qed.

Lemma reads_bind {A B : Type} (c : M Fiber A) (k : A -> M Fiber B) :
  reads_only c -> (forall x, reads_only (k x)) -> reads_only (bind c k).
Proof.
  intros Hc Hk f. unfold bind. specialize (Hc f).
  destruct (c f) as [f' [x | e]]; simpl in *; subst; [apply Hk | reflexivity].
Qed.

Ltac reads :=
  repeat first
    [ apply reads_ret | apply reads_raise | apply reads_lift | apply reads_get
    | apply reads_bind; [| intros ?]
    | match goal with
      | |- reads_only (if ?c then _ else _) => destruct c
      end ].

Lemma reads_force_length : reads_only force_length.
Proof. unfold force_length. reads. Qed.

Lemma reads_tetanic (depth : nat) (v : R) :
  reads_only (tetanic_cross_bridge_energy depth v).
Proof.
  revert v. induction depth as [| depth IH]; intros v; simpl.
  - apply reads_raise.
  - unfold initial_tetanic_energy, tetanic_activation_energy, initial_tetanic_energy.
    destruct (Rle_dec v 0); reads; apply IH.
Qed.

Lemma reads_cross_bridge (depth : nat) (force length_ v : R) :
  reads_only (cross_bridge_energy depth force length_ v).
Proof.
  unfold cross_bridge_energy, effective_activation.
  reads; first [apply reads_force_length | apply reads_tetanic].
Qed.

Lemma reads_initial_energy (depth : nat) (force length_ v : R) :
  reads_only (initial_energy depth force length_ v).
Proof.
  unfold initial_energy, activation_energy.
  reads;
    first [apply reads_cross_bridge | apply reads_force_length | apply reads_tetanic].
Qed.

(** [update_energy] does not look at the force and the length it is
    given: whenever the initial energy [ie] can be computed for the third
    argument, every call with that third argument returns
    [(ie + ie * r) * m] and leaves the fibre as it is. *)
Theorem update_energy_value (depth : nat) (force length_ energy ie : R)
    (f f' : Fiber) :
  initial_energy depth force length_ energy f = (f', Ok ie) ->
  f' = f /\
  forall force' length' : R,
    update_energy depth force' length' energy f = (f, Ok ((ie + ie * r f) * m f)).
Proof.
  intros Hie.
  assert (Hf : f' = f).
  { pose proof (reads_initial_energy depth force length_ energy f) as Hr.
    rewrite Hie in Hr. exact Hr. }
  subst f'. split; [reflexivity |]. intros force' length'.
  assert (Hsame : initial_energy depth force' length' energy f = (f, Ok ie))
    by exact Hie.
  unfold update_energy, recovery_energy, bind. rewrite !Hsame. reflexivity.
Qed.

Lemma update_energy_value_witness :
  let f := SlowTwitchFiber_init 0.01 1 1 0 0.36 in
  let ie := 0 * 1 * tetanic_xb f 0 + a f / (1 - a f) * (0 * 1 * tetanic_xb f 0) in
  initial_energy 2 5 3 0 f = (f, Ok ie) /\
  f = f /\
  forall force' length' : R,
    update_energy 2 force' length' 0 f = (f, Ok ((ie + ie * r f) * m f)).
Proof.
  intros f ie.
  assert (H : initial_energy 2 5 3 0 f = (f, Ok ie)).
  { unfold initial_energy, activation_energy, cross_bridge_energy,
      effective_activation.
    unfold bind, get, ret, lift.
    rewrite (force_length_one f eq_refl).
    rewrite (tetanic_base 1 f 0) by lra.
    rewrite fdiv_ok by (unfold a; lra).
    rewrite (force_length_one f eq_refl).
    rewrite (tetanic_base 1 f 0) by lra.
    reflexivity. }
  split; [exact H |].
  exact (update_energy_value 2 5 3 0 ie f f H).
Defined.

End FiberForces.

(* ===================================================================== *)
(** * muscles/brown.py: default lengths *)
(* ===================================================================== *)

Module BrownTheory.

Import Geometry BrownModel.
Local Open Scope R_scope.

Lemma param_absent (params : gmap string R) (key : string) (d : R) :
  params !! key = None -> param params key d = d.
Proof. intros H. unfold param. rewrite H. reflexivity. Qed.

Lemma param_present (params : gmap string R) (key : string) (d v : R) :
  params !! key = Some v -> param params key d = v.
Proof. intros H. unfold param. rewrite H. reflexivity. Qed.

Lemma norm_unit_x : norm (vec_sub (mkVec 0 0 0) (mkVec 1 0 0)) = 1.
Proof.
  unfold norm, vec_sub. simpl.
  replace ((0 - 1) * (0 - 1) + (0 - 0) * (0 - 0) + (0 - 0) * (0 - 0)) with 1 by lra.
  apply sqrt_1.
Qed.

(** C7, as the code has it.  Without a ["max_length"] parameter the
    maximum length is 1.5 times the measured initial distance [l_ce]
    between the attachment points; it is 1.5 times [l_0] when ["l_0"] is
    absent as well, [l_0] being that distance then. *)
Theorem l_max_default (params : gmap string R) (p1 p2 : vec) :
  params !! "max_length" = None ->
  l_max (BrownMuscle_init params p1 p2) = 1.5 * norm (vec_sub p1 p2) /\
  l_max (BrownMuscle_init params p1 p2) = 1.5 * l_ce (BrownMuscle_init params p1 p2) /\
  (params !! "l_0" = None ->
   l_0 (BrownMuscle_init params p1 p2) = norm (vec_sub p1 p2) /\
   l_max (BrownMuscle_init params p1 p2) = 1.5 * l_0 (BrownMuscle_init params p1 p2)).
Proof.
  intros Hmax. simpl. rewrite (param_absent _ _ _ Hmax).
  repeat split; try reflexivity.
  - rewrite (param_absent _ _ _ H). reflexivity.
  - rewrite (param_absent _ _ _ H). reflexivity.
Qed.

Lemma l_max_default_witness :
  let params : gmap string R := {[ "pcsa" := 2 ]} in
  let p1 := mkVec 0 0 0 in
  let p2 := mkVec 1 0 0 in
  params !! "max_length" = None /\
  l_max (BrownMuscle_init params p1 p2) = 1.5 * norm (vec_sub p1 p2) /\
  l_max (BrownMuscle_init params p1 p2) = 1.5 * l_ce (BrownMuscle_init params p1 p2) /\
  (params !! "l_0" = None ->
   l_0 (BrownMuscle_init params p1 p2) = norm (vec_sub p1 p2) /\
   l_max (BrownMuscle_init params p1 p2) = 1.5 * l_0 (BrownMuscle_init params p1 p2)).
Proof.
  intros params p1 p2.
  assert (H : params !! "max_length" = None) by reflexivity.
  split; [exact H |].
  exact (l_max_default params p1 p2 H).
Defined.

(** With ["l_0"] given and ["max_length"] not, [l_max] follows the
    measured distance and not [l_0]: points one unit apart and
    [l_0 = 2] give [l_max = 1.5], not 3. *)
Lemma l_max_ignores_given_l_0 :
  let params : gmap string R := {[ "l_0" := 2 ]} in
  let m := BrownMuscle_init params (mkVec 0 0 0) (mkVec 1 0 0) in
  params !! "max_length" = None /\
  l_0 m = 2 /\ l_max m = 1.5 /\ l_max m <> 1.5 * l_0 m.
Proof.
  intros params m.
  assert (Hl0 : l_0 m = 2) by reflexivity.
  assert (Hmax : l_max m = 1.5).
  { unfold m. simpl.
    rewrite (param_absent params "max_length") by reflexivity.
    rewrite norm_unit_x. lra. }
  repeat split; try assumption.
  rewrite Hmax, Hl0. lra.
Qed.

End BrownTheory.

(* ===================================================================== *)
(** * body.py: the length check of Leg.update *)
(* ===================================================================== *)

Module LegTheory.

Import Geometry HostModel MuscleInterface LegModel.
Local Open Scope py_scope.

Section LegFacts.

Context {C T : Type} `{Muscle C T}.
Variable float_str : R -> string.

(** The first [+] of the message joins a string and an integer. *)
Lemma mismatch_message_raises (n k : nat) :
  mismatch_message n k = Raise TypeError.
Proof. reflexivity. Qed.

Lemma control_signal_ok (row outputs : list R) (j : nat) (acc : R) :
  length row = (j + length outputs)%nat ->
  exists v : R, control_signal row outputs j acc = Ok v.
Proof.
  revert j acc. induction outputs as [| o outputs IH]; intros j acc Hlen.
  - exists acc. reflexivity.
  - simpl in *. unfold index.
    destruct (lookup_lt_is_Some_2 row j) as [w Hw]; [lia |].
    rewrite Hw. simpl. apply IH. lia.
Qed.

(** The round of a muscle whose row has another length than the brain
    output: the message cannot be built, nothing is logged, the leg is
    left as it was. *)
Lemma update_muscle_mismatch (brain_output : list R) (i : nat)
    (w : Host) (l : Leg T) (m : T) (row : list R) :
  muscles l !! i = Some m ->
  connection_matrix l !! muscle_name m = Some row ->
  length row ≠ length brain_output ->
  update_muscle float_str brain_output i (w, l) = ((w, l), Raise TypeError).
Proof.
  intros Hm Hrow Hlen.
  unfold update_muscle, bind, get, lift, index, getitem. simpl.
  rewrite Hm, Hrow.
  rewrite bool_decide_eq_true_2 by assumption.
  reflexivity.
Qed.

(** The round of a muscle whose row has the length of the brain output:
    the muscle is sent the control signal and a debug record is logged. *)
Lemma update_muscle_match (brain_output : list R) (i : nat)
    (w : Host) (l : Leg T) (m : T) (row : list R) :
  muscles l !! i = Some m ->
  connection_matrix l !! muscle_name m = Some row ->
  length row = length brain_output ->
  exists ctrl_sig : R,
    control_signal row brain_output 0 0%R = Ok ctrl_sig /\
    forall m' : T,
      muscle_update (Some ctrl_sig) m = (m', Ok tt) ->
      exists msg : string,
        update_muscle float_str brain_output i (w, l) =
        ((logger_emit DEBUG (VStr msg) w,
          set_n_iter (n_iter l + 1) (set_muscles (<[i := m']> (muscles l)) l)),
         Ok tt).
Proof.
  intros Hm Hrow Hlen.
  destruct (control_signal_ok row brain_output 0 0%R) as [v Hv]; [lia |].
  exists v. split; [exact Hv |]. intros m' Hupd.
  eexists.
  unfold update_muscle, bind, get, lift, index, getitem. simpl.
  rewrite Hm, Hrow.
  rewrite bool_decide_eq_false_2 by (intros Hne; apply Hne; exact Hlen).
  rewrite Hv.
  unfold on_leg, on_muscle, on_host, modify. simpl.
  rewrite Hm, Hupd. simpl. reflexivity.
Qed.

Lemma for_each_app {S A : Type} (pre post : list A) (body : A -> M S unit) (st : S) :
  for_each (pre ++ post) body st =
  match for_each pre body st with
  | (st', Ok _) => for_each post body st'
  | (st', Raise e) => (st', Raise e)
  end.
Proof.
  revert st. induction pre as [| x pre IH]; intros st; simpl.
  - reflexivity.
  - unfold bind. destruct (body x st) as [st1 [[] | e]]; [apply IH | reflexivity].
Qed.

Lemma seq_split (n i : nat) :
  (i < n)%nat -> seq 0 n = seq 0 i ++ i :: seq (S i) (n - S i).
Proof.
  intros Hi. replace n with (i + S (n - S i))%nat at 1 by lia.
  rewrite seq_app. simpl. reflexivity.
Qed.

(** C1 on the code.  Let the muscle at index [i] be the first whose row
    has another length than the brain output, the rounds of the muscles
    before it having returned and left the leg [l'] and the host [w'].
    Then [Leg.update] raises [TypeError] in that round: the error record
    is not logged, and the leg stays [l'], that muscle as it was. *)
Theorem update_mismatch_raises (brain_output : list R) (i : nat)
    (w w' : Host) (l l' : Leg T) (m : T) (row : list R) :
  (i < length (muscles l))%nat ->
  for_each (seq 0 i) (update_muscle float_str brain_output) (w, l) = ((w', l'), Ok tt) ->
  muscles l' !! i = Some m ->
  connection_matrix l' !! muscle_name m = Some row ->
  length row ≠ length brain_output ->
  update float_str brain_output (w, l) = ((w', l'), Raise TypeError) /\
  log w' = log (fst (fst (update float_str brain_output (w, l)))) /\
  muscles (snd (fst (update float_str brain_output (w, l)))) !! i = Some m.
Proof.
  intros Hi Hpre Hm Hrow Hlen.
  assert (Hrun : update float_str brain_output (w, l) = ((w', l'), Raise TypeError)).
  { unfold update, get. unfold bind at 1. simpl.
    rewrite (seq_split _ i Hi), for_each_app, Hpre. simpl.
    unfold bind at 1.
    rewrite (update_muscle_mismatch brain_output i w' l' m row Hm Hrow Hlen).
    reflexivity. }
  rewrite Hrun. simpl. repeat split; try reflexivity; exact Hm.
Qed.

End LegFacts.

(** The leg with the muscle ["m"], row [[1]], and a brain output of two
    values. *)
Lemma update_mismatch_raises_witness :
  (0 < length (muscles Examples.one_muscle_leg))%nat /\
  muscles Examples.one_muscle_leg !! 0%nat = Some (Examples.mkProbe "m" [] 0) /\
  connection_matrix Examples.one_muscle_leg !! "m" = Some [1%R] /\
  length [1%R] ≠ length [0.5%R; 0.5%R] /\
  forall float_str : R -> string,
    update float_str [0.5%R; 0.5%R] (Examples.empty_host, Examples.one_muscle_leg) =
    ((Examples.empty_host, Examples.one_muscle_leg), Raise TypeError).
Proof.
  assert (H0 : (0 < length (muscles Examples.one_muscle_leg))%nat)
    by (simpl; lia).
  assert (H1 : muscles Examples.one_muscle_leg !! 0%nat =
               Some (Examples.mkProbe "m" [] 0)) by reflexivity.
  assert (H2 : connection_matrix Examples.one_muscle_leg !!
               muscle_name (Examples.mkProbe "m" [] 0) = Some [1%R])
    by reflexivity.
  assert (H3 : length [1%R] ≠ length [0.5%R; 0.5%R]) by (simpl; lia).
  split; [exact H0 |]. split; [exact H1 |]. split; [exact H2 |].
  split; [exact H3 |].
  intros float_str.
  exact (proj1 (update_mismatch_raises float_str [0.5%R; 0.5%R] 0
                  Examples.empty_host Examples.empty_host
                  Examples.one_muscle_leg Examples.one_muscle_leg
                  (Examples.mkProbe "m" [] 0) [1%R] H0 eq_refl H1 H2 H3)).
Defined.

End LegTheory.

(* ===================================================================== *)
(** * body.py: construction and loss of the Body *)
(* ===================================================================== *)

Module BodyTheory.

Import Geometry HostModel MuscleInterface BodyModel PyFacts.
Local Open Scope R_scope.
Local Open Scope py_scope.

Section BodyFacts.

Context {C T : Type} `{Muscle C T} {Brain : Type}.
Variable Brain_init : Config C -> result Brain.

Lemma get_object_absent (w : Host) (key : string) :
  objects w !! key = None -> get_object w key = None.
Proof.
  intros Hk. unfold get_object, exists_Object.
  rewrite bool_decide_eq_false_2; [reflexivity |].
  rewrite Hk. intros [x Hx]. discriminate.
Qed.

Lemma get_object_present (w : Host) (key : string) (obj : GameObject) :
  objects w !! key = Some obj -> get_object w key = Some key.
Proof.
  intros Hk. unfold get_object, exists_Object.
  rewrite bool_decide_eq_true_2; [reflexivity |].
  rewrite Hk. eexists. reflexivity.
Qed.

(** C3 on the code.  When the trunk object is not in the scene,
    [Body.__init__] logs the error and then raises [AttributeError] at
    [self.body_obj.worldTransform]: no body is returned. *)
Theorem Body_init_missing_trunk (config_ : Config C) (w : Host) :
  objects w !! body_obj_name config_ = None ->
  Body_init Brain_init config_ w =
  (logger_emit ERROR
     (VStr ("Body " +:+ body_name config_ +:+
            " doesn't exit. Check your configuration file!")) w,
   Raise AttributeError).
Proof.
  intros Habsent.
  unfold Body_init, bind, get, modify, ret, lift.
  rewrite (get_object_absent w _ Habsent). reflexivity.
Qed.

Lemma trunk_position_present (w : Host) (key : string) (obj : GameObject) :
  objects w !! key = Some obj ->
  trunk_position w (Some key) = Ok (apply (worldTransform obj) (mkVec 0 0 0)).
Proof. intros Hk. unfold trunk_position. simpl. rewrite Hk. reflexivity. Qed.

Lemma INR_length_nonzero {A : Type} (l : list A) : l <> [] -> INR (length l) <> 0.
Proof.
  intros Hl. destruct l as [| x l]; [contradiction |].
  apply not_0_INR. simpl. lia.
Qed.

(** C4, as the code has it.  With the trunk alive in the scene, a
    non-empty power history whose sum is not zero and a [dist_ref] that
    is not zero, [get_loss_fct] returns
    [tanh (dist / dist_ref) * tanh (power_ref / av_power)], where [dist]
    is the distance of the trunk's current position from the origin taken
    at construction and [av_power] the mean of the whole history; the
    three values are stored on the body. *)
Theorem get_loss_fct_value (w : Host) (b : Body C T Brain) (key : string)
    (obj : GameObject) :
  body_obj b = Some key ->
  objects w !! key = Some obj ->
  powers b <> [] ->
  sum (powers b) <> 0 ->
  dist_ref (config b) <> 0 ->
  exists b' : Body C T Brain,
    get_loss_fct (w, b) =
    ((w, b'),
     Ok (tanh (norm (vec_sub (apply (worldTransform obj) (mkVec 0 0 0)) (origin b))
               / dist_ref (config b)) *
         tanh (power_ref (config b)
               / (sum (powers b) / INR (length (powers b)))))) /\
    dist b' = norm (vec_sub (apply (worldTransform obj) (mkVec 0 0 0)) (origin b)) /\
    av_power b' = sum (powers b) / INR (length (powers b)) /\
    loss_fct b' =
      tanh (dist b' / dist_ref (config b)) * tanh (power_ref (config b) / av_power b').
Proof.
  intros Hobj Hkey Hne Hsum Href.
  pose proof (INR_length_nonzero (powers b) Hne) as Hlen.
  assert (Hav : sum (powers b) / INR (length (powers b)) <> 0).
  { unfold Rdiv. apply Rmult_integral_contrapositive. split; [assumption |].
    apply Rinv_neq_0_compat. assumption. }
  eexists.
  unfold get_loss_fct, compute_traveled_dist, bind, get, modify, ret, lift.
  simpl. rewrite Hobj, (trunk_position_present w key obj Hkey). simpl.
  rewrite (fdiv_ok _ _ Hlen). simpl.
  rewrite (fdiv_ok _ _ Href).
  rewrite (fdiv_ok _ _ Hav).
  split; [reflexivity |]. simpl. repeat split; reflexivity.
Qed.

(** A history that sums to zero stops [get_loss_fct] at
    [power_ref / av_power]. *)
Lemma get_loss_fct_zero_power (w : Host) (b : Body C T Brain) (key : string)
    (obj : GameObject) :
  body_obj b = Some key ->
  objects w !! key = Some obj ->
  powers b <> [] ->
  sum (powers b) = 0 ->
  dist_ref (config b) <> 0 ->
  snd (get_loss_fct (w, b)) = Raise ZeroDivisionError.
Proof.
  intros Hobj Hkey Hne Hsum Href.
  pose proof (INR_length_nonzero (powers b) Hne) as Hlen.
  unfold get_loss_fct, compute_traveled_dist, bind, get, modify, ret, lift.
  simpl. rewrite Hobj, (trunk_position_present w key obj Hkey). simpl.
  rewrite (fdiv_ok _ _ Hlen). simpl.
  rewrite (fdiv_ok _ _ Href).
  rewrite Hsum. replace (0 / INR (length (powers b))) with 0 by (field; assumption).
  rewrite fdiv_zero. reflexivity.
Qed.

End BodyFacts.

Lemma Body_init_missing_trunk_witness :
  let config_ := Examples.probe_config "trunk" 1 10 in
  objects Examples.empty_host !! body_obj_name config_ = None /\
  Body_init (T := Examples.Probe) (fun _ => Ok tt) config_ Examples.empty_host =
  (logger_emit ERROR
     (VStr ("Body " +:+ body_name config_ +:+
            " doesn't exit. Check your configuration file!")) Examples.empty_host,
   Raise AttributeError).
Proof.
  intros config_.
  assert (H0 : objects Examples.empty_host !! body_obj_name config_ = None)
    by reflexivity.
  split; [exact H0 |].
  exact (Body_init_missing_trunk (T := Examples.Probe) (fun _ => Ok tt)
           config_ Examples.empty_host H0).
Defined.

Lemma norm_along_x (x : R) :
  0 <= x ->
  norm (vec_sub (apply (Examples.identity_at x) (mkVec 0 0 0)) (mkVec 0 0 0)) = x.
Proof.
  intros Hx. unfold norm, vec_sub, apply, dot, Examples.identity_at. simpl.
  replace (_ + _ + _) with (x * x) by ring.
  apply sqrt_square. assumption.
Qed.

Lemma sum_5_5 : sum [5; 5] = 10.
Proof. unfold sum. simpl. lra. Qed.

(** The literal run of the specification: the trunk two units from the
    origin, [dist_ref = 1], [power_ref = 10] and a constant power 5 give
    [tanh 2 * tanh 2]. *)
Lemma get_loss_fct_value_witness :
  let w := Examples.trunk_host 2 in
  let b := Examples.probe_body 1 10 [5; 5] in
  body_obj b = Some "trunk"%string /\
  objects w !! "trunk"%string = Some (mkGameObject (Examples.identity_at 2)) /\
  powers b <> [] /\
  sum (powers b) <> 0 /\
  dist_ref (config b) <> 0 /\
  exists b' : Body (string * R) Examples.Probe unit,
    get_loss_fct (w, b) = ((w, b'), Ok (tanh 2 * tanh 2)) /\
    loss_fct b' = tanh 2 * tanh 2.
Proof.
  intros w b.
  assert (H1 : body_obj b = Some "trunk"%string) by reflexivity.
  assert (H2 : objects w !! "trunk"%string = Some (mkGameObject (Examples.identity_at 2)))
    by reflexivity.
  assert (H3 : powers b <> []) by discriminate.
  assert (H4 : sum (powers b) <> 0) by (simpl; rewrite sum_5_5; lra).
  assert (H5 : dist_ref (config b) <> 0) by (simpl; lra).
  repeat (split; [assumption |]).
  destruct (get_loss_fct_value w b "trunk" _ H1 H2 H3 H4 H5)
    as (b' & Hrun & Hd & Ha & Hl).
  exists b'.
  assert (Hnorm : norm (vec_sub (apply (worldTransform (mkGameObject (Examples.identity_at 2)))
                                       (mkVec 0 0 0)) (origin b)) = 2)
    by (simpl; apply norm_along_x; lra).
  assert (Hmean : sum (powers b) / INR (length (powers b)) = 5)
    by (simpl; rewrite sum_5_5; lra).
  rewrite Hnorm, Hmean in Hrun. rewrite Hnorm in Hd. rewrite Hmean in Ha.
  replace (2 / dist_ref (config b)) with 2 in Hrun by (simpl; lra).
  replace (power_ref (config b) / 5) with 2 in Hrun by (simpl; lra).
  split; [exact Hrun |].
  rewrite Hl, Hd, Ha.
  replace (2 / dist_ref (config b)) with 2 by (simpl; lra).
  replace (power_ref (config b) / 5) with 2 by (simpl; lra).
  reflexivity.
Defined.

(** A body that has run one tick without drawing power: the history is
    [[0]] and [get_loss_fct] raises [ZeroDivisionError]. *)
Lemma get_loss_fct_resting_body :
  let w := Examples.trunk_host 2 in
  let b := Examples.probe_body 1 10 [0] in
  powers b <> [] /\
  snd (get_loss_fct (w, b)) = Raise ZeroDivisionError.
Proof.
  intros w b. split; [discriminate |].
  apply (get_loss_fct_zero_power w b "trunk" (mkGameObject (Examples.identity_at 2))).
  - reflexivity.
  - reflexivity.
  - discriminate.
  - unfold sum. simpl. lra.
  - simpl. lra.
Qed.

End BodyTheory.

(* ===================================================================== *)
(** * body.py: the rounds of Leg.update and the power of a leg *)
(* ===================================================================== *)

Module LegRounds.

Import Geometry HostModel MuscleInterface LegModel PartNotions LegTheory.
Local Open Scope py_scope.

Section Rounds.

Context {C T : Type} `{Muscle C T}.
Variable float_str : R -> string.

Lemma control_signal_value (outputs : list R) :
  forall (pre row : list R) (acc : R),
    length row = length outputs ->
    control_signal (pre ++ row) outputs (length pre) acc =
    Ok (fold_left Rplus (zip_with Rmult row outputs) acc).
Proof.
  induction outputs as [| o outputs IH]; intros pre row acc Hlen.
  - destruct row; [reflexivity | discriminate].
  - destruct row as [| r row]; [discriminate |]. simpl in Hlen.
    simpl. unfold index.
    rewrite lookup_app_r, Nat.sub_diag by lia. simpl.
    replace (pre ++ r :: row) with ((pre ++ [r]) ++ row)
      by (rewrite <- app_assoc; reflexivity).
    replace (S (length pre)) with (length (pre ++ [r]))
      by (rewrite length_app; simpl; lia).
    apply IH. lia.
Qed.

Lemma control_signal_weighted_sum (row outputs : list R) :
  length row = length outputs ->
  control_signal row outputs 0 0%R = Ok (weighted_sum row outputs).
Proof. intros Hlen. apply (control_signal_value outputs [] row 0%R Hlen). Qed.

Lemma after_rounds_0 (l : Leg T) (ms' : list T) : after_rounds l ms' 0 = l.
Proof.
  unfold after_rounds, set_n_iter, set_muscles. destruct l. simpl.
  rewrite Z.add_0_r. reflexivity.
Qed.

Lemma after_rounds_all (l : Leg T) (ms' : list T) :
  length ms' = length (muscles l) ->
  after_rounds l ms' (length (muscles l)) =
  set_n_iter (n_iter l + Z.of_nat (length (muscles l))) (set_muscles ms' l).
Proof.
  intros Hlen. unfold after_rounds.
  rewrite drop_all, app_nil_r, take_ge by lia. reflexivity.
Qed.

Lemma rounds_match (brain_output : list R) (l : Leg T) (ms' : list T) :
  length ms' = length (muscles l) ->
  (forall i m, muscles l !! i = Some m ->
     exists row m',
       connection_matrix l !! muscle_name m = Some row /\
       length row = length brain_output /\
       ms' !! i = Some m' /\
       muscle_update (Some (weighted_sum row brain_output)) m = (m', Ok tt)) ->
  forall (n i : nat) (w : Host),
    (i + n = length (muscles l))%nat ->
    exists w' : Host,
      for_each (seq i n) (update_muscle float_str brain_output)
        (w, after_rounds l ms' i) =
      ((w', after_rounds l ms' (i + n)), Ok tt) /\
      objects w' = objects w /\
      exists records : Log,
        log w' = log w ++ records /\ length records = n /\ all_debug records.
Proof.
  intros Hlen Hrows. induction n as [| n IH]; intros i w Hin.
  - exists w. rewrite Nat.add_0_r. split; [reflexivity |].
    split; [reflexivity |]. exists []. rewrite app_nil_r.
    repeat split. constructor.
  - destruct (lookup_lt_is_Some_2 (muscles l) i) as [m Hm]; [lia |].
    destruct (Hrows i m Hm) as (row & m' & Hrow & Hrl & Hm' & Hupd).
    assert (Hcur : muscles (after_rounds l ms' i) !! i = Some m).
    { simpl. rewrite lookup_app_r by (rewrite length_take; lia).
      rewrite length_take_le, Nat.sub_diag, lookup_drop, Nat.add_0_r by lia.
      exact Hm. }
    destruct (update_muscle_match float_str brain_output i w (after_rounds l ms' i)
                m row Hcur Hrow Hrl) as (sig & Hsig & Hround).
    rewrite (control_signal_weighted_sum row brain_output Hrl) in Hsig.
    injection Hsig as <-.
    destruct (Hround m' Hupd) as (msg & Hrun).
    assert (Hnext :
      set_n_iter (n_iter (after_rounds l ms' i) + 1)
        (set_muscles (<[i := m']> (muscles (after_rounds l ms' i)))
           (after_rounds l ms' i)) = after_rounds l ms' (S i)).
    { unfold after_rounds, set_n_iter, set_muscles. simpl. f_equal.
      - lia.
      - rewrite insert_app_r_alt by (rewrite length_take; lia).
        rewrite length_take_le, Nat.sub_diag by lia.
        rewrite (drop_S _ _ _ Hm). simpl.
        rewrite (take_S_r _ _ _ Hm'), <- app_assoc. reflexivity. }
    rewrite Hnext in Hrun.
    destruct (IH (S i) (logger_emit DEBUG (VStr msg) w)) as
      (w' & Hloop & Hobj & records & Hlog & Hrl' & Hdbg); [lia |].
    exists w'. split.
    { simpl. unfold bind at 1. rewrite Hrun.
      replace (i + S n)%nat with (S i + n)%nat by lia. exact Hloop. }
    split; [rewrite Hobj; reflexivity |].
    exists ((DEBUG, VStr msg) :: records). split.
    { rewrite Hlog. simpl. unfold emit. rewrite <- app_assoc. reflexivity. }
    split; [simpl; lia |]. constructor; [reflexivity | exact Hdbg].
Qed.

(** [Leg.update] when every row has the length of the brain output and
    every muscle takes its signal: the call returns, each muscle has been
    sent the sum of its row weighted by the brain output, the iteration
    counter has grown by the number of muscles, and the log has one debug
    record more per muscle; the scene is not touched. *)
Theorem update_all_rows_match (brain_output : list R) (w : Host) (l : Leg T)
    (ms' : list T) :
  length ms' = length (muscles l) ->
  (forall i m, muscles l !! i = Some m ->
     exists row m',
       connection_matrix l !! muscle_name m = Some row /\
       length row = length brain_output /\
       ms' !! i = Some m' /\
       muscle_update (Some (weighted_sum row brain_output)) m = (m', Ok tt)) ->
  exists w' : Host,
    update float_str brain_output (w, l) =
    ((w', set_n_iter (n_iter l + Z.of_nat (length (muscles l))) (set_muscles ms' l)),
     Ok tt) /\
    objects w' = objects w /\
    exists records : Log,
      log w' = log w ++ records /\
      length records = length (muscles l) /\ all_debug records.
Proof.
  intros Hlen Hrows.
  destruct (rounds_match brain_output l ms' Hlen Hrows (length (muscles l)) 0 w)
    as (w' & Hloop & Hobj & Hrec); [lia |].
  exists w'. split; [| split; [exact Hobj | exact Hrec]].
  unfold update, get. unfold bind at 1. cbn [fst snd].
  rewrite after_rounds_0 in Hloop. simpl in Hloop.
  rewrite after_rounds_all in Hloop by exact Hlen. exact Hloop.
Qed.

(** A muscle whose name is not a key of the connection matrix stops
    [Leg.update] with [KeyError], in the round of that muscle: the rounds
    before it stay done, no record is logged for it. *)
Theorem update_missing_row_raises (brain_output : list R) (i : nat)
    (w w' : Host) (l l' : Leg T) (m : T) :
  (i < length (muscles l))%nat ->
  for_each (seq 0 i) (update_muscle float_str brain_output) (w, l) = ((w', l'), Ok tt) ->
  muscles l' !! i = Some m ->
  connection_matrix l' !! muscle_name m = None ->
  update float_str brain_output (w, l) = ((w', l'), Raise KeyError).
Proof.
  intros Hi Hpre Hm Hrow.
  unfold update, get. unfold bind at 1. simpl.
  rewrite (seq_split _ i Hi), for_each_app, Hpre. simpl.
  unfold bind at 1.
  unfold update_muscle, bind, get, lift, index, getitem. simpl.
  rewrite Hm, Hrow. reflexivity.
Qed.

(** ** Power *)

Lemma sum_power_value (l : Leg T) (ps : list R) :
  (forall i m, muscles l !! i = Some m ->
     exists p, ps !! i = Some p /\ muscle_get_power m = (m, Ok p)) ->
  forall (n i : nat) (acc : R),
    (i + n <= length (muscles l))%nat ->
    sum_power (seq i n) acc l =
    (l, Ok (fold_left Rplus (take n (drop i ps)) acc)).
Proof.
  intros Hps. induction n as [| n IH]; intros i acc Hin.
  - reflexivity.
  - destruct (lookup_lt_is_Some_2 (muscles l) i) as [m Hm]; [lia |].
    destruct (Hps i m Hm) as (p & Hp & Hget).
    simpl. unfold bind at 1. unfold on_muscle. rewrite Hm, Hget.
    rewrite (list_insert_id _ _ _ Hm).
    replace (set_muscles (muscles l) l) with l by (destruct l; reflexivity).
    rewrite IH by lia.
    rewrite (drop_S _ _ _ Hp). reflexivity.
Qed.

(** [Leg.get_power] when each muscle reports its power and stays as it
    is: the leg is unchanged and the result is the sum of the powers of
    its muscles, 0 for a leg without muscles. *)
Theorem get_power_sum (l : Leg T) (ps : list R) :
  length ps = length (muscles l) ->
  (forall i m, muscles l !! i = Some m ->
     exists p, ps !! i = Some p /\ muscle_get_power m = (m, Ok p)) ->
  get_power l = (l, Ok (fold_left Rplus ps 0%R)) /\
  (muscles l = [] -> get_power l = (l, Ok 0%R)).
Proof.
  intros Hlen Hps.
  assert (Hrun : get_power l = (l, Ok (fold_left Rplus ps 0%R))).
  { unfold get_power, get. unfold bind at 1. cbn [fst snd].
    rewrite (sum_power_value l ps Hps) by lia.
    rewrite drop_0, take_ge by lia. reflexivity. }
  split; [exact Hrun |].
  intros Hnil. rewrite Hrun. rewrite Hnil in Hlen.
  destruct ps; [reflexivity | discriminate].
Qed.

End Rounds.

Lemma update_all_rows_match_witness :
  let l := Examples.two_probe_leg in
  let bo := [0.5%R; 0.25%R] in
  let ms' := [Examples.mkProbe "a" [Some (weighted_sum [1%R; 0%R] bo)] 2;
              Examples.mkProbe "b" [Some (weighted_sum [0%R; 1%R] bo)] 5] in
  length ms' = length (muscles l) /\
  forall float_str : R -> string,
  exists w' : Host,
    update float_str bo (Examples.empty_host, l) =
    ((w', set_n_iter (n_iter l + Z.of_nat (length (muscles l))) (set_muscles ms' l)),
     Ok tt) /\
    objects w' = objects Examples.empty_host /\
    exists records : Log,
      log w' = log Examples.empty_host ++ records /\
      length records = length (muscles l) /\ all_debug records.
Proof.
  intros l bo ms'.
  assert (H1 : length ms' = length (muscles l)) by reflexivity.
  assert (H2 : forall i m, muscles l !! i = Some m ->
     exists row m',
       connection_matrix l !! muscle_name m = Some row /\
       length row = length bo /\
       ms' !! i = Some m' /\
       muscle_update (Some (weighted_sum row bo)) m = (m', Ok tt)).
  { intros i m Hm. destruct i as [| [| i]]; simpl in Hm.
    - injection Hm as <-. exists [1%R; 0%R]. eexists.
      repeat split; reflexivity.
    - injection Hm as <-. exists [0%R; 1%R]. eexists.
      repeat split; reflexivity.
    - discriminate. }
  split; [exact H1 |]. intros float_str.
  exact (update_all_rows_match float_str bo Examples.empty_host l ms' H1 H2).
Defined.

Lemma update_missing_row_raises_witness :
  let l := set_muscles [Examples.mkProbe "z" [] 0] Examples.two_probe_leg in
  (0 < length (muscles l))%nat /\
  muscles l !! 0%nat = Some (Examples.mkProbe "z" [] 0) /\
  connection_matrix l !! "z" = None /\
  forall float_str : R -> string,
    update float_str [0.5%R; 0.25%R] (Examples.empty_host, l) =
    ((Examples.empty_host, l), Raise KeyError).
Proof.
  intros l.
  assert (H0 : (0 < length (muscles l))%nat) by (simpl; lia).
  assert (H1 : muscles l !! 0%nat = Some (Examples.mkProbe "z" [] 0)) by reflexivity.
  assert (H2 : connection_matrix l !! muscle_name (Examples.mkProbe "z" [] 0) = None)
    by reflexivity.
  split; [exact H0 |]. split; [exact H1 |]. split; [exact H2 |].
  intros float_str.
  exact (update_missing_row_raises float_str [0.5%R; 0.25%R] 0
           Examples.empty_host Examples.empty_host l l
           (Examples.mkProbe "z" [] 0) H0 eq_refl H1 H2).
Defined.

Lemma get_power_sum_witness :
  let l := Examples.two_probe_leg in
  let ps := [2%R; 5%R] in
  length ps = length (muscles l) /\
  get_power l = (l, Ok (fold_left Rplus ps 0%R)) /\
  (muscles l = [] -> get_power l = (l, Ok 0%R)).
Proof.
  intros l ps.
  assert (H1 : length ps = length (muscles l)) by reflexivity.
  assert (H2 : forall i m, muscles l !! i = Some m ->
     exists p, ps !! i = Some p /\ muscle_get_power m = (m, Ok p)).
  { intros i m Hm. destruct i as [| [| i]]; simpl in Hm.
    - injection Hm as <-. exists 2%R. split; reflexivity.
    - injection Hm as <-. exists 5%R. split; reflexivity.
    - discriminate. }
  split; [exact H1 |].
  exact (get_power_sum l ps H1 H2).
Defined.

End LegRounds.

(* ===================================================================== *)
(** * optimization/optimization.py: the interruption flag *)
(* ===================================================================== *)

Module OptimizationTheory.

Import OptimizationModel.

Lemma update_with_res (kwargs : gmap string pyval) (o : Optimization) (res : pyval) :
  kwargs !! "res" = Some res ->
  interruption (update kwargs o) = interruption o /\
  res_list (update kwargs o) = res_list o ++ [res].
Proof.
  intros Hres. unfold update. rewrite Hres.
  destruct res; simpl; split; reflexivity.
Qed.

(** C8, as the code has it.  A bundle with an ["interruption"] key whose
    value is the boolean [True] and without a ["res"] key sets the flag;
    a bundle that carries a ["res"] key is a result: the result is
    appended and the flag stays as it was. *)
Theorem update_sets_interruption (kwargs : gmap string pyval) (o : Optimization) :
  kwargs !! "interruption" = Some (VBool true) ->
  (kwargs !! "res" = None -> interruption (update kwargs o) = true) /\
  (forall res : pyval, kwargs !! "res" = Some res ->
     interruption (update kwargs o) = interruption o).
Proof.
  intros Hint. split.
  - intros Hres. unfold update. rewrite Hres, Hint. reflexivity.
  - intros res Hres. apply (update_with_res kwargs o res Hres).
Qed.

Lemma update_sets_interruption_witness :
  let kwargs : gmap string pyval := {[ "interruption" := VBool true ]} in
  let o := mkOptimization false [] [] 0 10 in
  kwargs !! "interruption" = Some (VBool true) /\
  (kwargs !! "res" = None -> interruption (update kwargs o) = true) /\
  (forall res : pyval, kwargs !! "res" = Some res ->
     interruption (update kwargs o) = interruption o).
Proof.
  intros kwargs o.
  assert (H : kwargs !! "interruption" = Some (VBool true)) by reflexivity.
  split; [exact H |].
  exact (update_sets_interruption kwargs o H).
Defined.

(** The bundle [{"res": 1, "interruption": True}] leaves the flag of a
    fresh optimizer unset. *)
Lemma update_res_hides_interruption :
  let kwargs : gmap string pyval :=
    <[ "res" := VInt 1 ]> {[ "interruption" := VBool true ]} in
  let o := mkOptimization false [] [] 0 10 in
  kwargs !! "interruption" = Some (VBool true) /\
  kwargs !! "res" = Some (VInt 1) /\
  interruption (update kwargs o) = false /\
  res_list (update kwargs o) = [VInt 1].
Proof.
  intros kwargs o.
  assert (Hi : kwargs !! "interruption" = Some (VBool true)) by reflexivity.
  assert (Hr : kwargs !! "res" = Some (VInt 1)) by reflexivity.
  destruct (update_with_res kwargs o (VInt 1) Hr) as [Hflag Hres].
  repeat split; try assumption.
Qed.

(** [update] over any bundle: the flag is set afterwards exactly when it
    was set before or the bundle has no ["res"] key and its
    ["interruption"] entry is the boolean [True] (a truthy value of
    another type, such as 1, does not count); the result list grows by
    the ["res"] entry when there is one and by nothing else. *)
Theorem update_characterised (kwargs : gmap string pyval) (o : Optimization) :
  (interruption (update kwargs o) = true <->
   interruption o = true \/
   (kwargs !! "res" = None /\ kwargs !! "interruption" = Some (VBool true))) /\
  res_list (update kwargs o) =
    res_list o ++ match kwargs !! "res" with Some res => [res] | None => [] end.
Proof.
  unfold update.
  destruct (kwargs !! "res") as [res |] eqn:Hres.
  - split.
    + destruct res; simpl; split; intros H; auto;
        destruct H as [H | [H _]]; auto; discriminate.
    + destruct res; reflexivity.
  - destruct (kwargs !! "interruption") as [i |] eqn:Hi.
    + split.
      * destruct i as [| [] | | | | |]; simpl; split; intros H; auto;
          try (destruct H as [H | [_ H]]; [exact H | discriminate]).
        all: try (destruct (_ && _); simpl in *; auto;
                  destruct H as [H | [_ H]]; [exact H | discriminate]).
      * destruct (is_bool i && truthy i); simpl; rewrite app_nil_r; reflexivity.
    + split.
      * split; intros H; auto. destruct H as [H | [_ H]]; [exact H | discriminate].
      * simpl. rewrite app_nil_r. reflexivity.
Qed.

Lemma update_keeps_flag (kwargs : gmap string pyval) (o : Optimization) :
  interruption o = true -> interruption (update kwargs o) = true.
Proof.
  intros Ho. unfold update.
  destruct (kwargs !! "res") as [res |].
  - destruct (is_dict res); exact Ho.
  - destruct (kwargs !! "interruption") as [i |]; [| exact Ho].
    destruct (is_bool i && truthy i); [reflexivity | exact Ho].
Qed.

(** The interruption flag is sticky: once set, no run of notifications
    clears it, and neither does [eval_fct]. *)
Theorem interruption_is_sticky (bundles : list (gmap string pyval))
    (o : Optimization) :
  interruption o = true ->
  interruption (updates bundles o) = true /\
  forall population : pyval,
    interruption (fst (eval_fct population (updates bundles o))) = true /\
    snd (eval_fct population (updates bundles o)) = Ok (VFloat 0).
Proof.
  intros Ho.
  assert (H : interruption (updates bundles o) = true).
  { revert o Ho. unfold updates.
    induction bundles as [| kwargs bundles IH]; intros o Ho; simpl.
    - exact Ho.
    - apply IH. apply update_keeps_flag, Ho. }
  split; [exact H |]. intros population.
  unfold eval_fct. simpl. rewrite H. split; reflexivity.
Qed.

Lemma interruption_is_sticky_witness :
  let o := mkOptimization true [] [] 0 10 in
  let bundles : list (gmap string pyval) :=
    [ {[ "res" := VInt 1 ]}; {[ "interruption" := VBool false ]} ] in
  interruption o = true /\
  interruption (updates bundles o) = true /\
  forall population : pyval,
    interruption (fst (eval_fct population (updates bundles o))) = true /\
    snd (eval_fct population (updates bundles o)) = Ok (VFloat 0).
Proof.
  intros o bundles.
  assert (H : interruption o = true) by reflexivity.
  split; [exact H |].
  exact (interruption_is_sticky bundles o H).
Defined.

Lemma notify_kwargs_has_res (notification : option (gmap string pyval))
    (o : Optimization) :
  is_Some (notify_kwargs notification o !! "res").
Proof.
  unfold notify_kwargs. destruct notification as [n |].
  - rewrite lookup_union.
    rewrite lookup_insert_ne by discriminate. rewrite lookup_insert_eq.
    destruct (n !! "res"); eexists; reflexivity.
  - rewrite lookup_insert_ne by discriminate. rewrite lookup_insert_eq.
    eexists. reflexivity.
Qed.

(** The bundle of [notify] always carries a ["res"] entry, whatever the
    extra notification.  So an optimizer that receives the bundle of
    another optimizer files one more result and never takes over its
    interruption: the flag it has stays as it is. *)
Theorem notify_never_interrupts (notification : option (gmap string pyval))
    (sender receiver : Optimization) :
  interruption (update (notify_kwargs notification sender) receiver) =
    interruption receiver /\
  length (res_list (update (notify_kwargs notification sender) receiver)) =
    S (length (res_list receiver)).
Proof.
  destruct (notify_kwargs_has_res notification sender) as [res Hres].
  destruct (update_with_res _ receiver res Hres) as [Hflag Hlist].
  split; [exact Hflag |].
  rewrite Hlist, length_app. simpl. lia.
Qed.

End OptimizationTheory.

(* ===================================================================== *)
(** * body.py: what a built body looks like, and the range of its loss *)
(* ===================================================================== *)

Module BodyLoss.

Import Geometry HostModel MuscleInterface BodyModel PyFacts BodyTheory.
Local Open Scope R_scope.
Local Open Scope py_scope.

Lemma tanh_bounds (x : R) : -1 < tanh x < 1.
Proof.
  unfold tanh, sinh, cosh.
  pose proof (exp_pos x) as Ha. pose proof (exp_pos (- x)) as Hb.
  set (a := exp x) in *. set (b := exp (- x)) in *.
  set (t := (a - b) / 2 / ((a + b) / 2)).
  assert (Ht : t * (a + b) = a - b) by (unfold t; field; lra).
  split; nra.
Qed.

Lemma tanh_nonneg (x : R) : 0 <= x -> 0 <= tanh x.
Proof.
  intros Hx. unfold tanh, sinh, cosh.
  pose proof (exp_pos x) as Ha. pose proof (exp_pos (- x)) as Hb.
  assert (Hab : exp (- x) <= exp x).
  { destruct (Req_dec_T x 0) as [-> | Hne].
    - rewrite Ropp_0. lra.
    - left. apply exp_increasing. lra. }
  apply Rmult_le_pos; [lra |].
  left. apply Rinv_0_lt_compat. lra.
Qed.

Lemma norm_nonneg (p : vec) : 0 <= norm p.
Proof. unfold norm. apply sqrt_pos. Qed.

Lemma norm_self (p : vec) : norm (vec_sub p p) = 0.
Proof.
  unfold norm, vec_sub. simpl.
  replace (_ + _ + _) with 0 by ring. apply sqrt_0.
Qed.

Lemma sum_from (l : list R) (acc : R) :
  fold_left Rplus l acc = acc + fold_left Rplus l 0.
Proof.
  revert acc. induction l as [| x l IH]; intros acc; simpl.
  - lra.
  - rewrite IH, (IH (0 + x)). lra.
Qed.

Section Loss.

Context {C T : Type} `{Muscle C T} {Brain : Type}.
Variable Brain_init : Config C -> result Brain.

(** What a call of [get_loss_fct] that returns has gone through. *)
Lemma get_loss_fct_returns (w : Host) (b : Body C T Brain)
    (st' : Host * Body C T Brain) (v : R) :
  get_loss_fct (w, b) = (st', Ok v) ->
  exists p : vec,
    trunk_position w (body_obj b) = Ok p /\
    powers b <> [] /\
    dist_ref (config b) <> 0 /\
    sum (powers b) / INR (length (powers b)) <> 0 /\
    v = tanh (norm (vec_sub p (origin b)) / dist_ref (config b)) *
        tanh (power_ref (config b) / (sum (powers b) / INR (length (powers b)))) /\
    st' = (w, set_loss_fct v
                (set_av_power (sum (powers b) / INR (length (powers b)))
                   (set_position p (norm (vec_sub p (origin b))) b))).
Proof.
  unfold get_loss_fct, compute_traveled_dist, bind, get, modify, ret, lift.
  simpl.
  destruct (trunk_position w (body_obj b)) as [p | e]; [| discriminate].
  simpl. unfold fdiv at 1.
  destruct (Req_dec_T (INR (length (powers b))) 0) as [Hz | Hlen]; [discriminate |].
  simpl. unfold fdiv at 1.
  destruct (Req_dec_T (dist_ref (config b)) 0) as [Hz | Href]; [discriminate |].
  unfold fdiv.
  destruct (Req_dec_T (sum (powers b) / INR (length (powers b))) 0) as [Hz | Hav];
    [discriminate |].
  intros [= <- <-]. exists p.
  split; [reflexivity |].
  split; [intros Hnil; apply Hlen; rewrite Hnil; reflexivity |].
  repeat split; assumption.
Qed.

Lemma get_loss_fct_runs (w : Host) (b : Body C T Brain) (key : string)
    (obj : GameObject) :
  body_obj b = Some key ->
  objects w !! key = Some obj ->
  powers b <> [] ->
  sum (powers b) <> 0 ->
  dist_ref (config b) <> 0 ->
  exists st' v, get_loss_fct (w, b) = (st', Ok v).
Proof.
  intros Hobj Hkey Hne Hsum Href.
  pose proof (INR_length_nonzero (powers b) Hne) as Hlen.
  assert (Hav : sum (powers b) / INR (length (powers b)) <> 0).
  { unfold Rdiv. apply Rmult_integral_contrapositive. split; [assumption |].
    apply Rinv_neq_0_compat. assumption. }
  unfold get_loss_fct, compute_traveled_dist, bind, get, modify, ret, lift.
  simpl. rewrite Hobj, (trunk_position_present w key obj Hkey). simpl.
  rewrite (fdiv_ok _ _ Hlen). simpl.
  rewrite (fdiv_ok _ _ Href), (fdiv_ok _ _ Hav).
  eexists. eexists. reflexivity.
Qed.

(** Whenever [get_loss_fct] returns, the loss lies strictly between -1
    and 1 and is stored on the body; with positive [dist_ref] and
    [power_ref] and a history of positive sum it is not negative. *)
Theorem get_loss_fct_bounded (w : Host) (b : Body C T Brain)
    (st' : Host * Body C T Brain) (v : R) :
  get_loss_fct (w, b) = (st', Ok v) ->
  -1 < v < 1 /\
  loss_fct st'.2 = v /\
  (0 < dist_ref (config b) -> 0 < power_ref (config b) -> 0 < sum (powers b) ->
   0 <= v).
Proof.
  intros Hrun.
  destruct (get_loss_fct_returns w b st' v Hrun)
    as (p & _ & Hne & Href & Hav & -> & ->).
  split.
  { pose proof (tanh_bounds (norm (vec_sub p (origin b)) / dist_ref (config b))).
    pose proof (tanh_bounds (power_ref (config b) /
                             (sum (powers b) / INR (length (powers b))))).
    nra. }
  split; [reflexivity |].
  intros Hd Hp Hs.
  apply Rmult_le_pos; apply tanh_nonneg.
  - apply Rmult_le_pos; [apply norm_nonneg |].
    left. apply Rinv_0_lt_compat. exact Hd.
  - left. apply Rdiv_lt_0_compat; [exact Hp |].
    apply Rdiv_lt_0_compat; [exact Hs |].
    pose proof (pos_INR (length (powers b))).
    pose proof (INR_length_nonzero (powers b) Hne). lra.
Qed.

(** Before the first tick the power history is empty, and [get_loss_fct]
    raises [ZeroDivisionError] at the mean; by then it has stored the
    current position and distance of the trunk, and nothing else. *)
Theorem get_loss_fct_empty_history (w : Host) (b : Body C T Brain)
    (key : string) (obj : GameObject) :
  body_obj b = Some key ->
  objects w !! key = Some obj ->
  powers b = [] ->
  get_loss_fct (w, b) =
  ((w, set_position (apply (worldTransform obj) (mkVec 0 0 0))
         (norm (vec_sub (apply (worldTransform obj) (mkVec 0 0 0)) (origin b))) b),
   Raise ZeroDivisionError).
Proof.
  intros Hobj Hkey Hnil.
  unfold get_loss_fct, compute_traveled_dist, bind, get, modify, ret, lift.
  simpl. rewrite Hobj, (trunk_position_present w key obj Hkey). simpl.
  rewrite Hnil. simpl. rewrite fdiv_zero. reflexivity.
Qed.

(** Whenever [Body.__init__] returns a body: the trunk is in the scene
    and the body holds its handle, nothing has been logged, the position
    is the origin and the distance is 0, the history is empty, and
    [active] has not been assigned. *)
Theorem Body_init_returns (config_ : Config C) (w w' : Host)
    (b : Body C T Brain) :
  Body_init Brain_init config_ w = (w', Ok b) ->
  w' = w /\
  is_Some (objects w !! body_obj_name config_) /\
  body_obj b = Some (body_obj_name config_) /\
  active b = None /\
  position b = origin b /\ dist b = 0 /\
  powers b = [] /\ av_power b = 0 /\ loss_fct b = 0 /\ n_iter b = 0%Z /\
  config b = config_.
Proof.
  unfold Body_init, bind, get, modify, ret, lift.
  unfold get_object, exists_Object.
  destruct (objects w !! body_obj_name config_) as [obj |] eqn:Hobj.
  - rewrite bool_decide_eq_true_2 by (eexists; reflexivity).
    unfold trunk_position. simpl. rewrite Hobj. simpl.
    destruct (Foreleg_init config_ "L" w) as [l1 | e]; [| discriminate].
    destruct (Foreleg_init config_ "R" w) as [l2 | e]; [| discriminate].
    destruct (Backleg_init config_ "L" w) as [l3 | e]; [| discriminate].
    destruct (Backleg_init config_ "R" w) as [l4 | e]; [| discriminate].
    destruct (Brain_init config_) as [br | e]; [| discriminate].
    destruct (LegModel.build_muscles _ w (body_muscles config_)) as [ms | e];
      [| discriminate].
    intros [= <- <-]. simpl.
    split; [reflexivity |]. split; [eexists; reflexivity |].
    repeat split; try reflexivity. apply norm_self.
  - rewrite bool_decide_eq_false_2 by (intros [x Hx]; discriminate).
    simpl. discriminate.
Qed.

End Loss.

Lemma get_loss_fct_empty_history_witness :
  let w := Examples.trunk_host 2 in
  let b := Examples.probe_body 1 10 [] in
  body_obj b = Some "trunk"%string /\
  objects w !! "trunk"%string = Some (mkGameObject (Examples.identity_at 2)) /\
  powers b = [] /\
  snd (get_loss_fct (w, b)) = Raise ZeroDivisionError.
Proof.
  intros w b.
  assert (H1 : body_obj b = Some "trunk"%string) by reflexivity.
  assert (H2 : objects w !! "trunk"%string = Some (mkGameObject (Examples.identity_at 2)))
    by reflexivity.
  assert (H3 : powers b = []) by reflexivity.
  split; [exact H1 |]. split; [exact H2 |]. split; [exact H3 |].
  rewrite (get_loss_fct_empty_history w b "trunk" _ H1 H2 H3). reflexivity.
Defined.

Lemma get_loss_fct_bounded_witness :
  let w := Examples.trunk_host 2 in
  let b := Examples.probe_body 1 10 [5; 5] in
  exists (st' : Host * Body (string * R) Examples.Probe unit) (v : R),
    get_loss_fct (w, b) = (st', Ok v) /\
    -1 < v < 1 /\
    loss_fct st'.2 = v /\
    (0 < dist_ref (config b) -> 0 < power_ref (config b) -> 0 < sum (powers b) ->
     0 <= v).
Proof.
  intros w b.
  destruct (get_loss_fct_runs w b "trunk" (mkGameObject (Examples.identity_at 2)))
    as (st' & v & Hrun).
  - reflexivity.
  - reflexivity.
  - discriminate.
  - simpl. rewrite sum_5_5. lra.
  - simpl. lra.
  - exists st', v. split; [exact Hrun |].
    exact (get_loss_fct_bounded w b st' v Hrun).
Defined.

Lemma Body_init_returns_witness :
  let config_ := Examples.probe_config "trunk" 1 10 in
  let w := Examples.trunk_host 2 in
  exists b : Body (string * R) Examples.Probe unit,
    Body_init (fun _ => Ok tt) config_ w = (w, Ok b) /\
    is_Some (objects w !! body_obj_name config_) /\
    body_obj b = Some (body_obj_name config_) /\
    active b = None /\
    position b = origin b /\ dist b = 0 /\
    powers b = [] /\ av_power b = 0 /\ loss_fct b = 0 /\ n_iter b = 0%Z /\
    config b = config_.
Proof.
  intros config_ w.
  assert (Hrun : exists b, Body_init (T := Examples.Probe) (Brain := unit)
                             (fun _ => Ok tt) config_ w = (w, Ok b)).
  { assert (Hobj : objects w !! body_obj_name config_
                   = Some (mkGameObject (Examples.identity_at 2))) by reflexivity.
    unfold Body_init, bind, get, modify, ret, lift.
    rewrite (get_object_present w _ _ Hobj).
    rewrite (trunk_position_present w _ _ Hobj).
    eexists. reflexivity. }
  destruct Hrun as (b & Hrun).
  exists b. split; [exact Hrun |].
  exact (proj2 (Body_init_returns (fun _ => Ok tt) config_ w w b Hrun)).
Defined.

End BodyLoss.

(* ===================================================================== *)
(** * simulations/clients/client.py: the health check *)
(* ===================================================================== *)

Module ClientTheory.

Import Connection ClientModel.
Local Open Scope py_scope.
Local Set Warnings "-clear-no-such-hyp".

Lemma first_failure_clean (sims : list SimulationRequest) :
  dispatched sims -> broken sims = false -> first_failure sims = Ok None.
Proof.
  induction 1 as [| s sims [r Hr] _ IH]; intros Hb; simpl in *.
  - reflexivity.
  - unfold failed in Hb. rewrite Hr in *.
    apply orb_false_iff in Hb as [Hf Hb]. rewrite Hf. apply IH, Hb.
Qed.

Lemma first_failure_broken (sims : list SimulationRequest) :
  dispatched sims -> broken sims = true ->
  exists reason : string, first_failure sims = Ok (Some reason).
Proof.
  induction 1 as [| s sims [r Hr] _ IH]; intros Hb; simpl in *.
  - discriminate.
  - unfold failed in Hb. rewrite Hr in *.
    destruct (expired r || error r) eqn:Hf.
    + eexists. reflexivity.
    + apply IH. exact Hb.
Qed.

Lemma requeue_spec (sims : list SimulationRequest) (c : Client) :
  requeue sims c =
  set_queue (rqt c ++ map requeued sims) (rqt_n c + Z.of_nat (length sims)) c.
Proof.
  revert c. induction sims as [| s sims IH]; intros c; simpl.
  - destruct c. unfold set_queue. simpl. rewrite app_nil_r, Z.add_0_r. reflexivity.
  - rewrite IH. unfold set_queue. simpl. rewrite <- app_assoc. simpl.
    f_equal. lia.
Qed.

Lemma alter_absent (k : Z) (cs : gmap Z ServerInfo) :
  cs !! k = None -> alter (set_status false) k cs = cs.
Proof.
  intros Hk. apply map_eq. intros j.
  destruct (decide (k = j)) as [<- | Hne].
  - rewrite lookup_alter_eq, Hk. reflexivity.
  - rewrite lookup_alter_ne by assumption. reflexivity.
Qed.

Lemma alter_present (k : Z) (cs : gmap Z ServerInfo) (info : ServerInfo) :
  cs !! k = Some info ->
  <[k := set_status false info]> cs = alter (set_status false) k cs.
Proof.
  intros Hk. apply map_eq. intros j.
  destruct (decide (k = j)) as [<- | Hne].
  - rewrite lookup_insert_eq, lookup_alter_eq, Hk. reflexivity.
  - rewrite lookup_insert_ne, lookup_alter_ne by assumption. reflexivity.
Qed.

Lemma check_server_clean (k : Z) (sims : list SimulationRequest) (c : Client) :
  dispatched sims -> broken sims = false ->
  check_server k sims c = (c, Ok tt).
Proof.
  intros Hd Hb. unfold check_server, bind, lift.
  rewrite (first_failure_clean sims Hd Hb). reflexivity.
Qed.

Lemma check_server_broken (k : Z) (sims : list SimulationRequest) (c : Client) :
  dispatched sims -> broken sims = true -> is_Some (results c !! k) ->
  exists c' : Client, check_server k sims c = (c', Ok tt) /\ evicted k sims c c'.
Proof.
  intros Hd Hb [old Hold].
  destruct (first_failure_broken sims Hd Hb) as [reason Hreason].
  unfold check_server, bind, lift. rewrite Hreason.
  unfold modify, get. cbn [fst snd].
  rewrite requeue_spec.
  destruct (cloud_state c !! k) as [info |] eqn:Hinfo; cbn.
  - rewrite Hinfo. cbn. unfold del_results, bind, get, modify. cbn.
    rewrite lookup_insert_eq. eexists. split; [reflexivity |].
    unfold evicted. cbn. repeat split.
    + apply delete_insert_eq.
    + apply alter_present, Hinfo.
  - rewrite Hinfo. cbn. unfold del_results, bind, get, modify, ret. cbn.
    rewrite lookup_insert_eq. eexists. split; [reflexivity |].
    unfold evicted. cbn. repeat split.
    + apply delete_insert_eq.
    + symmetry. apply alter_absent, Hinfo.
Qed.

(** The loop of [check_sim] over a list of items with distinct keys, each
    of them an entry of the in-flight mapping. *)
Lemma check_loop (items : list (Z * list SimulationRequest)) :
  forall c : Client,
    NoDup items.*1 ->
    (forall k v, (k, v) ∈ items -> results c !! k = Some v /\ dispatched v) ->
    exists c' : Client,
      for_each items (fun item => check_server item.1 item.2) c = (c', Ok tt) /\
      rqt c' = rqt c ++ requeues items /\
      rqt_n c' = (rqt_n c + Z.of_nat (length (requeues items)))%Z /\
      (forall k v, (k, v) ∈ items -> broken v = true ->
         results c' !! k = None /\
         cloud_state c' !! k = set_status false <$> cloud_state c !! k) /\
      (forall k, (forall v, (k, v) ∈ items -> broken v = false) ->
         results c' !! k = results c !! k /\
         cloud_state c' !! k = cloud_state c !! k).
Proof.
  induction items as [| [k v] items IH]; intros c Hnd Hin.
  - exists c. simpl. unfold requeues. simpl.
    rewrite app_nil_r, Z.add_0_r. repeat split; intros; set_solver.
  - rewrite fmap_cons in Hnd. apply NoDup_cons in Hnd as [Hk Hnd]. simpl in Hk.
    destruct (Hin k v) as [Hkv Hdv]; [set_solver |].
    assert (Hfresh : forall v', (k, v') ∉ items).
    { intros v' Hv'. apply Hk. apply list_elem_of_fmap. exists (k, v'). split; [reflexivity | assumption]. }
    destruct (broken v) eqn:Hb.
    + destruct (check_server_broken k v c Hdv Hb) as (c1 & Hrun & Hq & Hn & Hr & Hcs);
        [rewrite Hkv; eexists; reflexivity |].
      destruct (IH c1 Hnd) as (c' & Hloop & Hq' & Hn' & Hbroken & Hclean).
      { intros k' v' Hin'. destruct (Hin k' v') as [Hl Hd]; [set_solver |].
        split; [| exact Hd].
        rewrite Hr, lookup_delete_ne; [exact Hl |].
        intros ->. apply (Hfresh v'), Hin'. }
      exists c'. simpl. unfold bind at 1. cbn [fst snd]. rewrite Hrun.
      split; [exact Hloop |].
      assert (Hreq : requeues ((k, v) :: items) = map requeued v ++ requeues items).
      { unfold requeues. simpl. rewrite Hb. reflexivity. }
      rewrite Hreq. split; [rewrite Hq', Hq, app_assoc; reflexivity |].
      split; [rewrite Hn', Hn, length_app, length_map; lia |].
      split.
      * intros k0 v0 Hin0 Hb0. apply elem_of_cons in Hin0 as [Heq | Hin0].
        -- injection Heq as -> ->.
           destruct (Hclean k) as [Hr' Hcs'].
           { intros v' Hv'. exfalso. apply (Hfresh v'), Hv'. }
           rewrite Hr', Hcs', Hr, Hcs, lookup_delete_eq, lookup_alter_eq.
           split; reflexivity.
        -- destruct (Hbroken k0 v0 Hin0 Hb0) as [Hr' Hcs'].
           split; [exact Hr' |].
           rewrite Hcs', Hcs, lookup_alter_ne; [reflexivity |].
           intros ->. apply (Hfresh v0), Hin0.
      * intros k0 Hall.
        assert (Hne : k ≠ k0).
        { intros ->. specialize (Hall v). rewrite Hb in Hall.
          discriminate Hall. set_solver. }
        destruct (Hclean k0) as [Hr' Hcs'].
        { intros v' Hv'. apply Hall. set_solver. }
        rewrite Hr', Hcs', Hr, Hcs, lookup_delete_ne, lookup_alter_ne by assumption.
        split; reflexivity.
    + destruct (IH c Hnd) as (c' & Hloop & Hq' & Hn' & Hbroken & Hclean).
      { intros k' v' Hin'. apply Hin. set_solver. }
      exists c'. simpl. unfold bind at 1. cbn [fst snd].
      rewrite (check_server_clean k v c Hdv Hb).
      split; [exact Hloop |].
      assert (Hreq : requeues ((k, v) :: items) = requeues items).
      { unfold requeues. simpl. rewrite Hb. reflexivity. }
      rewrite Hreq. split; [exact Hq' |]. split; [exact Hn' |].
      split.
      * intros k0 v0 Hin0 Hb0. apply elem_of_cons in Hin0 as [Heq | Hin0].
        -- injection Heq as -> ->. congruence.
        -- apply (Hbroken k0 v0 Hin0 Hb0).
      * intros k0 Hall. apply Hclean. intros v' Hv'. apply Hall. set_solver.
Qed.

Lemma requeues_split (l1 l2 : list (Z * list SimulationRequest))
    (k : Z) (v : list SimulationRequest) :
  broken v = true ->
  requeues (l1 ++ (k, v) :: l2) = requeues l1 ++ map requeued v ++ requeues l2.
Proof.
  intros Hb. unfold requeues. rewrite map_app, concat_app. simpl.
  rewrite Hb. reflexivity.
Qed.

Lemma requeues_clean (items : list (Z * list SimulationRequest)) :
  (forall k v, (k, v) ∈ items -> broken v = false) -> requeues items = [].
Proof.
  induction items as [| [k v] items IH]; intros Hall; [reflexivity |].
  unfold requeues. simpl. rewrite (Hall k v) by set_solver. simpl.
  apply IH. intros k' v' Hin. apply (Hall k' v'). set_solver.
Qed.

Lemma keys_apart (l1 l2 : list (Z * list SimulationRequest))
    (k : Z) (v : list SimulationRequest) :
  NoDup (l1 ++ (k, v) :: l2).*1 ->
  forall k' v', (k', v') ∈ l1 ++ l2 -> k' ≠ k.
Proof.
  rewrite fmap_app, fmap_cons. simpl. intros Hnd k' v' Hin ->.
  apply NoDup_app in Hnd as (_ & Hl1 & Hl2).
  apply NoDup_cons in Hl2 as [Hl2 _].
  apply elem_of_app in Hin as [Hin | Hin].
  - apply (Hl1 k).
    + apply list_elem_of_fmap. exists (k, v'). split; [reflexivity | assumption].
    + left.
  - apply Hl2. apply list_elem_of_fmap. exists (k, v'). split; [reflexivity | assumption].
Qed.

(** C5.  Let [s] be a server of the in-flight mapping, one of whose
    simulations has expired or returned an error, every in-flight
    simulation holding the handle it was dispatched with.  Then
    [check_sim] returns, and afterwards: the simulations of [s], their
    handles cleared, stand as one block in the request queue behind the
    requests that were there; the queue has grown by the requests of the
    broken servers, which is the number of simulations of [s] when [s] is
    the only broken one; [s] is unavailable in the cloud state if it is
    there; and the in-flight mapping has no entry for [s]. *)
Theorem check_sim_requeues (c : Client) (s : Z) (sims : list SimulationRequest) :
  in_flight_ok c ->
  results c !! s = Some sims ->
  broken sims = true ->
  exists c' : Client,
    check_sim c = (c', Ok tt) /\
    (exists before after : list SimulationRequest,
       rqt c' = rqt c ++ before ++ map requeued sims ++ after) /\
    length (rqt c') =
      (length (rqt c) + length (requeues (map_to_list (results c))))%nat /\
    ((forall s' sims', results c !! s' = Some sims' -> s' ≠ s ->
        broken sims' = false) ->
     rqt c' = rqt c ++ map requeued sims /\
     length (rqt c') = (length (rqt c) + length sims)%nat /\
     rqt_n c' = (rqt_n c + Z.of_nat (length sims))%Z) /\
    cloud_state c' !! s = set_status false <$> cloud_state c !! s /\
    results c' !! s = None.
Proof.
  intros Hok Hs Hb.
  pose proof (NoDup_fst_map_to_list (results c)) as Hnd.
  destruct (check_loop (map_to_list (results c)) c Hnd)
    as (c' & Hloop & Hq & Hn & Hbroken & _).
  { intros k v Hin. apply elem_of_map_to_list in Hin.
    split; [exact Hin | exact (Hok k v Hin)]. }
  assert (Hin : (s, sims) ∈ map_to_list (results c))
    by (apply elem_of_map_to_list; exact Hs).
  destruct (Hbroken s sims Hin Hb) as [Hres Hcloud].
  destruct (list_elem_of_split _ _ Hin) as (l1 & l2 & Hsplit).
  exists c'. split; [exact Hloop |].
  split.
  { exists (requeues l1), (requeues l2).
    rewrite Hq, Hsplit, (requeues_split l1 l2 s sims Hb). reflexivity. }
  split; [rewrite Hq, length_app; reflexivity |].
  split; [| split; assumption].
  intros Hothers.
  assert (Hclean : forall k v, (k, v) ∈ l1 ++ l2 -> broken v = false).
  { intros k v Hkv. apply (Hothers k v).
    - apply elem_of_map_to_list. rewrite Hsplit.
      apply elem_of_app in Hkv as [Hkv | Hkv]; set_solver.
    - rewrite Hsplit in Hnd. exact (keys_apart l1 l2 s sims Hnd k v Hkv). }
  assert (Hreq : requeues (map_to_list (results c)) = map requeued sims).
  { rewrite Hsplit, (requeues_split l1 l2 s sims Hb).
    rewrite (requeues_clean l1), (requeues_clean l2).
    - rewrite app_nil_r. reflexivity.
    - intros k v Hkv. apply (Hclean k v). set_solver.
    - intros k v Hkv. apply (Hclean k v). set_solver. }
  rewrite Hreq in Hq, Hn. rewrite length_map in Hn.
  split; [exact Hq |]. split; [| exact Hn].
  rewrite Hq, length_app, length_map. reflexivity.
Qed.

(** On a Python 3 interpreter the first broken server of the iteration
    is evicted in the same way, and the loop then stops with
    [RuntimeError]: the servers behind it are not looked at. *)
Lemma live_loop_first_broken (l1 l2 : list (Z * list SimulationRequest))
    (s : Z) (sims : list SimulationRequest) (c : Client) :
  (forall k v, (k, v) ∈ l1 -> dispatched v /\ broken v = false) ->
  dispatched sims -> broken sims = true -> is_Some (results c !! s) ->
  exists c' : Client,
    for_each_live (fun c => size (results c)) (size (results c))
      (l1 ++ (s, sims) :: l2) (fun item => check_server item.1 item.2) c =
    (c', Raise RuntimeError) /\
    evicted s sims c c'.
Proof.
  intros Hl1 Hd Hb Hs.
  induction l1 as [| [k v] l1 IH]; simpl.
  - rewrite bool_decide_eq_true_2 by reflexivity.
    destruct (check_server_broken s sims c Hd Hb Hs) as (c' & Hrun & Hev).
    exists c'. split; [| exact Hev].
    unfold bind. rewrite Hrun.
    destruct Hev as (_ & _ & Hr & _).
    destruct l2; simpl; rewrite bool_decide_eq_false_2; try reflexivity;
      rewrite Hr, (map_size_delete_Some _ _ Hs);
      pose proof (map_size_ne_0_lookup_2 (results c) s Hs); lia.
  - rewrite bool_decide_eq_true_2 by reflexivity.
    destruct (Hl1 k v) as [Hdv Hbv]; [left |].
    unfold bind at 1. rewrite (check_server_clean k v c Hdv Hbv).
    apply IH. intros k' v' Hin. apply (Hl1 k' v'). right. exact Hin.
Qed.

Lemma check_sim_live_first_broken (c : Client) (s : Z)
    (sims : list SimulationRequest) (l1 l2 : list (Z * list SimulationRequest)) :
  in_flight_ok c ->
  map_to_list (results c) = l1 ++ (s, sims) :: l2 ->
  (forall k v, (k, v) ∈ l1 -> broken v = false) ->
  broken sims = true ->
  exists c' : Client,
    check_sim_live c = (c', Raise RuntimeError) /\ evicted s sims c c'.
Proof.
  intros Hok Hsplit Hl1 Hb.
  assert (Hin : forall k v, (k, v) ∈ l1 ++ (s, sims) :: l2 -> results c !! k = Some v).
  { intros k v Hkv. apply elem_of_map_to_list. rewrite Hsplit. exact Hkv. }
  assert (Hs : results c !! s = Some sims).
  { apply Hin. apply elem_of_app. right. left. }
  unfold check_sim_live, get. unfold bind at 1. cbn [fst snd]. rewrite Hsplit.
  apply live_loop_first_broken.
  - intros k v Hkv. split; [| apply (Hl1 k v Hkv)].
    apply (Hok k v). apply Hin. apply elem_of_app. left. exact Hkv.
  - apply (Hok s sims Hs).
  - exact Hb.
  - rewrite Hs. eexists. reflexivity.
Qed.

Lemma check_sim_live_one_server :
  check_sim_live Examples.one_server_client =
  (mkClient
     [Examples.waiting_request; mkSimulationRequest (VInt 11) 1 None] 2
     {[ 7%Z := mkServerInfo "10.0.0.7" 18861 false 1 ]}
     [mkConnexion 7 true]
     ∅
     [(ERROR, VStr "Timeout from server: 10.0.0.7:18861")],
   Raise RuntimeError).
Proof. reflexivity. Qed.

Lemma one_server_client_ok : in_flight_ok Examples.one_server_client.
Proof.
  intros k v Hkv. simpl in Hkv.
  apply lookup_singleton_Some in Hkv as [_ <-].
  repeat constructor. eexists. reflexivity.
Qed.

Lemma check_sim_requeues_witness :
  let c := Examples.one_server_client in
  let sims := [Examples.expired_request] in
  in_flight_ok c /\
  results c !! 7%Z = Some sims /\
  broken sims = true /\
  exists c' : Client,
    check_sim c = (c', Ok tt) /\
    (exists before after : list SimulationRequest,
       rqt c' = rqt c ++ before ++ map requeued sims ++ after) /\
    length (rqt c') =
      (length (rqt c) + length (requeues (map_to_list (results c))))%nat /\
    ((forall s' sims', results c !! s' = Some sims' -> s' ≠ 7%Z ->
        broken sims' = false) ->
     rqt c' = rqt c ++ map requeued sims /\
     length (rqt c') = (length (rqt c) + length sims)%nat /\
     rqt_n c' = (rqt_n c + Z.of_nat (length sims))%Z) /\
    cloud_state c' !! 7%Z = set_status false <$> cloud_state c !! 7%Z /\
    results c' !! 7%Z = None.
Proof.
  intros c sims.
  assert (H1 : in_flight_ok c) by exact one_server_client_ok.
  assert (H2 : results c !! 7%Z = Some sims) by reflexivity.
  assert (H3 : broken sims = true) by reflexivity.
  split; [exact H1 |]. split; [exact H2 |]. split; [exact H3 |].
  exact (check_sim_requeues c 7 sims H1 H2 H3).
Defined.

(** The run of [check_sim] on that client, field by field. *)
Lemma check_sim_one_server :
  check_sim Examples.one_server_client =
  (mkClient
     [Examples.waiting_request; mkSimulationRequest (VInt 11) 1 None] 2
     {[ 7%Z := mkServerInfo "10.0.0.7" 18861 false 1 ]}
     [mkConnexion 7 true]
     ∅
     [(ERROR, VStr "Timeout from server: 10.0.0.7:18861")],
   Ok tt).
Proof. reflexivity. Qed.

End ClientTheory.
(* ===================================================================== *)
(** * body.py: the power history *)
(* ===================================================================== *)

Module BodyPower.

Import Geometry HostModel MuscleInterface BodyModel BodyPowerModel PartNotions.
Import PyFacts BodyTheory.
Local Open Scope R_scope.
Local Open Scope py_scope.

Section History.

Context {C T : Type} `{Muscle C T} {Brain : Type}.

Lemma same_frame_refl (b : Body C T Brain) : same_frame b b.
Proof. repeat split. Qed.

Lemma same_frame_trans (b1 b2 b3 : Body C T Brain) :
  same_frame b1 b2 -> same_frame b2 b3 -> same_frame b1 b3.
Proof.
  unfold same_frame. intros (?&?&?&?&?&?&?&?) (?&?&?&?&?&?&?&?).
  repeat split; congruence.
Qed.

Lemma on_muscle_frame {A : Type} (i : nat) (c : M T A) (b b' : Body C T Brain)
    (r : result A) :
  on_muscle i c b = (b', r) -> same_frame b b'.
Proof.
  unfold on_muscle. destruct (muscles b !! i) as [m |].
  - destruct (c m) as [m' r']. intros [= <- <-].
    repeat split. simpl. apply length_insert.
  - intros [= <- <-]. apply same_frame_refl.
Qed.

Lemma sum_power_frame (idx : list nat) :
  forall (acc : R) (b b' : Body C T Brain) (r : result R),
    sum_power idx acc b = (b', r) -> same_frame b b'.
Proof.
  induction idx as [| i idx IH]; intros acc b b' r.
  - intros [= <- <-]. apply same_frame_refl.
  - simpl. unfold bind at 1.
    destruct (on_muscle i muscle_get_power b) as [b1 r1] eqn:Hone.
    pose proof (on_muscle_frame _ _ _ _ _ Hone) as H1.
    destruct r1 as [p | e].
    + intros Hrest. eapply same_frame_trans; [exact H1 |]. eapply IH. exact Hrest.
    + intros [= <- <-]. exact H1.
Qed.

Lemma on_leg_frame {A : Type} (read : Body C T Brain -> LegModel.Leg T)
    (write : LegModel.Leg T -> Body C T Brain -> Body C T Brain)
    (c : M (LegModel.Leg T) A) (b b' : Body C T Brain) (r : result A) :
  (forall l b0, same_frame b0 (write l b0)) ->
  on_part read write c b = (b', r) -> same_frame b b'.
Proof.
  intros Hw. unfold on_part. destruct (c (read b)) as [l' r'].
  intros [= <- <-]. apply Hw.
Qed.

Lemma sum_app_one (l : list R) (p : R) : sum (l ++ [p]) = sum l + p.
Proof. unfold sum. rewrite fold_left_app. reflexivity. Qed.

Lemma fold_left_Rplus_acc (l : list R) :
  forall acc : R, fold_left Rplus l acc = acc + sum l.
Proof.
  unfold sum. induction l as [| x l IH]; intros acc; simpl.
  - lra.
  - rewrite (IH (acc + x)), (IH (0 + x)). lra.
Qed.

Lemma reports_lookup (ms : list T) (ps : list R) :
  reports ms ps ->
  length ps = length ms /\
  forall i m, ms !! i = Some m ->
    exists p, ps !! i = Some p /\ muscle_get_power m = (m, Ok p).
Proof.
  intros Hrep. split.
  - symmetry. exact (Forall2_length _ _ _ Hrep).
  - intros i m Hm.
    destruct (Forall2_lookup_l _ _ _ _ _ Hrep Hm) as (p & Hp & Hget).
    exists p. split; assumption.
Qed.

Lemma leg_get_power_reports (l : LegModel.Leg T) (ps : list R) :
  reports (LegModel.muscles l) ps ->
  LegModel.get_power l = (l, Ok (sum ps)).
Proof.
  intros Hrep. destruct (reports_lookup _ _ Hrep) as [Hlen Hps].
  unfold LegModel.get_power, bind, get. simpl.
  rewrite (LegRounds.sum_power_value l ps Hps (length (LegModel.muscles l)) 0 0
             (Nat.le_refl _)).
  rewrite drop_0, <- Hlen, firstn_all. reflexivity.
Qed.

Lemma body_sum_power_reports (b : Body C T Brain) (ps : list R) :
  (forall i m, muscles b !! i = Some m ->
     exists p, ps !! i = Some p /\ muscle_get_power m = (m, Ok p)) ->
  forall (n i : nat) (acc : R),
    (i + n <= length (muscles b))%nat ->
    sum_power (seq i n) acc b =
    (b, Ok (fold_left Rplus (take n (drop i ps)) acc)).
Proof.
  intros Hps. induction n as [| n IH]; intros i acc Hin.
  - reflexivity.
  - destruct (lookup_lt_is_Some_2 (muscles b) i) as [m Hm]; [lia |].
    destruct (Hps i m Hm) as (p & Hp & Hget).
    simpl. unfold bind at 1. unfold on_muscle. rewrite Hm, Hget.
    rewrite (list_insert_id _ _ _ Hm).
    replace (set_muscles (muscles b) b) with b by (destruct b; reflexivity).
    rewrite IH by lia.
    rewrite (drop_S _ _ _ Hp). reflexivity.
Qed.

Lemma compute_power_reports (b : Body C T Brain) (lb rb lf rf bm : list R) :
  reports (LegModel.muscles (l_ba_leg b)) lb ->
  reports (LegModel.muscles (r_ba_leg b)) rb ->
  reports (LegModel.muscles (l_fo_leg b)) lf ->
  reports (LegModel.muscles (r_fo_leg b)) rf ->
  reports (muscles b) bm ->
  compute_power b =
  (set_powers (powers b ++ [sum lb + sum rb + sum lf + sum rf + sum bm]) b, Ok tt).
Proof.
  intros Hlb Hrb Hlf Hrf Hbm.
  destruct (reports_lookup _ _ Hbm) as [Hlen Hps].
  unfold compute_power, on_part, bind, get, modify. 
  rewrite (leg_get_power_reports _ _ Hlb).
  replace (set_l_ba_leg (l_ba_leg b) b) with b by (destruct b; reflexivity).
  rewrite (leg_get_power_reports _ _ Hrb).
  replace (set_r_ba_leg (r_ba_leg b) b) with b by (destruct b; reflexivity).
  rewrite (leg_get_power_reports _ _ Hlf).
  replace (set_l_fo_leg (l_fo_leg b) b) with b by (destruct b; reflexivity).
  rewrite (leg_get_power_reports _ _ Hrf).
  replace (set_r_fo_leg (r_fo_leg b) b) with b by (destruct b; reflexivity).
  rewrite (body_sum_power_reports b bm Hps (length (muscles b)) 0 _ (Nat.le_refl _)).
  rewrite drop_0, <- Hlen, firstn_all, fold_left_Rplus_acc.
  rewrite Rplus_0_l. reflexivity.
Qed.

(** [compute_power] extends the history by exactly one entry when it
    returns and leaves it as it was when a muscle's [get_power] raises;
    in both cases the configuration, the trunk handle, the origin, the
    position, the distance, the iteration counter and the number of body
    muscles are as before. *)
Theorem compute_power_extends_history (b b' : Body C T Brain) (r : result unit) :
  compute_power b = (b', r) ->
  match r with
  | Ok _ => exists p : R, powers b' = powers b ++ [p]
  | Raise _ => powers b' = powers b
  end /\
  config b' = config b /\ body_obj b' = body_obj b /\ origin b' = origin b /\
  position b' = position b /\ dist b' = dist b /\ n_iter b' = n_iter b /\
  length (muscles b') = length (muscles b).
Proof.
  unfold compute_power. unfold bind at 1.
  destruct (on_part l_ba_leg set_l_ba_leg LegModel.get_power b) as [b1 r1] eqn:E1.
  assert (F1 : same_frame b b1).
  { eapply on_leg_frame; [| exact E1]. intros l b0. repeat split. }
  destruct r1 as [p1 | e1];
    [| intros [= <- <-]; destruct F1 as (?&?&?&?&?&?&?&?); repeat split; assumption].
  unfold bind at 1.
  destruct (on_part r_ba_leg set_r_ba_leg LegModel.get_power b1) as [b2 r2] eqn:E2.
  assert (F2 : same_frame b b2).
  { eapply same_frame_trans; [exact F1 |].
    eapply on_leg_frame; [| exact E2]. intros l b0. repeat split. }
  destruct r2 as [p2 | e2];
    [| intros [= <- <-]; destruct F2 as (?&?&?&?&?&?&?&?); repeat split; assumption].
  unfold bind at 1.
  destruct (on_part l_fo_leg set_l_fo_leg LegModel.get_power b2) as [b3 r3] eqn:E3.
  assert (F3 : same_frame b b3).
  { eapply same_frame_trans; [exact F2 |].
    eapply on_leg_frame; [| exact E3]. intros l b0. repeat split. }
  destruct r3 as [p3 | e3];
    [| intros [= <- <-]; destruct F3 as (?&?&?&?&?&?&?&?); repeat split; assumption].
  unfold bind at 1.
  destruct (on_part r_fo_leg set_r_fo_leg LegModel.get_power b3) as [b4 r4] eqn:E4.
  assert (F4 : same_frame b b4).
  { eapply same_frame_trans; [exact F3 |].
    eapply on_leg_frame; [| exact E4]. intros l b0. repeat split. }
  destruct r4 as [p4 | e4];
    [| intros [= <- <-]; destruct F4 as (?&?&?&?&?&?&?&?); repeat split; assumption].
  unfold bind at 1. unfold get at 1. unfold bind at 1.
  destruct (sum_power (seq 0 (length (muscles b4))) (0 + p1 + p2 + p3 + p4) b4)
    as [b5 r5] eqn:E5.
  assert (F5 : same_frame b b5).
  { eapply same_frame_trans; [exact F4 |]. eapply sum_power_frame. exact E5. }
  destruct F5 as (Hp&?&?&?&?&?&?&?).
  destruct r5 as [p5 | e5].
  - unfold modify. intros [= <- <-]. simpl.
    split; [exists p5; rewrite Hp; reflexivity |]. repeat split; assumption.
  - intros [= <- <-]. repeat split; assumption.
Qed.

(** When every muscle of the four legs and of the body reports its power
    and stays as it is, [compute_power] returns and appends the sum of
    all reported powers to the history, changing nothing else. *)
Theorem compute_power_total (b : Body C T Brain) (lb rb lf rf bm : list R) :
  reports (LegModel.muscles (l_ba_leg b)) lb ->
  reports (LegModel.muscles (r_ba_leg b)) rb ->
  reports (LegModel.muscles (l_fo_leg b)) lf ->
  reports (LegModel.muscles (r_fo_leg b)) rf ->
  reports (muscles b) bm ->
  compute_power b =
  (set_powers (powers b ++ [sum lb + sum rb + sum lf + sum rf + sum bm]) b, Ok tt).
Proof. apply compute_power_reports. Qed.

(** [compute_power] followed by [get_loss_fct]: once a step's power has
    been recorded the mean is taken over a non-empty history, also on a
    fresh body.  With the trunk alive, a non-zero [dist_ref] and a
    history that does not sum to zero after the step, the loss is
    [tanh (dist / dist_ref) * tanh (power_ref / mean)] with the mean over
    the old history and the new entry. *)
Theorem compute_power_then_loss (w : Host) (b : Body C T Brain)
    (lb rb lf rf bm : list R) (key : string) (obj : GameObject) :
  reports (LegModel.muscles (l_ba_leg b)) lb ->
  reports (LegModel.muscles (r_ba_leg b)) rb ->
  reports (LegModel.muscles (l_fo_leg b)) lf ->
  reports (LegModel.muscles (r_fo_leg b)) rf ->
  reports (muscles b) bm ->
  body_obj b = Some key ->
  objects w !! key = Some obj ->
  dist_ref (config b) <> 0 ->
  sum (powers b) + (sum lb + sum rb + sum lf + sum rf + sum bm) <> 0 ->
  exists (b1 : Body C T Brain) (st' : Host * Body C T Brain),
    compute_power b = (b1, Ok tt) /\
    get_loss_fct (w, b1) =
    (st',
     Ok (tanh (norm (vec_sub (apply (worldTransform obj) (mkVec 0 0 0)) (origin b))
               / dist_ref (config b)) *
         tanh (power_ref (config b)
               / ((sum (powers b) + (sum lb + sum rb + sum lf + sum rf + sum bm))
                  / INR (S (length (powers b))))))).
Proof.
  intros Hlb Hrb Hlf Hrf Hbm Hobj Hkey Href Hsum.
  set (p := sum lb + sum rb + sum lf + sum rf + sum bm) in *.
  set (b1 := set_powers (powers b ++ [p]) b).
  assert (Hne : powers b1 <> []).
  { simpl. intros Hnil. apply app_eq_nil in Hnil. destruct Hnil; discriminate. }
  assert (Hs1 : sum (powers b1) = sum (powers b) + p) by apply sum_app_one.
  assert (Hl1 : length (powers b1) = S (length (powers b))).
  { simpl. rewrite length_app. simpl. lia. }
  destruct (BodyLoss.get_loss_fct_runs w b1 key obj) as (st' & v & Hrun);
    [exact Hobj | exact Hkey | exact Hne | rewrite Hs1; exact Hsum | exact Href |].
  destruct (BodyLoss.get_loss_fct_returns w b1 st' v Hrun)
    as (q & Hq & _ & _ & _ & Hv & _).
  change (body_obj b1) with (body_obj b) in Hq.
  rewrite Hobj, (trunk_position_present w key obj Hkey) in Hq.
  injection Hq as <-.
  rewrite Hs1, Hl1 in Hv. simpl in Hv.
  exists b1, st'. split.
  - apply compute_power_reports; assumption.
  - rewrite Hrun, Hv. reflexivity.
Qed.

End History.

Lemma walking_body_reports :
  let b := Examples.walking_body in
  reports (LegModel.muscles (l_ba_leg b)) [] /\
  reports (LegModel.muscles (r_ba_leg b)) [2; 5] /\
  reports (LegModel.muscles (l_fo_leg b)) [] /\
  reports (LegModel.muscles (r_fo_leg b)) [] /\
  reports (muscles b) [1].
Proof. cbv zeta. unfold reports. repeat split; repeat constructor. Qed.

Lemma compute_power_extends_history_witness :
  let b := Examples.walking_body in
  let b' := set_powers (powers b ++ [sum [] + sum [2; 5] + sum [] + sum [] + sum [1]]) b in
  compute_power b = (b', Ok tt) /\
  (exists p : R, powers b' = powers b ++ [p]) /\
  config b' = config b /\ body_obj b' = body_obj b /\ origin b' = origin b /\
  position b' = position b /\ dist b' = dist b /\ n_iter b' = n_iter b /\
  length (muscles b') = length (muscles b).
Proof.
  intros b b'.
  destruct walking_body_reports as (Hlb & Hrb & Hlf & Hrf & Hbm).
  pose proof (compute_power_reports b [] [2; 5] [] [] [1] Hlb Hrb Hlf Hrf Hbm) as Hrun.
  split; [exact Hrun |].
  exact (compute_power_extends_history b b' (Ok tt) Hrun).
Defined.

Lemma compute_power_total_witness :
  let b := Examples.walking_body in
  reports (LegModel.muscles (r_ba_leg b)) [2; 5] /\
  reports (muscles b) [1] /\
  compute_power b =
  (set_powers (powers b ++ [sum [] + sum [2; 5] + sum [] + sum [] + sum [1]]) b,
   Ok tt).
Proof.
  intros b.
  destruct walking_body_reports as (Hlb & Hrb & Hlf & Hrf & Hbm).
  split; [exact Hrb |]. split; [exact Hbm |].
  exact (compute_power_total b [] [2; 5] [] [] [1] Hlb Hrb Hlf Hrf Hbm).
Defined.

Lemma compute_power_then_loss_witness :
  let b := Examples.walking_body in
  let w := Examples.trunk_host 2 in
  let p := sum [] + sum [2; 5] + sum [] + sum [] + sum [1] in
  dist_ref (config b) <> 0 /\
  sum (powers b) + p <> 0 /\
  exists (b1 : Body (string * R) Examples.Probe unit)
         (st' : Host * Body (string * R) Examples.Probe unit),
    compute_power b = (b1, Ok tt) /\
    get_loss_fct (w, b1) =
    (st',
     Ok (tanh (norm (vec_sub (apply (worldTransform (mkGameObject (Examples.identity_at 2)))
                                    (mkVec 0 0 0)) (origin b))
               / dist_ref (config b)) *
         tanh (power_ref (config b)
               / ((sum (powers b) + p) / INR (S (length (powers b))))))).
Proof.
  intros b w p.
  destruct walking_body_reports as (Hlb & Hrb & Hlf & Hrf & Hbm).
  assert (Href : dist_ref (config b) <> 0) by (simpl; lra).
  assert (Hsum : sum (powers b) + p <> 0) by (unfold p, sum; simpl; lra).
  split; [exact Href |]. split; [exact Hsum |].
  exact (compute_power_then_loss w b [] [2; 5] [] [] [1] "trunk"
           (mkGameObject (Examples.identity_at 2))
           Hlb Hrb Hlf Hrf Hbm eq_refl eq_refl Href Hsum).
Defined.

End BodyPower.

(* ===================================================================== *)
(** * simulations/clients/client.py: what the health check keeps *)
(* ===================================================================== *)

Module ClientInvariants.

Import Connection ClientModel ClientTheory.
Local Open Scope py_scope.
Local Set Warnings "-clear-no-such-hyp".

Lemma healthy_loop (items : list (Z * list SimulationRequest)) (c : Client) :
  (forall k v, (k, v) ∈ items -> dispatched v /\ broken v = false) ->
  for_each items (fun item => check_server item.1 item.2) c = (c, Ok tt).
Proof.
  induction items as [| [k v] items IH]; intros Hall; simpl.
  - reflexivity.
  - destruct (Hall k v) as [Hd Hb]; [left |].
    unfold bind. simpl. rewrite (check_server_clean k v c Hd Hb).
    apply IH. intros k' v' Hin. apply (Hall k' v'). right. exact Hin.
Qed.

Lemma healthy_check (c : Client) :
  (forall k v, results c !! k = Some v -> dispatched v /\ broken v = false) ->
  check_sim c = (c, Ok tt).
Proof.
  intros Hall. unfold check_sim, get. unfold bind at 1. cbn [fst snd].
  apply healthy_loop. intros k v Hin. apply (Hall k v).
  apply elem_of_map_to_list. exact Hin.
Qed.

(** When no server has a failed simulation, [check_sim] changes nothing:
    queue, counters, cloud state, connections, in-flight mapping and log
    are what they were. *)
Theorem check_sim_healthy (c : Client) :
  (forall k v, results c !! k = Some v -> dispatched v /\ broken v = false) ->
  check_sim c = (c, Ok tt) /\
  forall k : Z, snd (check_server k [] c) = Ok tt /\ fst (check_server k [] c) = c.
Proof.
  intros Hall. split; [apply healthy_check, Hall |].
  intros k. split; reflexivity.
Qed.

Lemma check_sim_healthy_witness :
  let c := mkClient [Examples.waiting_request] 1 ∅ []
             {[ 7%Z := [mkSimulationRequest (VInt 11) 1
                          (Some (mkAsyncResult false false))] ]} [] in
  (forall k v, results c !! k = Some v -> dispatched v /\ broken v = false) /\
  check_sim c = (c, Ok tt) /\
  forall k : Z, snd (check_server k [] c) = Ok tt /\ fst (check_server k [] c) = c.
Proof.
  intros c.
  assert (H : forall k v, results c !! k = Some v -> dispatched v /\ broken v = false).
  { intros k v Hkv. simpl in Hkv.
    apply lookup_singleton_Some in Hkv as [_ <-]. split; [| reflexivity].
    repeat constructor. eexists. reflexivity. }
  split; [exact H |].
  exact (check_sim_healthy c H).
Defined.

Lemma requeued_idem (s : SimulationRequest) : requeued (requeued s) = requeued s.
Proof. reflexivity. Qed.

Lemma in_flight_delete (c c1 : Client) (k : Z) (v : list SimulationRequest) :
  results c !! k = Some v ->
  results c1 = delete k (results c) ->
  in_flight c ≡ₚ v ++ in_flight c1.
Proof.
  intros Hk Hr. unfold in_flight. rewrite Hr.
  rewrite <- (map_to_list_delete (results c) k v Hk).
  reflexivity.
Qed.

Lemma held_loop (items : list (Z * list SimulationRequest)) :
  forall c : Client,
    NoDup items.*1 ->
    (forall k v, (k, v) ∈ items -> results c !! k = Some v /\ dispatched v) ->
    exists c' : Client,
      for_each items (fun item => check_server item.1 item.2) c = (c', Ok tt) /\
      requeued <$> held c' ≡ₚ requeued <$> held c.
Proof.
  induction items as [| [k v] items IH]; intros c Hnd Hin.
  - exists c. split; reflexivity.
  - rewrite fmap_cons in Hnd. apply NoDup_cons in Hnd as [Hk Hnd]. simpl in Hk.
    destruct (Hin k v) as [Hkv Hdv]; [left |].
    assert (Hfresh : forall v', (k, v') ∉ items).
    { intros v' Hv'. apply Hk. apply list_elem_of_fmap.
      exists (k, v'). split; [reflexivity | assumption]. }
    destruct (broken v) eqn:Hb.
    + destruct (check_server_broken k v c Hdv Hb) as (c1 & Hrun & Hq & Hn & Hr & Hcs);
        [rewrite Hkv; eexists; reflexivity |].
      destruct (IH c1 Hnd) as (c' & Hloop & Hperm).
      { intros k' v' Hin'. destruct (Hin k' v') as [Hl Hd]; [right; exact Hin' |].
        split; [| exact Hd].
        rewrite Hr, lookup_delete_ne; [exact Hl |].
        intros ->. apply (Hfresh v'), Hin'. }
      exists c'. simpl. unfold bind at 1. cbn [fst snd]. rewrite Hrun.
      split; [exact Hloop |].
      rewrite Hperm. unfold held. rewrite Hq.
      rewrite (in_flight_delete c c1 k v Hkv Hr).
      rewrite !fmap_app, <- app_assoc.
      apply Permutation_app_head, Permutation_app_tail.
      rewrite <- list_fmap_compose. reflexivity.
    + destruct (IH c Hnd) as (c' & Hloop & Hperm).
      { intros k' v' Hin'. apply (Hin k' v'). right. exact Hin'. }
      exists c'. simpl. unfold bind at 1. cbn [fst snd].
      rewrite (check_server_clean k v c Hdv Hb).
      split; [exact Hloop | exact Hperm].
Qed.

(** [check_sim] loses no request and invents none: the requests the
    client holds afterwards, waiting or in flight, are those it held
    before, up to their order and their handles. *)
Theorem check_sim_keeps_requests (c : Client) :
  in_flight_ok c ->
  exists c' : Client,
    check_sim c = (c', Ok tt) /\
    requeued <$> held c' ≡ₚ requeued <$> held c.
Proof.
  intros Hok.
  destruct (held_loop (map_to_list (results c)) c (NoDup_fst_map_to_list _))
    as (c' & Hloop & Hperm).
  { intros k v Hin. apply elem_of_map_to_list in Hin.
    split; [exact Hin | exact (Hok k v Hin)]. }
  exists c'. split; [| exact Hperm].
  unfold check_sim, get. unfold bind at 1. cbn [fst snd]. exact Hloop.
Qed.

Lemma check_sim_keeps_requests_witness :
  in_flight_ok Examples.one_server_client /\
  exists c' : Client,
    check_sim Examples.one_server_client = (c', Ok tt) /\
    requeued <$> held c' ≡ₚ requeued <$> held Examples.one_server_client.
Proof.
  split; [exact one_server_client_ok |].
  exact (check_sim_keeps_requests Examples.one_server_client one_server_client_ok).
Defined.

(** After [check_sim] no server of the in-flight mapping has a failed
    simulation, so a second pass right after the first changes nothing. *)
Theorem check_sim_twice (c : Client) :
  in_flight_ok c ->
  exists c' : Client,
    check_sim c = (c', Ok tt) /\
    (forall k v, results c' !! k = Some v -> results c !! k = Some v /\ broken v = false) /\
    check_sim c' = (c', Ok tt).
Proof.
  intros Hok.
  destruct (check_loop (map_to_list (results c)) c (NoDup_fst_map_to_list _))
    as (c' & Hloop & _ & _ & Hbroken & Hclean).
  { intros k v Hin. apply elem_of_map_to_list in Hin.
    split; [exact Hin | exact (Hok k v Hin)]. }
  assert (Hleft : forall k v, results c' !! k = Some v ->
                    results c !! k = Some v /\ broken v = false).
  { intros k v Hk.
    destruct (results c !! k) as [v0 |] eqn:Hk0.
    - destruct (broken v0) eqn:Hb0.
      + destruct (Hbroken k v0) as [Hnone _];
          [apply elem_of_map_to_list; exact Hk0 | exact Hb0 |].
        rewrite Hnone in Hk. discriminate.
      + destruct (Hclean k) as [Hsame _].
        { intros v1 Hin1. apply elem_of_map_to_list in Hin1.
          rewrite Hk0 in Hin1. injection Hin1 as <-. exact Hb0. }
        rewrite Hsame, Hk0 in Hk. injection Hk as <-. split; [reflexivity | exact Hb0].
    - destruct (Hclean k) as [Hsame _].
      { intros v1 Hin1. apply elem_of_map_to_list in Hin1.
        rewrite Hk0 in Hin1. discriminate. }
      rewrite Hsame, Hk0 in Hk. discriminate. }
  exists c'. split.
  { unfold check_sim, get. unfold bind at 1. cbn [fst snd]. exact Hloop. }
  split; [exact Hleft |].
  apply healthy_check. intros k v Hk.
  destruct (Hleft k v Hk) as [Hk0 Hb]. split; [exact (Hok k v Hk0) | exact Hb].
Qed.

Lemma check_sim_twice_witness :
  in_flight_ok Examples.one_server_client /\
  exists c' : Client,
    check_sim Examples.one_server_client = (c', Ok tt) /\
    (forall k v, results c' !! k = Some v ->
       results Examples.one_server_client !! k = Some v /\ broken v = false) /\
    check_sim c' = (c', Ok tt).
Proof.
  split; [exact one_server_client_ok |].
  exact (check_sim_twice Examples.one_server_client one_server_client_ok).
Defined.

End ClientInvariants.

(* ===================================================================== *)
(** * simulations/clients/client.py: selection and refresh *)
(* ===================================================================== *)

Module ClientSelection.

Import Connection ClientModel ClientTheory.
Local Open Scope py_scope.
Local Open Scope Z_scope.
Local Set Warnings "-clear-no-such-hyp".

Lemma insert_by_threads_perm (x : Z * ServerInfo) (l : list (Z * ServerInfo)) :
  insert_by_threads x l ≡ₚ x :: l.
Proof.
  induction l as [| y l IH]; simpl; [reflexivity |].
  destruct (nb_threads x.2 <=? nb_threads y.2); [reflexivity |].
  rewrite IH. apply Permutation_swap.
Qed.

Lemma sorted_by_threads_perm (l : list (Z * ServerInfo)) :
  sorted_by_threads l ≡ₚ l.
Proof.
  induction l as [| x l IH]; simpl; [reflexivity |].
  rewrite insert_by_threads_perm, IH. reflexivity.
Qed.

Lemma insert_by_threads_sorted (x : Z * ServerInfo) (l : list (Z * ServerInfo)) :
  StronglySorted le_threads l -> StronglySorted le_threads (insert_by_threads x l).
Proof.
  induction 1 as [| y l Hs IH Hy]; simpl.
  - repeat constructor.
  - destruct (nb_threads x.2 <=? nb_threads y.2) eqn:Hle.
    + apply Z.leb_le in Hle. constructor; [constructor; assumption |].
      constructor; [exact Hle |].
      eapply Forall_impl; [exact Hy |]. unfold le_threads. intros z Hz. lia.
    + apply Z.leb_gt in Hle. constructor; [exact IH |].
      rewrite insert_by_threads_perm. constructor; [| exact Hy].
      unfold le_threads. lia.
Qed.

Lemma sorted_by_threads_sorted (l : list (Z * ServerInfo)) :
  StronglySorted le_threads (sorted_by_threads l).
Proof.
  induction l as [| x l IH]; simpl; [constructor |].
  apply insert_by_threads_sorted, IH.
Qed.

Lemma short_list_sorted (l : list (Z * ServerInfo)) :
  (length l < 2)%nat -> StronglySorted le_threads l.
Proof.
  destruct l as [| x [| y l]]; simpl; intros Hl; [| | lia]; repeat constructor.
Qed.

(** The loop over a sorted list of entries of the cloud state. *)
Lemma first_available_sorted (cs : gmap Z ServerInfo) (l : list (Z * ServerInfo)) :
  StronglySorted le_threads l ->
  (forall k info, (k, info) ∈ l -> cs !! k = Some info) ->
  exists k : Z,
    first_available cs l = Ok k /\
    ((k = 0 /\ forall k' info', (k', info') ∈ l -> status info' = false) \/
     (exists info, (k, info) ∈ l /\ status info = true /\
        forall k' info', (k', info') ∈ l -> status info' = true ->
                         nb_threads info <= nb_threads info')).
Proof.
  induction 1 as [| [k0 i0] l Hs IH Hall]; intros Hin; simpl.
  - exists 0. split; [reflexivity |]. left. split; [reflexivity |].
    intros k' info' H'. inversion H'.
  - rewrite (Hin k0 i0) by left.
    destruct (status i0) eqn:Hst.
    + exists k0. split; [reflexivity |]. right. exists i0.
      split; [left |]. split; [exact Hst |].
      intros k' info' H' _. apply elem_of_cons in H' as [[= -> ->] | H'].
      * lia.
      * rewrite Forall_forall in Hall. apply (Hall (k', info')). exact H'.
    + destruct IH as (k & Hrun & Hk).
      { intros k' info' H'. apply Hin. right. exact H'. }
      exists k. split; [exact Hrun |].
      destruct Hk as [[-> Hnone] | (info & Hkin & Hs' & Hmin)].
      * left. split; [reflexivity |].
        intros k' info' H'. apply elem_of_cons in H' as [[= -> ->] | H'];
          [exact Hst | apply (Hnone k' info' H')].
      * right. exists info. split; [right; exact Hkin |].
        split; [exact Hs' |].
        intros k' info' H' Hav. apply elem_of_cons in H' as [[= -> ->] | H'].
        -- congruence.
        -- apply (Hmin k' info' H' Hav).
Qed.

(** What the selection gives on a cloud state. *)
Lemma selection (cs : gmap Z ServerInfo) :
  exists k : Z,
    first_available cs
      (if (2 <=? size cs)%nat then sorted_by_threads (map_to_list cs)
       else map_to_list cs) = Ok k /\
    ((k = 0 /\ forall k' info', cs !! k' = Some info' -> status info' = false) \/
     (exists info, cs !! k = Some info /\ status info = true /\
        forall k' info', cs !! k' = Some info' -> status info' = true ->
                         nb_threads info <= nb_threads info')).
Proof.
  set (l := if (2 <=? size cs)%nat then sorted_by_threads (map_to_list cs)
            else map_to_list cs).
  assert (Hperm : l ≡ₚ map_to_list cs).
  { unfold l. destruct (2 <=? size cs)%nat;
      [apply sorted_by_threads_perm | reflexivity]. }
  assert (Hsorted : StronglySorted le_threads l).
  { unfold l. destruct (2 <=? size cs)%nat eqn:Hsz.
    - apply sorted_by_threads_sorted.
    - apply short_list_sorted. rewrite length_map_to_list.
      apply Nat.leb_gt in Hsz. exact Hsz. }
  assert (Hmem : forall k info, (k, info) ∈ l <-> cs !! k = Some info).
  { intros k info. rewrite Hperm. apply elem_of_map_to_list. }
  destruct (first_available_sorted cs l Hsorted) as (k & Hrun & Hk).
  { intros k info. apply Hmem. }
  exists k. split; [exact Hrun |].
  destruct Hk as [[-> Hnone] | (info & Hkin & Hs & Hmin)].
  - left. split; [reflexivity |]. intros k' info' H'.
    apply (Hnone k' info'). apply Hmem. exact H'.
  - right. exists info. split; [apply Hmem; exact Hkin |].
    split; [exact Hs |]. intros k' info' H' Hav.
    apply (Hmin k' info'); [apply Hmem; exact H' | exact Hav].
Qed.

(** [__select_candidate] after the refresh: it returns 0 when no server
    of the cloud state is available after the health check, and otherwise
    the key of an available server with the fewest threads among the
    available ones. *)
Theorem select_candidate_least_loaded (c : Client) :
  in_flight_ok c ->
  exists (c' : Client) (k : Z),
    check_sim c = (c', Ok tt) /\
    select_candidate c = (c', Ok k) /\
    ((k = 0 /\
      forall k' info', cloud_state c' !! k' = Some info' -> status info' = false) \/
     (exists info, cloud_state c' !! k = Some info /\ status info = true /\
        forall k' info', cloud_state c' !! k' = Some info' -> status info' = true ->
                         nb_threads info <= nb_threads info')).
Proof.
  intros Hok.
  destruct (check_loop (map_to_list (results c)) c (NoDup_fst_map_to_list _))
    as (c' & Hloop & _).
  { intros k v Hin. apply elem_of_map_to_list in Hin.
    split; [exact Hin | exact (Hok k v Hin)]. }
  assert (Hcheck : check_sim c = (c', Ok tt)).
  { unfold check_sim, get. unfold bind at 1. cbn [fst snd]. exact Hloop. }
  destruct (selection (cloud_state c')) as (k & Hrun & Hk).
  exists c', k. split; [exact Hcheck |]. split; [| exact Hk].
  unfold select_candidate. unfold bind at 1. rewrite Hcheck.
  unfold get, bind, lift. cbn [fst snd]. rewrite Hrun. reflexivity.
Qed.

Lemma select_candidate_least_loaded_witness :
  in_flight_ok Examples.one_server_client /\
  exists (c' : Client) (k : Z),
    check_sim Examples.one_server_client = (c', Ok tt) /\
    select_candidate Examples.one_server_client = (c', Ok k) /\
    ((k = 0 /\
      forall k' info', cloud_state c' !! k' = Some info' -> status info' = false) \/
     (exists info, cloud_state c' !! k = Some info /\ status info = true /\
        forall k' info', cloud_state c' !! k' = Some info' -> status info' = true ->
                         nb_threads info <= nb_threads info')).
Proof.
  split; [exact one_server_client_ok |].
  exact (select_candidate_least_loaded Examples.one_server_client one_server_client_ok).
Defined.

(** A server with a failed simulation is not selected by the call that
    finds the failure: the health check marks it unavailable before the
    selection looks at the cloud state. *)
Theorem select_candidate_skips_broken (c : Client) (s : Z)
    (sims : list SimulationRequest) :
  in_flight_ok c ->
  results c !! s = Some sims ->
  broken sims = true ->
  s <> 0 ->
  exists (c' : Client) (k : Z),
    select_candidate c = (c', Ok k) /\ k <> s.
Proof.
  intros Hok Hs Hb Hs0.
  destruct (check_loop (map_to_list (results c)) c (NoDup_fst_map_to_list _))
    as (c' & Hloop & _ & _ & Hbroken & _).
  { intros k v Hin. apply elem_of_map_to_list in Hin.
    split; [exact Hin | exact (Hok k v Hin)]. }
  assert (Hcheck : check_sim c = (c', Ok tt)).
  { unfold check_sim, get. unfold bind at 1. cbn [fst snd]. exact Hloop. }
  destruct (Hbroken s sims) as [_ Hcloud];
    [apply elem_of_map_to_list; exact Hs | exact Hb |].
  destruct (selection (cloud_state c')) as (k & Hrun & Hk).
  exists c', k. split.
  - unfold select_candidate. unfold bind at 1. rewrite Hcheck.
    unfold get, bind, lift. cbn [fst snd]. rewrite Hrun. reflexivity.
  - destruct Hk as [[-> _] | (info & Hki & Hst & _)]; [congruence |].
    intros ->. rewrite Hcloud in Hki.
    destruct (cloud_state c !! s) as [old |]; simpl in Hki; [| discriminate].
    injection Hki as <-. simpl in Hst. discriminate.
Qed.

Lemma select_candidate_skips_broken_witness :
  in_flight_ok Examples.one_server_client /\
  results Examples.one_server_client !! 7 = Some [Examples.expired_request] /\
  broken [Examples.expired_request] = true /\
  7 <> 0 /\
  exists (c' : Client) (k : Z),
    select_candidate Examples.one_server_client = (c', Ok k) /\ k <> 7.
Proof.
  assert (H1 : results Examples.one_server_client !! 7 = Some [Examples.expired_request])
    by reflexivity.
  assert (H2 : broken [Examples.expired_request] = true) by reflexivity.
  assert (H3 : 7 <> 0) by lia.
  split; [exact one_server_client_ok |].
  split; [exact H1 |]. split; [exact H2 |]. split; [exact H3 |].
  exact (select_candidate_skips_broken Examples.one_server_client 7
           [Examples.expired_request] one_server_client_ok H1 H2 H3).
Defined.

(** ** Refresh *)

Lemma serv_dict_lookup (hash : string * Z -> Z) (server_list : list (string * Z))
    (k : Z) (info : ServerInfo) :
  serv_dict hash server_list !! k = Some info ->
  exists x, x ∈ server_list /\ hash x = k /\
            info = mkServerInfo x.1 x.2 true 0.
Proof.
  intros Hk. unfold serv_dict in Hk.
  apply elem_of_list_to_map_2 in Hk.
  apply elem_of_reverse, list_elem_of_fmap in Hk as (x & [= -> ->] & Hx).
  exists x. repeat split. exact Hx.
Qed.

Lemma serv_dict_is_Some (hash : string * Z -> Z) (server_list : list (string * Z))
    (k : Z) :
  is_Some (serv_dict hash server_list !! k) <->
  exists x, x ∈ server_list /\ hash x = k.
Proof.
  split.
  - intros [info Hk]. destruct (serv_dict_lookup _ _ _ _ Hk) as (x & Hx & Hh & _).
    exists x. split; assumption.
  - intros (x & Hx & Hh).
    destruct (serv_dict hash server_list !! k) as [info |] eqn:Hk;
      [eexists; reflexivity |].
    exfalso. unfold serv_dict in Hk.
    apply not_elem_of_list_to_map_2 in Hk. apply Hk.
    apply list_elem_of_fmap.
    exists (hash x, mkServerInfo x.1 x.2 true 0). split; [symmetry; exact Hh |].
    apply elem_of_reverse, list_elem_of_fmap. exists x. split; [reflexivity | exact Hx].
Qed.

(** The cloud state after a refresh, key by key.  A key that no
    discovered server hashes to is absent.  A server that was known and
    is still discovered keeps its entry as it is, its status and its
    thread count included: a server marked unavailable stays so as long
    as the discovery reports it.  A discovered server that was not known
    is added only while requests are waiting, available and with no
    thread.  The queue and the in-flight mapping are not touched. *)
Theorem refresh_cloud_state_lookup (hash : string * Z -> Z)
    (server_list : list (string * Z)) (c : Client) (k : Z) :
  rqt (refresh_cloud_state hash server_list c) = rqt c /\
  results (refresh_cloud_state hash server_list c) = results c /\
  (~ (exists x, x ∈ server_list /\ hash x = k) ->
   cloud_state (refresh_cloud_state hash server_list c) !! k = None) /\
  (forall old : ServerInfo,
     cloud_state c !! k = Some old ->
     (exists x, x ∈ server_list /\ hash x = k) ->
     cloud_state (refresh_cloud_state hash server_list c) !! k = Some old) /\
  (cloud_state c !! k = None -> rqt c = [] ->
   cloud_state (refresh_cloud_state hash server_list c) !! k = None) /\
  (cloud_state c !! k = None -> rqt c <> [] ->
   (exists x, x ∈ server_list /\ hash x = k) ->
   exists x, x ∈ server_list /\ hash x = k /\
     cloud_state (refresh_cloud_state hash server_list c) !! k =
       Some (mkServerInfo x.1 x.2 true 0)).
Proof.
  unfold refresh_cloud_state. cbn [rqt results cloud_state set_cloud_state].
  split; [reflexivity |]. split; [reflexivity |].
  set (sd := serv_dict hash server_list).
  split; [| split; [| split]].
  - intros Hno. apply map_lookup_filter_None_2. right.
    intros x _ Hsome. apply Hno. apply (serv_dict_is_Some hash server_list k).
    exact Hsome.
  - intros old Hold Hex.
    apply map_lookup_filter_Some_2.
    + destruct (rqt c); [exact Hold |].
      apply lookup_union_Some_raw. left. exact Hold.
    + apply (serv_dict_is_Some hash server_list k). exact Hex.
  - intros Hnone Hq. rewrite Hq.
    apply map_lookup_filter_None_2. left. exact Hnone.
  - intros Hnone Hq Hex. subst sd.
    apply (serv_dict_is_Some hash server_list k) in Hex as [info Hinfo].
    destruct (serv_dict_lookup _ _ _ _ Hinfo) as (x & Hx & Hh & ->).
    exists x. split; [exact Hx |]. split; [exact Hh |].
    apply map_lookup_filter_Some_2.
    + destruct (rqt c) as [| q0 q]; [contradiction |].
      apply lookup_union_Some_raw. right. split; [exact Hnone |].
      rewrite lookup_fmap, Hinfo. reflexivity.
    + cbn. rewrite Hinfo. eexists. reflexivity.
Qed.

End ClientSelection.
